(** * Azure architecture map: the interaction reducer and its helpers

    A shallow embedding of [utils/helpers.py] (text matcher, colour deriver,
    snapshot store, graph document builder) and of the Dash callback
    [handle_interactions] of [callbacks.py], followed by the vocabulary of
    the properties and by their proofs.

    The callback receives whatever the browser sends, so values are modelled
    dynamically: [pyval] is the universe of JSON-shaped Python values, and
    every operation that Python may refuse returns in the [result] monad with
    the exception it raises. Strings are ASCII text. Floats are IEEE
    binary64, as in CPython; integers are unbounded.

    The store is a table of rows with 64-bit rowids behind a backend that
    answers or not. The [json] module of the standard library is a parameter
    of the reducer. A log of the calls made to the store is kept beside the
    database, to say which calls a dispatch made. Logging proper is left
    out. *)

From Stdlib Require Import ZArith List String Ascii Bool Lia Floats.

Set Warnings "-register-all,-inexact-float".
Import ListNotations.
Local Open Scope string_scope.
Local Open Scope list_scope.

(** ** Exceptions and the result monad *)

Inductive exn : Type :=
| PreventUpdate
| TypeError
| KeyError
| AttributeError
| ValueError
| OverflowError
| SqliteError
| JSONDecodeError.

Inductive result (A : Type) : Type :=
| Ok (a : A)
| Raise (e : exn).

Arguments Ok {A} a.
Arguments Raise {A} e.

Definition bind {A B : Type} (m : result A) (k : A -> result B) : result B :=
  match m with
  | Ok a => k a
  | Raise e => Raise e
  end.

Notation "x <- m ;; k" := (bind m (fun x => k))
  (at level 61, m at next level, right associativity).

(** [try: m except Exception: h] — every exception of the model derives from
    [Exception], so the handler takes them all. *)
Definition try_except {A : Type} (m : result A) (h : exn -> A) : A :=
  match m with
  | Ok a => a
  | Raise e => h e
  end.

Definition returns {A : Type} (m : result A) : Prop := exists a, m = Ok a.

(** ** Python values *)

Inductive pyval : Type :=
| PNone
| PBool (b : bool)
| PInt (z : Z)
| PFloat (f : float)
| PStr (s : string)
| PList (l : list pyval)
| PDict (d : list (string * pyval)).

(** A dict is kept as its items in insertion order; keys are strings, as
    JSON delivers them. *)
Definition pydict := list (string * pyval).

(** ** Strings *)

Definition char_code (c : ascii) : nat := nat_of_ascii c.

(** [str.isspace] on the ASCII range: TAB..CR, FS..US and SPACE. *)
Definition is_space (c : ascii) : bool :=
  let n := char_code c in
  ((9 <=? n)%nat && (n <=? 13)%nat) || ((28 <=? n)%nat && (n <=? 32)%nat).

Definition lower_char (c : ascii) : ascii :=
  let n := char_code c in
  if (65 <=? n)%nat && (n <=? 90)%nat then ascii_of_nat (n + 32) else c.

Definition upper_char (c : ascii) : ascii :=
  let n := char_code c in
  if (97 <=? n)%nat && (n <=? 122)%nat then ascii_of_nat (n - 32) else c.

Fixpoint str_map (f : ascii -> ascii) (s : string) : string :=
  match s with
  | EmptyString => EmptyString
  | String c t => String (f c) (str_map f t)
  end.

(** [s.lower()] *)
Definition lower (s : string) : string := str_map lower_char s.

Definition upper (s : string) : string := str_map upper_char s.

(** [needle in hay] for two strings. *)
Fixpoint str_contains (needle hay : string) : bool :=
  prefix needle hay ||
  match hay with
  | EmptyString => false
  | String _ t => str_contains needle t
  end.

Definition str_rev (s : string) : string :=
  string_of_list_ascii (rev (list_ascii_of_string s)).

Fixpoint lstrip_by (p : ascii -> bool) (s : string) : string :=
  match s with
  | EmptyString => EmptyString
  | String c t => if p c then lstrip_by p t else s
  end.

Definition rstrip_by (p : ascii -> bool) (s : string) : string :=
  str_rev (lstrip_by p (str_rev s)).

(** [s.strip()] *)
Definition strip (s : string) : string := rstrip_by is_space (lstrip_by is_space s).

(** [s.lstrip('#')] *)
Definition lstrip_hash (s : string) : string :=
  lstrip_by (fun c => Ascii.eqb c "#"%char) s.

(** [s.split()]: maximal runs of non-space characters. [tok] is the token
    being read, if any. *)
Fixpoint split_aux (s : string) (tok : option string) : list string :=
  match s with
  | EmptyString => match tok with Some t => [t] | None => [] end
  | String c rest =>
      if is_space c then
        match tok with
        | Some t => t :: split_aux rest None
        | None => split_aux rest None
        end
      else
        split_aux rest
          (Some (match tok with Some t => String.append t (String c EmptyString) | None => String c EmptyString end))
  end.

Definition split (s : string) : list string := split_aux s None.

(** [sep.join(l)] *)
Definition join (sep : string) (l : list string) : string := concat sep l.

(** [s.replace('_', ' ')] *)
Definition replace_underscores (s : string) : string :=
  str_map (fun c => if Ascii.eqb c "_"%char then " "%char else c) s.

(** [s[a:b]] for [0 <= a <= b] *)
Definition slice (a b : nat) (s : string) : string := substring a (b - a) s.

(** [l.remove(x)] on a list that contains [x]: drops the first occurrence. *)
Fixpoint remove_first (x : string) (l : list string) : list string :=
  match l with
  | [] => []
  | y :: t => if String.eqb y x then t else y :: remove_first x t
  end.

Definition str_in_list (x : string) (l : list string) : bool :=
  existsb (String.eqb x) l.

(** ** Integers in base 16 *)

Definition hex_digit (c : ascii) : option Z :=
  let n := char_code c in
  if (48 <=? n)%nat && (n <=? 57)%nat then Some (Z.of_nat (n - 48))
  else if (97 <=? n)%nat && (n <=? 102)%nat then Some (Z.of_nat (n - 87))
  else if (65 <=? n)%nat && (n <=? 70)%nat then Some (Z.of_nat (n - 55))
  else None.

(** Digits with single underscores between them; [after_digit] says whether
    the previous character was a digit. *)
Fixpoint int16_digits (s : string) (acc : Z) (after_digit : bool) : option Z :=
  match s with
  | EmptyString => if after_digit then Some acc else None
  | String c t =>
      if Ascii.eqb c "_"%char then
        if after_digit then int16_digits t acc false else None
      else
        match hex_digit c with
        | Some d => int16_digits t (16 * acc + d)%Z true
        | None => None
        end
  end.

(** The whitespace [int] skips around an ASCII literal: TAB..CR and SPACE. *)
Definition is_c_space (c : ascii) : bool :=
  let n := char_code c in
  ((9 <=? n)%nat && (n <=? 13)%nat) || (n =? 32)%nat.

(** [int(s, 16)]: surrounding whitespace, an optional sign, an optional
    [0x] prefix (one underscore may follow it), then the digits. *)
Definition int16 (s : string) : result Z :=
  let t := rstrip_by is_c_space (lstrip_by is_c_space s) in
  let '(neg, t1) :=
    match t with
    | String "-"%char r => (true, r)
    | String "+"%char r => (false, r)
    | _ => (false, t)
    end in
  let t2 :=
    match t1 with
    | String "0"%char (String x r) =>
        if Ascii.eqb x "x"%char || Ascii.eqb x "X"%char then
          match r with
          | String "_"%char r' => r'
          | _ => r
          end
        else t1
    | _ => t1
    end in
  match int16_digits t2 0%Z false with
  | Some v => Ok (if neg then (- v)%Z else v)
  | None => Raise ValueError
  end.

Definition hex_char (d : Z) : ascii :=
  nth (Z.to_nat d) (list_ascii_of_string "0123456789ABCDEF") "0"%char.

Fixpoint hex_of_nonneg (fuel : nat) (n : Z) (acc : string) : string :=
  match fuel with
  | O => acc
  | S k =>
      let acc' := String (hex_char (n mod 16)) acc in
      if (n / 16 =? 0)%Z then acc' else hex_of_nonneg k (n / 16)%Z acc'
  end.

Definition hex_upper (n : Z) : string :=
  hex_of_nonneg (S (Z.to_nat (Z.log2 n))) n EmptyString.

Fixpoint zeros (k : nat) : string :=
  match k with
  | O => EmptyString
  | S k' => String "0"%char (zeros k')
  end.

Definition zero_pad (w : nat) (s : string) : string :=
  String.append (zeros (w - String.length s)) s.

(** [str(n)] of an integer: decimal digits, with [-] for a negative one. *)
Definition dec_char (d : Z) : ascii :=
  nth (Z.to_nat d) (list_ascii_of_string "0123456789") "0"%char.

Fixpoint dec_of_nonneg (fuel : nat) (n : Z) (acc : string) : string :=
  match fuel with
  | O => acc
  | S k =>
      let acc' := String (dec_char (n mod 10)) acc in
      if (n / 10 =? 0)%Z then acc' else dec_of_nonneg k (n / 10)%Z acc'
  end.

Definition decimal (n : Z) : string :=
  if (n <? 0)%Z
  then String "-"%char (dec_of_nonneg (S (Z.to_nat (Z.log2 (- n)))) (- n) EmptyString)
  else dec_of_nonneg (S (Z.to_nat (Z.log2 n))) n EmptyString.

(** ['{:02X}'.format(n)]: the sign counts in the width. *)
Definition format_02X (n : Z) : string :=
  if (n <? 0)%Z then String "-"%char (zero_pad 1 (hex_upper (- n)))
  else zero_pad 2 (hex_upper n).

(** ** Numbers *)

Inductive pynum : Type :=
| NInt (z : Z)
| NFloat (f : float).

(** [float(z)]: round to nearest even; too large is [OverflowError]. *)
Definition float_of_Z (z : Z) : result float :=
  let f := SF2Prim (binary_normalize prec emax z 0 false) in
  match Prim2SF f with
  | S754_infinity _ => Raise OverflowError
  | _ => Ok f
  end.

(** [int(f)]: truncation toward zero. *)
Definition int_of_float (f : float) : result Z :=
  match Prim2SF f with
  | S754_zero _ => Ok 0%Z
  | S754_finite s m e =>
      let a := if (0 <=? e)%Z then (Zpos m * 2 ^ e)%Z else (Zpos m / 2 ^ (- e))%Z in
      Ok (if s then (- a)%Z else a)
  | S754_infinity _ => Raise OverflowError
  | S754_nan => Raise ValueError
  end.

(** Exact comparison of an integer with a float; [None] on NaN. *)
Definition Z_cmp_float (z : Z) (f : float) : option comparison :=
  match Prim2SF f with
  | S754_nan => None
  | S754_infinity s => Some (if s then Gt else Lt)
  | S754_zero _ => Some (z ?= 0)%Z
  | S754_finite s m e =>
      let v := if s then Zneg m else Zpos m in
      if (0 <=? e)%Z then Some (z ?= v * 2 ^ e)%Z
      else Some (z * 2 ^ (- e) ?= v)%Z
  end.

Definition float_cmp (x y : float) : option comparison :=
  match PrimFloat.compare x y with
  | FEq => Some Eq
  | FLt => Some Lt
  | FGt => Some Gt
  | FNotComparable => None
  end.

Definition num_cmp (a b : pynum) : option comparison :=
  match a, b with
  | NInt x, NInt y => Some (x ?= y)%Z
  | NFloat x, NFloat y => float_cmp x y
  | NInt x, NFloat y => Z_cmp_float x y
  | NFloat x, NInt y => option_map CompOpp (Z_cmp_float y x)
  end.

Definition num_lt (a b : pynum) : bool :=
  match num_cmp a b with Some Lt => true | _ => false end.

Definition num_le (a b : pynum) : bool :=
  match num_cmp a b with Some Lt | Some Eq => true | _ => false end.

Definition num_eq (a b : pynum) : bool :=
  match num_cmp a b with Some Eq => true | _ => false end.

Definition num_arith (fz : Z -> Z -> Z) (ff : float -> float -> float)
    (a b : pynum) : result pynum :=
  match a, b with
  | NInt x, NInt y => Ok (NInt (fz x y))
  | NFloat x, NFloat y => Ok (NFloat (ff x y))
  | NInt x, NFloat y => fx <- float_of_Z x ;; Ok (NFloat (ff fx y))
  | NFloat x, NInt y => fy <- float_of_Z y ;; Ok (NFloat (ff x fy))
  end.

Definition num_add : pynum -> pynum -> result pynum := num_arith Z.add PrimFloat.add.
Definition num_sub : pynum -> pynum -> result pynum := num_arith Z.sub PrimFloat.sub.
Definition num_mul : pynum -> pynum -> result pynum := num_arith Z.mul PrimFloat.mul.

(** [int(x)] *)
Definition num_int (a : pynum) : result Z :=
  match a with
  | NInt z => Ok z
  | NFloat f => int_of_float f
  end.

(** [bool] is a subclass of [int]. *)
Definition as_num (v : pyval) : option pynum :=
  match v with
  | PBool b => Some (NInt (if b then 1 else 0)%Z)
  | PInt z => Some (NInt z)
  | PFloat f => Some (NFloat f)
  | _ => None
  end.

Definition of_num (n : pynum) : pyval :=
  match n with
  | NInt z => PInt z
  | NFloat f => PFloat f
  end.

(** ** Dynamic operations on values *)

Fixpoint assoc {A : Type} (k : string) (d : list (string * A)) : option A :=
  match d with
  | [] => None
  | (k', v) :: t => if String.eqb k' k then Some v else assoc k t
  end.

(** [d[k] = x]: an existing key keeps its place, a new key goes last. *)
Fixpoint dict_set (k : string) (x : pyval) (d : pydict) : pydict :=
  match d with
  | [] => [(k, x)]
  | (k', v) :: t =>
      if String.eqb k' k then (k', x) :: t else (k', v) :: dict_set k x t
  end.

(** [a == b] *)
Fixpoint py_eq (a b : pyval) {struct a} : bool :=
  match a, b with
  | PNone, PNone => true
  | PStr s, PStr t => String.eqb s t
  | PList l, PList m =>
      (fix go (l m : list pyval) {struct l} : bool :=
         match l, m with
         | [], [] => true
         | x :: l', y :: m' => py_eq x y && go l' m'
         | _, _ => false
         end) l m
  | PDict d, PDict e =>
      Nat.eqb (List.length d) (List.length e) &&
      (fix go (d : list (string * pyval)) {struct d} : bool :=
         match d with
         | [] => true
         | (k, v) :: d' =>
             match assoc k e with
             | Some w => py_eq v w
             | None => false
             end && go d'
         end) d
  | _, _ =>
      match as_num a, as_num b with
      | Some x, Some y => num_eq x y
      | _, _ => false
      end
  end.

(** Truth value of an object, as [if v:] takes it. *)
Definition py_truthy (v : pyval) : bool :=
  match v with
  | PNone => false
  | PBool b => b
  | PInt z => negb (z =? 0)%Z
  | PFloat f => negb (PrimFloat.eqb f 0%float)
  | PStr s => negb (String.eqb s EmptyString)
  | PList l => match l with [] => false | _ => true end
  | PDict d => match d with [] => false | _ => true end
  end.

(** [v[k]] with a string key *)
Definition py_getitem (v : pyval) (k : string) : result pyval :=
  match v with
  | PDict d => match assoc k d with Some x => Ok x | None => Raise KeyError end
  | _ => Raise TypeError
  end.

(** [v.get(k, default)] *)
Definition py_get (v : pyval) (k : string) (default : pyval) : result pyval :=
  match v with
  | PDict d => Ok (match assoc k d with Some x => x | None => default end)
  | _ => Raise AttributeError
  end.

(** [k in v] for a string [k]: a key of a dict, an item of a list, a
    substring of a string. *)
Definition py_in (k : string) (v : pyval) : result bool :=
  match v with
  | PDict d => Ok (match assoc k d with Some _ => true | None => false end)
  | PList l => Ok (existsb (py_eq (PStr k)) l)
  | PStr s => Ok (str_contains k s)
  | _ => Raise TypeError
  end.

(** [v[k] = x] with a string key *)
Definition py_setitem (v : pyval) (k : string) (x : pyval) : result pyval :=
  match v with
  | PDict d => Ok (PDict (dict_set k x d))
  | _ => Raise TypeError
  end.

Fixpoint chars (s : string) : list pyval :=
  match s with
  | EmptyString => []
  | String c t => PStr (String c EmptyString) :: chars t
  end.

(** The items [for x in v] visits. *)
Definition py_iter (v : pyval) : result (list pyval) :=
  match v with
  | PList l => Ok l
  | PDict d => Ok (map (fun kv => PStr (fst kv)) d)
  | PStr s => Ok (chars s)
  | _ => Raise TypeError
  end.

(** [v.split()], [v.strip()], [v.lower()]: methods of [str] only. *)
Definition py_split (v : pyval) : result (list string) :=
  match v with
  | PStr s => Ok (split s)
  | _ => Raise AttributeError
  end.

Definition py_strip (v : pyval) : result string :=
  match v with
  | PStr s => Ok (strip s)
  | _ => Raise AttributeError
  end.

Definition py_lower (v : pyval) : result string :=
  match v with
  | PStr s => Ok (lower s)
  | _ => Raise AttributeError
  end.

(** [a + b], [a - b] and [a < b] on numbers; anything else against a float
    is a [TypeError]. *)
Definition py_arith (op : pynum -> pynum -> result pynum) (a b : pyval) : result pyval :=
  match as_num a, as_num b with
  | Some x, Some y => n <- op x y ;; Ok (of_num n)
  | _, _ => Raise TypeError
  end.

Definition py_lt (a b : pyval) : result bool :=
  match as_num a, as_num b with
  | Some x, Some y => Ok (num_lt x y)
  | _, _ => Raise TypeError
  end.

(** [min(a, b)] keeps [a] unless [b < a]; [max(a, b)] keeps [a] unless
    [b > a]. The object itself is returned. *)
Definition py_min (a b : pyval) : result pyval :=
  c <- py_lt b a ;; Ok (if c then b else a).

Definition py_max (a b : pyval) : result pyval :=
  c <- py_lt a b ;; Ok (if c then b else a).

(** A [for] loop whose body may update the item in place: the items after
    the loop, and the exception that stopped it, if any. *)
Fixpoint for_each (body : pyval -> result pyval) (items : list pyval)
  : list pyval * option exn :=
  match items with
  | [] => ([], None)
  | x :: t =>
      match body x with
      | Ok x' => let '(t', e) := for_each body t in (x' :: t', e)
      | Raise e => (x :: t, Some e)
      end
  end.

(** The same over any container: only the items of a list are mutable
    objects; iterating a dict or a string visits strings. *)
Definition for_elements (body : pyval -> result pyval) (container : pyval)
  : pyval * option exn :=
  match container with
  | PList l => let '(l', e) := for_each body l in (PList l', e)
  | _ =>
      match py_iter container with
      | Ok items => (container, snd (for_each body items))
      | Raise e => (container, Some e)
      end
  end.

(** ** Text matcher: [perform_fuzzy_search] *)

(** The comprehension [[label for label in all_labels if q in label.lower()]] *)
Fixpoint matching_labels_of (q : string) (all_labels : list pyval) : result (list pyval) :=
  match all_labels with
  | [] => Ok []
  | label :: t =>
      l <- py_lower label ;;
      rest <- matching_labels_of q t ;;
      Ok (if str_contains q l then label :: rest else rest)
  end.

Definition perform_fuzzy_search (search_value : pyval) (all_labels : list pyval) : list pyval :=
  if negb (py_truthy search_value) then []
  else
    try_except
      (search_value_lower <- py_lower search_value ;;
       matching_labels_of search_value_lower all_labels)
      (fun _ => []).

(** ** Colour deriver: [lighten_color] *)

Fixpoint double_chars (s : string) : string :=
  match s with
  | EmptyString => EmptyString
  | String c t => String c (String c (double_chars t))
  end.

(** [int(c + (255 - c) * factor)] *)
Definition lighten_channel (c : Z) (factor : pynum) : result Z :=
  d <- num_mul (NInt (255 - c)) factor ;;
  s <- num_add (NInt c) d ;;
  num_int s.

(** The handler returns [hex_color] as it stands when the exception is
    raised: after [lstrip] and the shorthand expansion have rebound it. *)
Definition lighten_color (hex_color : string) (factor : pynum) : string :=
  let hex_color := lstrip_hash hex_color in
  let hex_color :=
    if Nat.eqb (String.length hex_color) 3 then double_chars hex_color else hex_color in
  try_except
    (r <- int16 (slice 0 2 hex_color) ;;
     g <- int16 (slice 2 4 hex_color) ;;
     b <- int16 (slice 4 6 hex_color) ;;
     r <- lighten_channel r factor ;;
     g <- lighten_channel g factor ;;
     b <- lighten_channel b factor ;;
     Ok (String "#"%char
           (String.append (format_02X r) (String.append (format_02X g) (format_02X b)))))
    (fun _ => hex_color).

(** ** Graph document builder: [load_graph_elements] *)

Definition PRIMARY_NODE_COLORS : list string :=
  [ "#1f77b4"; "#ff7f0e"; "#2ca02c"; "#d62728"; "#9467bd";
    "#8c564b"; "#e377c2"; "#7f7f7f"; "#bcbd22"; "#17becf" ].

(** The taxonomy of [data.py]: the central node descriptor, the primary
    categories in order, and the subcategories of each category in order. *)
Record central := {
  central_id : string;
  central_label : string;
  central_description : string;
  central_notes : option string
}.

Definition primaries := list (string * string).
Definition subcategories := list (string * list (string * string)).

(** The [data] and [classes] of a node element, and the [data] of an edge. *)
Record node := {
  node_id : string;
  node_label : string;
  node_description : string;
  node_notes : string;
  node_color : string;
  node_classes : string
}.

Record edge := {
  edge_source : string;
  edge_target : string;
  edge_id : string
}.

Definition node_element (n : node) : pyval :=
  PDict [ ("data", PDict [ ("id", PStr (node_id n));
                           ("label", PStr (node_label n));
                           ("description", PStr (node_description n));
                           ("notes", PStr (node_notes n));
                           ("color", PStr (node_color n)) ]);
          ("classes", PStr (node_classes n)) ].

Definition edge_element (e : edge) : pyval :=
  PDict [ ("data", PDict [ ("source", PStr (edge_source e));
                           ("target", PStr (edge_target e));
                           ("id", PStr (edge_id e)) ]) ].

(** [f"{a}_to_{b}"] *)
Definition edge_name (a b : string) : string :=
  String.append a (String.append "_to_" b).

Definition central_element (c : central) : node :=
  {| node_id := central_id c;
     node_label := replace_underscores (central_label c);
     node_description := central_description c;
     node_notes := match central_notes c with Some n => n | None => "" end;
     node_color := "#87CEEB";
     node_classes := "central-node" |}.

(** The loop over [enumerate(primary_nodes.items())], from index [i]. *)
Fixpoint primary_loop (c : central) (i : nat) (ps : primaries) : list node * list edge :=
  match ps with
  | [] => ([], [])
  | (primary_id, primary_desc) :: t =>
      let color := nth (i mod List.length PRIMARY_NODE_COLORS) PRIMARY_NODE_COLORS "" in
      let n := {| node_id := primary_id;
                  node_label := replace_underscores primary_id;
                  node_description := primary_desc;
                  node_notes := "";
                  node_color := color;
                  node_classes := "primary-node" |} in
      let e := {| edge_source := central_id c;
                  edge_target := primary_id;
                  edge_id := edge_name (central_id c) primary_id |} in
      let '(ns, es) := primary_loop c (S i) t in
      (n :: ns, e :: es)
  end.

(** [next((n['data']['color'] for n in nodes if n['data']['id'] == parent_id), '#FFFFFF')] *)
Fixpoint parent_color_of (parent_id : string) (nodes : list node) : string :=
  match nodes with
  | [] => "#FFFFFF"
  | n :: t => if String.eqb (node_id n) parent_id then node_color n else parent_color_of parent_id t
  end.

Definition child_loop (parent_id parent_color : string) (children : list (string * string))
  : list node * list edge :=
  (map (fun kv =>
          {| node_id := fst kv;
             node_label := replace_underscores (fst kv);
             node_description := snd kv;
             node_notes := "";
             node_color := lighten_color parent_color (NFloat 0.6%float);
             node_classes := "subnode" |}) children,
   map (fun kv =>
          {| edge_source := parent_id;
             edge_target := fst kv;
             edge_id := edge_name parent_id (fst kv) |}) children).

(** The loop over [subnodes.items()]; [nodes] and [edges] are the lists
    built so far, which the colour lookup reads. *)
Fixpoint sub_loop (subs : subcategories) (nodes : list node) (edges : list edge)
  : list node * list edge :=
  match subs with
  | [] => (nodes, edges)
  | (parent_id, children) :: t =>
      let parent_color := parent_color_of parent_id nodes in
      let '(ns, es) := child_loop parent_id parent_color children in
      sub_loop t (nodes ++ ns) (edges ++ es)
  end.

Definition build_graph (c : central) (ps : primaries) (subs : subcategories)
  : list node * list edge :=
  let '(pn, pe) := primary_loop c 0 ps in
  sub_loop subs (central_element c :: pn) pe.

(** [return nodes + edges] *)
Definition load_graph_elements (c : central) (ps : primaries) (subs : subcategories)
  : list pyval :=
  let '(nodes, edges) := build_graph c ps subs in
  map node_element nodes ++ map edge_element edges.

(** ** Snapshot store: [save_graph_state], [load_graph_state] *)

(** The SQLite file: whether the backend answers, the rows [(id, state)] of
    table [graph_state], and the AUTOINCREMENT counter (the largest id ever
    given). A statement on a backend that does not answer raises
    [sqlite3.Error], and nothing is committed. *)
Record database := {
  db_available : bool;
  db_rows : list (Z * string);
  db_sequence : Z
}.

(** The calls made to the store, latest first. *)
Inductive store_call : Type :=
| SaveCall (state : pyval)
| LoadCall.

Record world := {
  db : database;
  calls : list store_call
}.

(** The id AUTOINCREMENT gives to the next row. *)
Definition next_id (d : database) : Z :=
  fold_right Z.max (db_sequence d) (map fst (db_rows d)) + 1.

(** A rowid is a signed 64-bit integer. Once the largest one has been given,
    AUTOINCREMENT has no id left and an [INSERT] fails with [SQLITE_FULL],
    which [sqlite3] raises as an [OperationalError], a [sqlite3.Error]. *)
Definition max_rowid : Z := 9223372036854775807.

Definition rowid_available (d : database) : bool := (next_id d <=? max_rowid)%Z.

(** [SELECT state FROM graph_state ORDER BY id DESC LIMIT 1] *)
Fixpoint latest_row (rows : list (Z * string)) : option (Z * string) :=
  match rows with
  | [] => None
  | r :: t =>
      match latest_row t with
      | Some r' => if (fst r <? fst r')%Z then Some r' else Some r
      | None => Some r
      end
  end.

Section Reducer.

(** [json.dumps] and [json.loads] of the Python standard library; [None] is
    a raised exception ([TypeError] or [ValueError], [JSONDecodeError]). *)
Variable json_dumps : pyval -> option string.
Variable json_loads : string -> option pyval.

(** [DELETE FROM graph_state], [INSERT], [commit]; every exception is
    caught and reported as [False]. The connection is closed without a
    commit when a statement raises, so the [DELETE] is undone when the
    [INSERT] fails. *)
Definition save_graph_state (state : pyval) (d : database) : bool * database :=
  match json_dumps state with
  | None => (false, d)
  | Some state_json =>
      if db_available d then
        if rowid_available d then
          (true, {| db_available := true;
                    db_rows := [(next_id d, state_json)];
                    db_sequence := next_id d |})
        else (false, d)
      else (false, d)
  end.

(** The latest row, decoded; [None] when there is none or on any error. *)
Definition load_graph_state (d : database) : pyval :=
  if db_available d then
    match latest_row (db_rows d) with
    | Some (_, state_json) =>
        match json_loads state_json with
        | Some state => state
        | None => PNone
        end
    | None => PNone
    end
  else PNone.

(** ** Interaction reducer: [handle_interactions] *)

(** [{'display': 'none'}] and [{'display': 'block'}] *)
Inductive display : Type :=
| DisplayNone
| DisplayBlock.

(** The text of an f-string field [f"{v}"], which is [str(v)]: a string is
    itself, [None] and the booleans are their names, an integer is written in
    decimal. For a float, a list or a dict [str] is [repr]; that text is not
    spelt out, [Repr v] stands for it. *)
Inductive text : Type :=
| Text (s : string)
| Repr (v : pyval).

Definition py_format (v : pyval) : text :=
  match v with
  | PNone => Text "None"
  | PBool true => Text "True"
  | PBool false => Text "False"
  | PInt z => Text (decimal z)
  | PStr s => Text s
  | PFloat _ | PList _ | PDict _ => Repr v
  end.

(** The info panel: a plain string, or
    [html.Div([html.H4(f"{label}"), html.P(f"{description}")])]. *)
Inductive info : Type :=
| InfoText (s : string)
| InfoDiv (label description : text).

(** The arguments of the callback, and [ctx.triggered] as the list of its
    [prop_id]s. *)
Record inputs := {
  triggered : list string;
  zoom_in : pyval;
  zoom_out : pyval;
  reset_zoom : pyval;
  load_clicks : pyval;
  save_clicks : pyval;
  save_note_clicks : pyval;
  search_value : pyval;
  tapped_node_data : pyval;
  current_elements : pyval;
  current_zoom : pyval;
  current_pan : pyval;
  note_value : pyval;
  tapped_node_state : pyval
}.

(** The eleven outputs, under the names of the locals that hold them. *)
Record outputs := {
  new_elements : pyval;
  new_zoom : pyval;
  new_pan : pyval;
  node_info : info;
  rendered_notes : pyval;
  rendered_notes_style : display;
  node_notes_value : pyval;
  notes_section_style : display;
  save_alert : bool;
  load_alert : bool;
  note_save_alert : bool
}.

(** [copy.deepcopy]: values carry no identity here, the copy is the value. *)
Definition deepcopy (v : pyval) : pyval := v.

Definition default_outputs (i : inputs) : outputs :=
  {| new_elements := deepcopy (current_elements i);
     new_zoom := current_zoom i;
     new_pan := current_pan i;
     node_info := InfoText "Click on a node to see details.";
     rendered_notes := PStr "";
     rendered_notes_style := DisplayNone;
     node_notes_value := PStr "";
     notes_section_style := DisplayNone;
     save_alert := false;
     load_alert := false;
     note_save_alert := false |}.

Definition set_elements (o : outputs) (v : pyval) : outputs :=
  {| new_elements := v; new_zoom := new_zoom o; new_pan := new_pan o;
     node_info := node_info o; rendered_notes := rendered_notes o;
     rendered_notes_style := rendered_notes_style o;
     node_notes_value := node_notes_value o;
     notes_section_style := notes_section_style o;
     save_alert := save_alert o; load_alert := load_alert o;
     note_save_alert := note_save_alert o |}.

Definition set_zoom (o : outputs) (v : pyval) : outputs :=
  {| new_elements := new_elements o; new_zoom := v; new_pan := new_pan o;
     node_info := node_info o; rendered_notes := rendered_notes o;
     rendered_notes_style := rendered_notes_style o;
     node_notes_value := node_notes_value o;
     notes_section_style := notes_section_style o;
     save_alert := save_alert o; load_alert := load_alert o;
     note_save_alert := note_save_alert o |}.

Definition set_node_info (o : outputs) (s : string) : outputs :=
  {| new_elements := new_elements o; new_zoom := new_zoom o; new_pan := new_pan o;
     node_info := InfoText s; rendered_notes := rendered_notes o;
     rendered_notes_style := rendered_notes_style o;
     node_notes_value := node_notes_value o;
     notes_section_style := notes_section_style o;
     save_alert := save_alert o; load_alert := load_alert o;
     note_save_alert := note_save_alert o |}.

Definition set_save_alert (o : outputs) (b : bool) : outputs :=
  {| new_elements := new_elements o; new_zoom := new_zoom o; new_pan := new_pan o;
     node_info := node_info o; rendered_notes := rendered_notes o;
     rendered_notes_style := rendered_notes_style o;
     node_notes_value := node_notes_value o;
     notes_section_style := notes_section_style o;
     save_alert := b; load_alert := load_alert o;
     note_save_alert := note_save_alert o |}.

(** [ctx.triggered[0]['prop_id'].split('.')[0]] *)
Fixpoint before_dot (s : string) : string :=
  match s with
  | EmptyString => EmptyString
  | String c t => if Ascii.eqb c "."%char then EmptyString else String c (before_dot t)
  end.

Definition display_of (stripped : string) : display :=
  if String.eqb stripped EmptyString then DisplayNone else DisplayBlock.

(** *** Zoom controls *)

Definition zoom_factor : pyval := PFloat 0.2%float.

Definition handle_zoom (triggered_id : string) (i : inputs) (o : outputs) : result outputs :=
  z <- (if String.eqb triggered_id "zoom-in" && py_truthy (zoom_in i) then
          py_arith num_add (new_zoom o) zoom_factor
        else if String.eqb triggered_id "zoom-out" && py_truthy (zoom_out i) then
          py_arith num_sub (new_zoom o) zoom_factor
        else if String.eqb triggered_id "reset-zoom" && py_truthy (reset_zoom i) then
          Ok (PFloat 1.0%float)
        else Ok (new_zoom o)) ;;
  m <- py_min z (PFloat 2.0%float) ;;
  z <- py_max (PFloat 0.5%float) m ;;
  Ok (set_zoom o z).

(** *** Load state *)

(** The debug loop over the loaded elements: it changes nothing, but its
    lookups can raise. *)
Fixpoint log_positions (items : list pyval) : result unit :=
  match items with
  | [] => Ok tt
  | elem :: t =>
      data <- py_getitem elem "data" ;;
      s <- py_in "source" data ;;
      tg <- (if s then Ok true else py_in "target" data) ;;
      _ <- (if negb s && negb tg then
              _ <- py_get elem "position" (PDict [("x", PInt 0); ("y", PInt 0)]) ;;
              py_getitem data "id"
            else Ok PNone) ;;
      log_positions t
  end.

Definition handle_load (i : inputs) (o : outputs) (w : world) : result outputs * world :=
  let state := load_graph_state (db w) in
  let w := {| db := db w; calls := LoadCall :: calls w |} in
  if py_truthy state then
    (elements <- py_get state "elements" (current_elements i) ;;
     zoom <- py_get state "zoom" (PFloat 1.0%float) ;;
     pan <- py_get state "pan" (PDict [("x", PInt 0); ("y", PInt 0)]) ;;
     items <- py_iter elements ;;
     _ <- log_positions items ;;
     Ok {| new_elements := elements; new_zoom := zoom; new_pan := pan;
           node_info := node_info o; rendered_notes := rendered_notes o;
           rendered_notes_style := rendered_notes_style o;
           node_notes_value := node_notes_value o;
           notes_section_style := notes_section_style o;
           save_alert := save_alert o; load_alert := true;
           note_save_alert := note_save_alert o |},
     w)
  else (Ok o, w).

(** *** Save state *)

Definition state_to_save (o : outputs) : pyval :=
  PDict [("elements", new_elements o); ("zoom", new_zoom o); ("pan", new_pan o)].

Definition call_save (state : pyval) (w : world) : bool * world :=
  let '(success, d) := save_graph_state state (db w) in
  (success, {| db := d; calls := SaveCall state :: calls w |}).

Definition handle_save (o : outputs) (w : world) : result outputs * world :=
  let '(success, w) := call_save (state_to_save o) w in
  (Ok (set_save_alert o success), w).

(** *** Save note *)

(** The loop of the note update with its [break]: the items after it, and
    whether an element with that id was found. *)
Fixpoint note_loop (node_id note : pyval) (items : list pyval) : result (list pyval * bool) :=
  match items with
  | [] => Ok ([], false)
  | elem :: t =>
      data <- py_getitem elem "data" ;;
      id <- py_get data "id" PNone ;;
      if py_eq id node_id then
        data <- py_setitem data "notes" note ;;
        elem <- py_setitem elem "data" data ;;
        Ok (elem :: t, true)
      else
        r <- note_loop node_id note t ;;
        Ok (elem :: fst r, snd r)
  end.

Definition update_note (node_id note : pyval) (elements : pyval) : result pyval :=
  match elements with
  | PList l => r <- note_loop node_id note l ;; Ok (PList (fst r))
  | _ => items <- py_iter elements ;; _ <- note_loop node_id note items ;; Ok elements
  end.

Definition handle_save_note (i : inputs) (o : outputs) (w : world) : result outputs * world :=
  if py_truthy (tapped_node_state i) then
    match
      (node_id <- py_get (tapped_node_state i) "id" PNone ;;
       elements <- update_note node_id (note_value i) (new_elements o) ;;
       stripped <- py_strip (note_value i) ;;
       Ok {| new_elements := elements; new_zoom := new_zoom o; new_pan := new_pan o;
             node_info := node_info o; rendered_notes := note_value i;
             rendered_notes_style := display_of stripped;
             node_notes_value := note_value i;
             notes_section_style := DisplayBlock;
             save_alert := save_alert o; load_alert := load_alert o;
             note_save_alert := true |})
    with
    | Ok o' => let '(_, w) := call_save (state_to_save o') w in (Ok o', w)
    | Raise e => (Raise e, w)
    end
  else (Ok o, w).

(** *** Search *)

Definition without_highlight (classes : list string) : list string :=
  if str_in_list "highlighted" classes then remove_first "highlighted" classes else classes.

Definition with_highlight (classes : list string) : list string :=
  if str_in_list "highlighted" classes then classes else classes ++ ["highlighted"].

(** Body of the first loop: drop the marker from an element that has classes. *)
Definition clear_highlight (elem : pyval) : result pyval :=
  has <- py_in "classes" elem ;;
  if has then
    c <- py_getitem elem "classes" ;;
    classes <- py_split c ;;
    py_setitem elem "classes" (PStr (join " " (without_highlight classes)))
  else Ok elem.

(** The labels of the elements that have neither [source] nor [target]. *)
Fixpoint node_labels (items : list pyval) : result (list pyval) :=
  match items with
  | [] => Ok []
  | elem :: t =>
      data <- py_getitem elem "data" ;;
      s <- py_in "source" data ;;
      tg <- (if s then Ok true else py_in "target" data) ;;
      if negb s && negb tg then
        label <- py_getitem data "label" ;;
        rest <- node_labels t ;;
        Ok (label :: rest)
      else node_labels t
  end.

(** Body of the second loop: elements with both [source] and [target] are
    skipped, the others are marked or unmarked by their label. *)
Definition mark_highlight (matching_labels : list pyval) (elem : pyval) : result pyval :=
  data <- py_getitem elem "data" ;;
  s <- py_in "source" data ;;
  tg <- (if s then py_in "target" data else Ok false) ;;
  if s && tg then Ok elem
  else
    label <- py_get data "label" (PStr "") ;;
    c <- py_get elem "classes" (PStr "") ;;
    classes <- py_split c ;;
    if existsb (py_eq label) matching_labels then
      py_setitem elem "classes" (PStr (join " " (with_highlight classes)))
    else
      py_setitem elem "classes" (PStr (join " " (without_highlight classes))).

Definition search_error (o : outputs) (elements : pyval) : outputs :=
  set_node_info (set_elements o elements) "An error occurred during the search.".

Definition handle_search (i : inputs) (o : outputs) : outputs :=
  let '(cleared, e) := for_elements clear_highlight (new_elements o) in
  match e with
  | Some _ => search_error o cleared
  | None =>
      if negb (py_truthy (search_value i)) then
        set_node_info (set_elements o cleared) "Search cleared. All nodes are visible."
      else
        match (items <- py_iter (current_elements i) ;; node_labels items) with
        | Raise _ => search_error o cleared
        | Ok all_labels =>
            let matching_labels := perform_fuzzy_search (search_value i) all_labels in
            match matching_labels with
            | [] => set_node_info (set_elements o cleared) "No matching nodes found."
            | _ =>
                let '(marked, e) := for_elements (mark_highlight matching_labels) cleared in
                match e with
                | Some _ => search_error o marked
                | None => set_node_info (set_elements o marked) "Matching nodes highlighted."
                end
            end
        end
  end.

(** *** Node tap *)

Definition handle_tap (i : inputs) (o : outputs) : outputs :=
  if py_truthy (tapped_node_data i) then
    try_except
      (label <- py_get (tapped_node_data i) "label" (PStr "No Label") ;;
       description <- py_get (tapped_node_data i) "description"
                        (PStr "No description available.") ;;
       notes <- py_get (tapped_node_data i) "notes" (PStr "") ;;
       stripped <- py_strip notes ;;
       Ok {| new_elements := new_elements o; new_zoom := new_zoom o; new_pan := new_pan o;
             node_info := InfoDiv (py_format label) (py_format description);
             rendered_notes := notes;
             rendered_notes_style := display_of stripped;
             node_notes_value := notes;
             notes_section_style := DisplayBlock;
             save_alert := save_alert o; load_alert := load_alert o;
             note_save_alert := note_save_alert o |})
      (fun _ =>
         {| new_elements := new_elements o; new_zoom := new_zoom o; new_pan := new_pan o;
            node_info := InfoText "An error occurred while processing the node tap.";
            rendered_notes := PStr "";
            rendered_notes_style := DisplayNone;
            node_notes_value := PStr "";
            notes_section_style := DisplayNone;
            save_alert := save_alert o; load_alert := load_alert o;
            note_save_alert := note_save_alert o |})
  else o.

(** *** The dispatcher *)

Definition handle_interactions (i : inputs) (w : world) : result outputs * world :=
  match triggered i with
  | [] => (Raise PreventUpdate, w)
  | prop_id :: _ =>
      let triggered_id := before_dot prop_id in
      let o := default_outputs i in
      if str_in_list triggered_id ["zoom-in"; "zoom-out"; "reset-zoom"] then
        (handle_zoom triggered_id i o, w)
      else if String.eqb triggered_id "load-state" && py_truthy (load_clicks i) then
        handle_load i o w
      else if String.eqb triggered_id "save-state" && py_truthy (save_clicks i) then
        handle_save o w
      else if String.eqb triggered_id "save-note" && py_truthy (save_note_clicks i) then
        handle_save_note i o w
      else if String.eqb triggered_id "node-search" then
        (Ok (handle_search i o), w)
      else if String.eqb triggered_id "cytoscape-graph" then
        (Ok (handle_tap i o), w)
      else (Raise PreventUpdate, w)
  end.

End Reducer.

(** * Vocabulary of the properties *)

(** ** Text matcher *)

(** A label matches a query when the lower-cased query occurs in the
    lower-cased label. *)
Definition ci_match (q label : string) : bool :=
  str_contains (lower q) (lower label).

(** Order-preserving sublists. *)
Inductive sublist {A : Type} : list A -> list A -> Prop :=
| sublist_nil : sublist [] []
| sublist_skip x l m : sublist l m -> sublist l (x :: m)
| sublist_keep x l m : sublist l m -> sublist (x :: l) (x :: m).

(** ** Colours *)

Definition is_hex_char (c : ascii) : bool :=
  match hex_digit c with Some _ => true | None => false end.

(** ['#'] followed by exactly six hexadecimal digits. *)
Definition valid_hex6 (c : string) : bool :=
  match c with
  | String "#"%char r =>
      Nat.eqb (String.length r) 6 && forallb is_hex_char (list_ascii_of_string r)
  | _ => false
  end.

(** ** Zoom *)

Definition zoom_in_range (v : pyval) : bool :=
  match as_num v with
  | Some n => num_le (NFloat 0.5%float) n && num_le n (NFloat 2.0%float)
  | None => false
  end.

(** The value the clamp leaves for a number [n]. *)
Definition clamp_zoom (n : pynum) : pyval :=
  if num_lt (NFloat 2.0%float) n then PFloat 2.0%float
  else if num_lt (NFloat 0.5%float) n then of_num n
  else PFloat 0.5%float.

Inductive zoom_trigger : Type :=
| ZoomIn
| ZoomOut
| ResetZoom.

Definition zoom_prop_id (t : zoom_trigger) : string :=
  match t with
  | ZoomIn => "zoom-in.n_clicks"
  | ZoomOut => "zoom-out.n_clicks"
  | ResetZoom => "reset-zoom.n_clicks"
  end.

(** The document the browser holds between two dispatches. *)
Record document := {
  doc_elements : pyval;
  doc_zoom : pyval;
  doc_pan : pyval
}.

(** The inputs [i] of a dispatch, fired by [prop_id] on document [d]. *)
Definition dispatch_inputs (prop_id : string) (i : inputs) (d : document) : inputs :=
  {| triggered := [prop_id];
     zoom_in := zoom_in i;
     zoom_out := zoom_out i;
     reset_zoom := reset_zoom i;
     load_clicks := load_clicks i;
     save_clicks := save_clicks i;
     save_note_clicks := save_note_clicks i;
     search_value := search_value i;
     tapped_node_data := tapped_node_data i;
     current_elements := doc_elements d;
     current_zoom := doc_zoom d;
     current_pan := doc_pan d;
     note_value := note_value i;
     tapped_node_state := tapped_node_state i |}.

Definition document_of (o : outputs) : document :=
  {| doc_elements := new_elements o; doc_zoom := new_zoom o; doc_pan := new_pan o |}.

(** A sequence of zoom dispatches, each with the rest of its inputs; the
    outputs of one are the state of the next. *)
Fixpoint run_zoom (json_dumps : pyval -> option string) (json_loads : string -> option pyval)
    (ds : list (zoom_trigger * inputs)) (d : document) (w : world)
  : result document * world :=
  match ds with
  | [] => (Ok d, w)
  | (t, i) :: rest =>
      match handle_interactions json_dumps json_loads
              (dispatch_inputs (zoom_prop_id t) i d) w with
      | (Ok o, w') => run_zoom json_dumps json_loads rest (document_of o) w'
      | (Raise e, w') => (Raise e, w')
      end
  end.

(** ** A codec given by a table *)

(** [json.dumps] and [json.loads] on the finitely many values of a concrete
    run, as pairs of a value and its text. *)
Fixpoint table_dumps (table : list (pyval * string)) (v : pyval) : option string :=
  match table with
  | [] => None
  | (v', s) :: t => if py_eq v' v then Some s else table_dumps t v
  end.

Fixpoint table_loads (table : list (pyval * string)) (s : string) : option pyval :=
  match table with
  | [] => None
  | (v, s') :: t => if String.eqb s' s then Some v else table_loads t s
  end.

Definition empty_database : database :=
  {| db_available := true; db_rows := []; db_sequence := 0 |}.

Definition fresh_world : world := {| db := empty_database; calls := [] |}.

(** ** Colour channels *)

Definition all_ascii : list ascii := map ascii_of_nat (seq 0 256).

Definition hex_chars : list ascii := filter is_hex_char all_ascii.

Definition two (a b : ascii) : string := String a (String b EmptyString).

(** What the two end factors do to the channel written [ab]. *)
Definition channel_endpoints (a b : ascii) : bool :=
  match int16 (two a b) with
  | Ok v =>
      forallb (fun f =>
                 match lighten_channel v f with
                 | Ok v' => String.eqb (format_02X v') (two (upper_char a) (upper_char b))
                 | Raise _ => false
                 end) [NInt 0; NFloat 0%float]
      && forallb (fun f =>
                    match lighten_channel v f with
                    | Ok v' => String.eqb (format_02X v') "FF"
                    | Raise _ => false
                    end) [NInt 1; NFloat 1%float]
  | Raise _ => false
  end.

Definition six (d1 d2 d3 d4 d5 d6 : ascii) : string :=
  String d1 (String d2 (String d3 (String d4 (String d5 (String d6 EmptyString))))).

(** ** Save note *)

(** An element whose [data] is a dict. *)
Definition has_data (elem : pyval) : bool :=
  match elem with
  | PDict d => match assoc "data" d with Some (PDict _) => true | _ => false end
  | _ => false
  end.

(** [elem['data'].get('id')] of such an element. *)
Definition element_id (elem : pyval) : pyval :=
  match elem with
  | PDict d =>
      match assoc "data" d with
      | Some (PDict dd) => match assoc "id" dd with Some v => v | None => PNone end
      | _ => PNone
      end
  | _ => PNone
  end.

(** No element has the id [node_id]. *)
Definition id_absent (node_id : pyval) (l : list pyval) : bool :=
  forallb (fun elem => negb (py_eq (element_id elem) node_id)) l.

(** A click on Save Note: the click count, the editor's value and the tapped
    node held by the graph, on the elements [elements]. *)
Definition save_note_inputs (clicks note tapped elements : pyval) : inputs :=
  {| triggered := ["save-note.n_clicks"];
     zoom_in := PNone; zoom_out := PNone; reset_zoom := PNone;
     load_clicks := PNone; save_clicks := PNone; save_note_clicks := clicks;
     search_value := PStr ""; tapped_node_data := tapped;
     current_elements := elements; current_zoom := PFloat 1.0%float;
     current_pan := PDict [("x", PInt 0); ("y", PInt 0)];
     note_value := note; tapped_node_state := tapped |}.

Definition compute_node : pyval :=
  PDict [ ("data", PDict [ ("id", PStr "Compute"); ("label", PStr "Compute");
                           ("description", PStr "Compute services in Azure");
                           ("notes", PStr ""); ("color", PStr "#1f77b4") ]);
          ("classes", PStr "primary-node") ].

(** ** Snapshots *)

(** The snapshot the reducer hands to the store. *)
Definition snapshot (elements zoom pan : pyval) : pyval :=
  PDict [("elements", elements); ("zoom", zoom); ("pan", pan)].

Definition quoted (s : string) : string :=
  String (ascii_of_nat 34) (String.append s (String (ascii_of_nat 34) EmptyString)).

(** The initial view on no element, and the text [json.dumps] writes for it. *)
Definition empty_snapshot : pyval :=
  snapshot (PList []) (PFloat 1.0%float) (PDict [("x", PInt 0); ("y", PInt 0)]).

Definition empty_snapshot_json : string :=
  String.concat ""
    [ "{"; quoted "elements"; ": [], "; quoted "zoom"; ": 1.0, "; quoted "pan"; ": {";
      quoted "x"; ": 0, "; quoted "y"; ": 0}}" ].







(** ** Zoom dispatches *)

Definition is_nan (n : pynum) : bool :=
  match n with
  | NInt _ => false
  | NFloat f => match Prim2SF f with S754_nan => true | _ => false end
  end.

Definition clicks_of (t : zoom_trigger) (i : inputs) : pyval :=
  match t with
  | ZoomIn => zoom_in i
  | ZoomOut => zoom_out i
  | ResetZoom => reset_zoom i
  end.

(** The zoom before the clamp. *)
Definition adjusted_zoom (t : zoom_trigger) (i : inputs) (zoom : pyval) : result pyval :=
  if py_truthy (clicks_of t i) then
    match t with
    | ZoomIn => py_arith num_add zoom zoom_factor
    | ZoomOut => py_arith num_sub zoom zoom_factor
    | ResetZoom => Ok (PFloat 1.0%float)
    end
  else Ok zoom.

(** Every zoom button clicked [n] times. *)
Definition zoom_clicks (n : Z) : inputs :=
  {| triggered := [];
     zoom_in := PInt n; zoom_out := PInt n; reset_zoom := PInt n;
     load_clicks := PNone; save_clicks := PNone; save_note_clicks := PNone;
     search_value := PStr ""; tapped_node_data := PNone;
     current_elements := PList []; current_zoom := PFloat 1.0%float;
     current_pan := PDict [("x", PInt 0); ("y", PInt 0)];
     note_value := PStr ""; tapped_node_state := PNone |}.

Definition near_max_document : document :=
  {| doc_elements := PList [compute_node];
     doc_zoom := PFloat 1.9%float;
     doc_pan := PDict [("x", PInt 10); ("y", PInt (-4))] |}.

(** ** Graph documents *)

(** The string under key [k] of the [data] of an element. *)
Definition data_str (k : string) (elem : pyval) : option string :=
  match elem with
  | PDict d =>
      match assoc "data" d with
      | Some (PDict dd) => match assoc k dd with Some (PStr s) => Some s | _ => None end
      | _ => None
      end
  | _ => None
  end.

(** An edge is an element whose data has a [source], as [GraphComponent]
    counts them. *)
Definition is_edge_element (elem : pyval) : bool :=
  match data_str "source" elem with Some _ => true | None => false end.

Definition node_ids (doc : list pyval) : list string :=
  flat_map (fun elem =>
              if is_edge_element elem then []
              else match data_str "id" elem with Some s => [s] | None => [] end) doc.

(** Node ids are unique, and both ends of every edge are node ids. *)
Definition graph_invariant (doc : list pyval) : Prop :=
  NoDup (node_ids doc) /\
  forall elem, In elem doc -> is_edge_element elem = true ->
    exists s t, data_str "source" elem = Some s /\ data_str "target" elem = Some t /\
                In s (node_ids doc) /\ In t (node_ids doc).

Fixpoint distinct (l : list string) : bool :=
  match l with
  | [] => true
  | x :: t => negb (str_in_list x t) && distinct t
  end.

(** Every id the taxonomy names: the central node, the categories, the
    subcategories. *)
Definition taxonomy_ids (c : central) (ps : primaries) (subs : subcategories) : list string :=
  central_id c :: map fst ps ++ flat_map (fun s => map fst (snd s)) subs.

(** Every group of subcategories hangs under a category. *)
Definition parents_known (ps : primaries) (subs : subcategories) : bool :=
  forallb (fun s => str_in_list (fst s) (map fst ps)) subs.

(** The taxonomy of [data.py]. *)
Definition central_node : central :=
  {| central_id := "Azure_Architectures";
     central_label := "Azure Architectures";
     central_description := "Central node for Azure Architectures";
     central_notes := None |}.

Definition primary_nodes : primaries :=
  [ ("Compute", "Compute services in Azure");
    ("Networking", "Networking services in Azure");
    ("Storage", "Storage services in Azure");
    ("Identity_Security", "Identity and Security services in Azure");
    ("Databases", "Database services in Azure");
    ("Integration", "Integration services in Azure");
    ("Monitoring_Governance", "Monitoring and Governance services in Azure") ].

Definition subnodes : subcategories :=
  [ ("Compute",
     [ ("Virtual_Machines", "Virtual Machines (VMs) provide scalable computing resources in Azure.");
       ("App_Services", "App Services are used to build, host, and scale web applications.");
       ("Kubernetes", "Azure Kubernetes Service (AKS) provides container orchestration and management.");
       ("Functions", "Azure Functions are serverless compute services that allow you to run event-driven code.") ]);
    ("Networking",
     [ ("VNets", "Virtual Networks (VNets) allow you to build isolated network environments in Azure.");
       ("Load_Balancers", "Load Balancers distribute network traffic across multiple servers.");
       ("DNS", "Azure DNS allows you to host your DNS domains and manage records.");
       ("NSGs", "Network Security Groups (NSGs) control network traffic in and out of Azure resources.") ]);
    ("Storage",
     [ ("Blob_Storage", "Blob Storage is used for storing unstructured data like text or binary data.");
       ("File_Storage", "File Storage provides fully managed file shares in the cloud.");
       ("Managed_Disks", "Managed Disks are used to store data for VMs and other Azure resources.");
       ("Data_Lake", "Azure Data Lake is a scalable data storage and analytics service.") ]);
    ("Identity_Security",
     [ ("Azure_AD", "Azure Active Directory (AD) is a cloud-based identity and access management service.");
       ("RBAC", "Role-Based Access Control (RBAC) allows you to manage who has access to Azure resources.");
       ("Key_Vault", "Azure Key Vault helps safeguard cryptographic keys and secrets.");
       ("Security_Center", "Azure Security Center provides unified security management and threat protection.") ]);
    ("Databases",
     [ ("SQL_Database", "Azure SQL Database is a fully managed relational database service.");
       ("Cosmos_DB", "Cosmos DB is a globally distributed NoSQL database service.");
       ("MySQL_PostgreSQL", "Azure offers fully managed MySQL and PostgreSQL databases.");
       ("SQL_Managed_Instances", "SQL Managed Instances are fully-managed SQL Server instances in Azure.") ]);
    ("Integration",
     [ ("Logic_Apps", "Azure Logic Apps allow you to automate workflows and integrate applications.");
       ("Service_Bus", "Azure Service Bus is a messaging service for reliable communication between services.");
       ("Event_Grid", "Event Grid enables event-based architectures in Azure.");
       ("API_Management", "API Management allows you to create, manage, and secure APIs.") ]);
    ("Monitoring_Governance",
     [ ("Azure_Monitor", "Azure Monitor provides full-stack monitoring across your applications and resources.");
       ("Policy", "Azure Policy helps enforce organizational standards and compliance.");
       ("Cost_Management", "Cost Management helps you track and optimize your Azure spending.");
       ("Blueprints", "Azure Blueprints automate governance for resource management and compliance.") ]) ].

Definition clashing_central : central :=
  {| central_id := "A"; central_label := "A"; central_description := "";
     central_notes := None |}.

(** ** Search *)

(** No character of [t] is a space. *)
Fixpoint spaceless (t : string) : bool :=
  match t with
  | EmptyString => true
  | String c r => negb (is_space c) && spaceless r
  end.

(** What [split] produces: non-empty and free of spaces. *)
Definition token (t : string) : bool :=
  negb (String.eqb t EmptyString) && spaceless t.

Fixpoint count_str (x : string) (l : list string) : nat :=
  match l with
  | [] => 0
  | y :: t => (if String.eqb y x then 1 else 0) + count_str x t
  end.

Definition others (l : list string) : list string :=
  filter (fun c => negb (String.eqb c "highlighted")) l.

Definition field (k : string) (elem : pyval) : option pyval :=
  match elem with
  | PDict d => assoc k d
  | _ => None
  end.

Definition data_field (k : string) (elem : pyval) : option pyval :=
  match field "data" elem with
  | Some (PDict dd) => assoc k dd
  | _ => None
  end.

(** The classes an element carries, and whether the marker is among them. *)
Definition classes_of (elem : pyval) : list string :=
  match field "classes" elem with
  | Some (PStr c) => split c
  | _ => []
  end.

Definition highlighted (elem : pyval) : bool :=
  str_in_list "highlighted" (classes_of elem).

(** The classes other than the marker. *)
Definition other_classes (elem : pyval) : list string := others (classes_of elem).

(** Edges have a source and a target; nodes have neither. *)
Definition is_edge (elem : pyval) : bool :=
  match data_field "source" elem, data_field "target" elem with
  | Some _, Some _ => true
  | _, _ => false
  end.

Definition is_node (elem : pyval) : bool :=
  match data_field "source" elem, data_field "target" elem with
  | None, None => true
  | _, _ => false
  end.

Definition label_of (elem : pyval) : string :=
  match data_field "label" elem with
  | Some (PStr s) => s
  | _ => EmptyString
  end.

(** An element record: a dict with a [data] dict, classes that are a string
    when present, and either an edge or a node with a string label. *)
Definition element_shape (elem : pyval) : bool :=
  match field "data" elem with
  | Some (PDict _) =>
      match field "classes" elem with
      | Some (PStr _) | None => true
      | Some _ => false
      end &&
      (is_edge elem ||
       (is_node elem &&
        match data_field "label" elem with Some (PStr _) => true | _ => false end))
  | _ => false
  end.

(** The marker is not repeated in the classes. *)
Definition marked_once (elem : pyval) : bool :=
  Nat.leb (count_str "highlighted" (classes_of elem)) 1.

Definition search_element (elem : pyval) : bool :=
  element_shape elem && marked_once elem.

(** What a search for [q] makes of an element: the marker is on exactly the
    nodes whose label matches a non-empty [q]; every field but [classes],
    and every class but the marker, is as before. *)
Definition search_post (q : string) (elem elem' : pyval) : Prop :=
  highlighted elem'
  = (is_node elem && negb (String.eqb q EmptyString) && ci_match q (label_of elem)) /\
  (forall k, k <> "classes" -> field k elem' = field k elem) /\
  other_classes elem' = other_classes elem.

(** C7 for the element lists that [ok] admits. *)
Definition search_claim (ok : pyval -> bool) : Prop :=
  forall (json_dumps : pyval -> option string) (json_loads : string -> option pyval)
         (i : inputs) (w : world) (prop_id : string) (rest : list string)
         (q : string) (l : list pyval),
    triggered i = prop_id :: rest ->
    before_dot prop_id = "node-search" ->
    search_value i = PStr q ->
    current_elements i = PList l ->
    forallb ok l = true ->
    exists o l',
      handle_interactions json_dumps json_loads i w = (Ok o, w) /\
      new_elements o = PList l' /\
      Forall2 (search_post q) l l' /\
      new_zoom o = current_zoom i /\
      new_pan o = current_pan i.

(** A search typed in the box, on the elements [elements]. *)
Definition search_inputs (q : string) (elements : pyval) : inputs :=
  {| triggered := ["node-search.value"];
     zoom_in := PNone; zoom_out := PNone; reset_zoom := PNone;
     load_clicks := PNone; save_clicks := PNone; save_note_clicks := PNone;
     search_value := PStr q; tapped_node_data := PNone;
     current_elements := elements; current_zoom := PFloat 1.0%float;
     current_pan := PDict [("x", PInt 0); ("y", PInt 0)];
     note_value := PStr ""; tapped_node_state := PNone |}.

Definition labelled_node (id label classes : string) : pyval :=
  PDict [ ("data", PDict [ ("id", PStr id); ("label", PStr label);
                           ("description", PStr ""); ("notes", PStr "");
                           ("color", PStr "#A5C8E1") ]);
          ("classes", PStr classes) ].

(** Two nodes, the second one marked by an earlier search, and the edge
    between them. *)
Definition small_document : list pyval :=
  [ labelled_node "Virtual_Machines" "Virtual Machines" "subnode";
    labelled_node "App_Services" "App Services" "subnode highlighted";
    edge_element {| edge_source := "Virtual_Machines"; edge_target := "App_Services";
                    edge_id := "Virtual_Machines_to_App_Services" |} ].

(** A node followed by one whose classes are [None]. *)
Definition malformed_document : list pyval :=
  [ labelled_node "Virtual_Machines" "Virtual Machines" "subnode";
    PDict [ ("data", PDict [ ("id", PStr "Functions"); ("label", PStr "Functions") ]);
            ("classes", PNone) ] ].

(** A node whose classes repeat the marker. *)
Definition twice_marked : pyval :=
  labelled_node "Functions" "Functions" "subnode highlighted highlighted".

(** What the first loop makes of an element record. *)
Definition cleared (elem elem' : pyval) : Prop :=
  (forall k, k <> "classes" -> field k elem' = field k elem) /\
  classes_of elem' = without_highlight (classes_of elem) /\
  match field "classes" elem' with Some (PStr _) | None => true | Some _ => false end = true.

(** What the second loop makes of an element record, for the matching
    labels [R]. *)
Definition marked (R : list string) (elem elem' : pyval) : Prop :=
  (forall k, k <> "classes" -> field k elem' = field k elem) /\
  classes_of elem'
  = (if is_node elem then
       if str_in_list (label_of elem) R then with_highlight (classes_of elem)
       else without_highlight (classes_of elem)
     else classes_of elem).

(** * The graph component and the page layout *)

(** ** [GraphComponent] of [components/graph.py] *)

(** [sum(1 for elem in elements if p('source' in elem['data']))] *)
Fixpoint count_where (p : bool -> bool) (items : list pyval) : result nat :=
  match items with
  | [] => Ok 0
  | elem :: t =>
      data <- py_getitem elem "data" ;;
      s <- py_in "source" data ;;
      n <- count_where p t ;;
      Ok ((if p s then 1 else 0) + n)
  end.

(** The Cytoscape component, as far as it holds data. *)
Record cytoscape := {
  cy_elements : pyval;
  cy_zoom : pyval;
  cy_pan : pyval;
  cy_minZoom : float;
  cy_maxZoom : float;
  cy_node_count : nat;
  cy_edge_count : nat
}.

(** The counts are only logged; they are kept in the record to speak of them. *)
Definition GraphComponent (elements zoom pan : pyval) : result cytoscape :=
  items <- py_iter elements ;;
  node_count <- count_where negb items ;;
  edge_count <- count_where (fun s => s) items ;;
  Ok {| cy_elements := elements; cy_zoom := zoom; cy_pan := pan;
        cy_minZoom := 0.5%float; cy_maxZoom := 2.0%float;
        cy_node_count := node_count; cy_edge_count := edge_count |}.

(** ** [get_layout] of [layout.py] *)

(** The debug loop over the initial elements. *)
Fixpoint log_loaded_nodes (items : list pyval) : result unit :=
  match items with
  | [] => Ok tt
  | elem :: t =>
      data <- py_getitem elem "data" ;;
      s <- py_in "source" data ;;
      tg <- (if s then Ok true else py_in "target" data) ;;
      _ <- (if negb s && negb tg then
              _ <- py_getitem data "id" ;;
              _ <- py_get data "color" (PStr "No color specified") ;;
              py_get elem "classes" (PStr "No classes specified")
            else Ok PNone) ;;
      log_loaded_nodes t
  end.

(** The layout, as far as it holds data: the two stores and the graph. *)
Record layout := {
  original_elements : pyval;
  store_graph_state : pyval;
  graph : cytoscape
}.

Definition origin : pyval := PDict [("x", PInt 0); ("y", PInt 0)].

(** The document the page starts from: the stored snapshot if there is one,
    else the document built from the taxonomy of [data.py]. *)
Definition initial_document (json_loads : string -> option pyval) (d : database)
  : result document :=
  let initial_state := load_graph_state json_loads d in
  if py_truthy initial_state then
    elements <- py_get initial_state "elements" (PList []) ;;
    zoom <- py_get initial_state "zoom" (PFloat 1.0%float) ;;
    pan <- py_get initial_state "pan" origin ;;
    Ok {| doc_elements := elements; doc_zoom := zoom; doc_pan := pan |}
  else
    Ok {| doc_elements := PList (load_graph_elements central_node primary_nodes subnodes);
          doc_zoom := PFloat 1.0%float;
          doc_pan := origin |}.

Definition get_layout (json_loads : string -> option pyval) (d : database)
  : result layout :=
  doc <- initial_document json_loads d ;;
  items <- py_iter (doc_elements doc) ;;
  _ <- log_loaded_nodes items ;;
  g <- GraphComponent (doc_elements doc) (doc_zoom doc) (doc_pan doc) ;;
  Ok {| original_elements := doc_elements doc;
        store_graph_state := snapshot (doc_elements doc) (doc_zoom doc) (doc_pan doc);
        graph := g |}.

(** * Vocabulary of the further properties *)

(** An element the debug loops accept: its [data] is a dict, and it has an
    [id] when it has neither [source] nor [target]. *)
Definition loggable (elem : pyval) : bool :=
  match field "data" elem with
  | Some (PDict dd) =>
      match assoc "source" dd, assoc "target" dd with
      | None, None => match assoc "id" dd with Some _ => true | None => false end
      | _, _ => true
      end
  | _ => false
  end.

(** A dispatch fired by [prop_id] with every button clicked once. *)
Definition clicked_inputs (prop_id : string) (d : document) : inputs :=
  {| triggered := [prop_id];
     zoom_in := PInt 1; zoom_out := PInt 1; reset_zoom := PInt 1;
     load_clicks := PInt 1; save_clicks := PInt 1; save_note_clicks := PInt 1;
     search_value := PStr ""; tapped_node_data := PNone;
     current_elements := doc_elements d; current_zoom := doc_zoom d;
     current_pan := doc_pan d;
     note_value := PStr ""; tapped_node_state := PNone |}.

(** The number of subcategories of a taxonomy. *)
Definition subcategory_count (subs : subcategories) : nat :=
  List.length (flat_map (fun s => snd s) subs).

(** What one search makes of an element record, for the matching labels
    [R]: the first loop, then the second one if it runs. *)
Definition set_classes (elem : pyval) (classes : list string) : pyval :=
  match elem with
  | PDict d => PDict (dict_set "classes" (PStr (join " " classes)) d)
  | _ => elem
  end.

Definition cleared_element (elem : pyval) : pyval :=
  match field "classes" elem with
  | Some _ => set_classes elem (without_highlight (classes_of elem))
  | None => elem
  end.

Definition marked_element (R : list string) (elem : pyval) : pyval :=
  if is_node elem then
    set_classes elem
      (if str_in_list (label_of elem) R then with_highlight (classes_of elem)
       else without_highlight (classes_of elem))
  else elem.

Definition searched_element (R : list string) (elem : pyval) : pyval :=
  match R with
  | [] => cleared_element elem
  | _ => marked_element R (cleared_element elem)
  end.

(** The labels of the nodes that match [q]. *)
Definition matches_of (q : string) (l : list pyval) : list string :=
  if String.eqb q EmptyString then []
  else filter (ci_match q) (map label_of (filter is_node l)).

(** The message of the info panel after a search. *)
Definition search_message (q : string) (l : list pyval) : string :=
  if String.eqb q EmptyString then "Search cleared. All nodes are visible."
  else match matches_of q l with
       | [] => "No matching nodes found."
       | _ => "Matching nodes highlighted."
       end.

(** The ids the dispatcher knows. *)
Definition known_ids : list string :=
  ["zoom-in"; "zoom-out"; "reset-zoom"; "load-state"; "save-state"; "save-note";
   "node-search"; "cytoscape-graph"].

(** A document with one node, its snapshot, and a codec and a world that
    hold it. *)
Definition compute_document : document :=
  {| doc_elements := PList [compute_node];
     doc_zoom := PFloat 1.5%float;
     doc_pan := PDict [("x", PInt 10); ("y", PInt (-4))] |}.

Definition compute_snapshot : pyval :=
  snapshot (PList [compute_node]) (PFloat 1.5%float) (PDict [("x", PInt 10); ("y", PInt (-4))]).

Definition compute_table : list (pyval * string) :=
  [(compute_snapshot, "compute"); (empty_snapshot, empty_snapshot_json)].

Definition stored_world : world :=
  {| db := {| db_available := true; db_rows := [(3%Z, "compute")]; db_sequence := 3 |};
     calls := [] |}.

(** A text made of whitespace only (the empty text included). *)
Definition blank (s : string) : bool := forallb is_space (list_ascii_of_string s).

(** A tap payload the node-tap branch cannot show: not a record, or a record
    whose notes are not a text. *)
Definition unshowable (tapped : pyval) : bool :=
  match tapped with
  | PDict st =>
      match assoc "notes" st with
      | Some (PStr _) | None => false
      | Some _ => true
      end
  | _ => true
  end.

(** A node tapped on the graph, on document [d]. *)
Definition tap_inputs (tapped : pyval) (d : document) : inputs :=
  {| triggered := ["cytoscape-graph.tapNodeData"];
     zoom_in := PNone; zoom_out := PNone; reset_zoom := PNone;
     load_clicks := PNone; save_clicks := PNone; save_note_clicks := PNone;
     search_value := PStr ""; tapped_node_data := tapped;
     current_elements := doc_elements d; current_zoom := doc_zoom d;
     current_pan := doc_pan d;
     note_value := PStr ""; tapped_node_state := tapped |}.

(** The elements [GraphComponent] counts as edges: those whose data has a
    [source]. *)
Definition has_source (elem : pyval) : bool :=
  match data_field "source" elem with Some _ => true | None => false end.

(** The world in which [compute_document] was saved last. *)
Definition world_after_save : world :=
  {| db := snd (save_graph_state (table_dumps compute_table) compute_snapshot empty_database);
     calls := [] |}.

(** The node and the edge the builder makes for the category at position
    [i], and for a subcategory under [parent_id] with the colour [color]. *)
Definition primary_node (i : nat) (kv : string * string) : node :=
  {| node_id := fst kv;
     node_label := replace_underscores (fst kv);
     node_description := snd kv;
     node_notes := "";
     node_color := nth (i mod 10) PRIMARY_NODE_COLORS "";
     node_classes := "primary-node" |}.

Definition primary_edge (c : central) (kv : string * string) : edge :=
  {| edge_source := central_id c;
     edge_target := fst kv;
     edge_id := edge_name (central_id c) (fst kv) |}.

Definition child_node (color : string) (kv : string * string) : node :=
  {| node_id := fst kv;
     node_label := replace_underscores (fst kv);
     node_description := snd kv;
     node_notes := "";
     node_color := color;
     node_classes := "subnode" |}.

Definition child_edge (parent_id : string) (kv : string * string) : edge :=
  {| edge_source := parent_id;
     edge_target := fst kv;
     edge_id := edge_name parent_id (fst kv) |}.

(** An element ready for the reducer: an element record without the
    marker, which the debug loops accept. *)
Definition ready_element (elem : pyval) : bool :=
  search_element elem && loggable elem && has_data elem && negb (highlighted elem).

(** The colour string of three channels, as the deriver formats it, and the
    channels of a colour of the form [#RRGGBB], as it reads them. *)
Definition rgb (r g b : Z) : string :=
  String "#"%char (String.append (format_02X r) (String.append (format_02X g) (format_02X b))).

Definition channel_of (a b : ascii) : option Z :=
  match int16 (two a b) with
  | Ok v => Some v
  | Raise _ => None
  end.

Definition channels (c : string) : option (Z * Z * Z) :=
  match c with
  | String "#"%char
      (String d1 (String d2 (String d3 (String d4 (String d5 (String d6 EmptyString)))))) =>
      match channel_of d1 d2, channel_of d3 d4, channel_of d5 d6 with
      | Some r, Some g, Some b => Some (r, g, b)
      | _, _, _ => None
      end
  | _ => None
  end.

(** A channel moved half the way, and three fifths of the way, to 255, in
    exact arithmetic and rounded down. *)
Definition half_way (v : Z) : Z := (v + 255) / 2.

Definition three_fifths (v : Z) : Z := (2 * v + 765) / 5.

(** What the default factor and the builder's factor do to the channel
    written [ab]. *)
Definition channel_factors (a b : ascii) : bool :=
  match int16 (two a b) with
  | Ok v =>
      (0 <=? v)%Z && (v <=? 255)%Z &&
      match lighten_channel v (NFloat 0.5%float), lighten_channel v (NFloat 0.6%float) with
      | Ok h, Ok t => (h =? half_way v)%Z && (t =? three_fifths v)%Z
      | _, _ => false
      end
  | Raise _ => false
  end.

(** A channel value is written as two upper-case digits that read back as
    the value. *)
Definition byte_round_trip (n : nat) : bool :=
  match format_02X (Z.of_nat n) with
  | String x (String y EmptyString) =>
      is_hex_char x && is_hex_char y &&
      Ascii.eqb (upper_char x) x && Ascii.eqb (upper_char y) y &&
      negb (Ascii.eqb x "#"%char) &&
      match int16 (two x y) with
      | Ok v => (v =? Z.of_nat n)%Z
      | Raise _ => false
      end
  | _ => false
  end.

Definition is_channel (v : Z) : Prop := (0 <= v <= 255)%Z.

Definition is_str (v : pyval) : bool :=
  match v with
  | PStr _ => true
  | _ => false
  end.

(** * Proofs *)

(** ** Text matcher *)

Lemma lower_char_idem (c : ascii) : lower_char (lower_char c) = lower_char c.
Proof. destruct c as [[] [] [] [] [] [] [] []]; reflexivity. Qed.

Lemma lower_idem (s : string) : lower (lower s) = lower s.
Proof.
  unfold lower.
  induction s as [|c s IH]; simpl; [reflexivity|].
  now rewrite lower_char_idem, IH.
Qed.

Lemma lower_empty (s : string) : String.eqb (lower s) "" = String.eqb s "".
Proof. destruct s; reflexivity. Qed.

Lemma ci_match_lower (q l : string) : ci_match (lower q) l = ci_match q l.
Proof. unfold ci_match. now rewrite lower_idem. Qed.

Lemma matching_labels_of_strings (q : string) (L : list string) :
  matching_labels_of q (map PStr L)
  = Ok (map PStr (filter (fun l => str_contains q (lower l)) L)).
Proof.
  induction L as [|l L IH]; simpl; [reflexivity|].
  rewrite IH. simpl. now destruct (str_contains q (lower l)).
Qed.

(** On a string query and string labels the matcher is a filter, and an
    empty query matches nothing. *)
Lemma perform_fuzzy_search_strings (q : string) (L : list string) :
  perform_fuzzy_search (PStr q) (map PStr L)
  = map PStr (if String.eqb q "" then [] else filter (ci_match q) L).
Proof.
  unfold perform_fuzzy_search. simpl.
  destruct (String.eqb q ""); simpl; [reflexivity|].
  now rewrite matching_labels_of_strings.
Qed.

Lemma filter_sublist {A : Type} (p : A -> bool) (l : list A) : sublist (filter p l) l.
Proof.
  induction l as [|x l IH]; simpl; [constructor|].
  destruct (p x); now constructor.
Qed.

Lemma sublist_nil_l {A : Type} (l : list A) : sublist [] l.
Proof. induction l; now constructor. Qed.

(** C6. For every label list [L] and query [q]: the empty (or absent) query
    matches nothing; a query and its lower-case form give the same result;
    the result is an order-preserving sublist of [L] all of whose labels
    contain the lower-cased query in their lower-cased form, and for a
    non-empty query it is exactly the sublist of those labels. *)
Theorem perform_fuzzy_search_spec (q : string) (L : list string) :
  perform_fuzzy_search (PStr "") (map PStr L) = [] /\
  perform_fuzzy_search PNone (map PStr L) = [] /\
  perform_fuzzy_search (PStr q) (map PStr L)
    = perform_fuzzy_search (PStr (lower q)) (map PStr L) /\
  exists R,
    perform_fuzzy_search (PStr q) (map PStr L) = map PStr R /\
    sublist R L /\
    (forall l, In l R -> ci_match q l = true) /\
    (q <> "" -> R = filter (ci_match q) L).
Proof.
  split; [reflexivity|]. split; [reflexivity|]. split.
  - rewrite !perform_fuzzy_search_strings, lower_empty.
    destruct (String.eqb q ""); [reflexivity|].
    f_equal. apply filter_ext. intro l. now rewrite ci_match_lower.
  - rewrite perform_fuzzy_search_strings.
    destruct (String.eqb_spec q "") as [E|N].
    + exists []. repeat split.
      * apply sublist_nil_l.
      * intros l [].
      * intro H. now elim H.
    + exists (filter (ci_match q) L). repeat split.
      * apply filter_sublist.
      * intros l H. now apply filter_In in H.
Qed.

(** ** Colour deriver *)

Lemma in_all_ascii (c : ascii) : In c all_ascii.
Proof.
  unfold all_ascii. rewrite <- (ascii_nat_embedding c).
  apply in_map, in_seq. pose proof (nat_ascii_bounded c). lia.
Qed.

Lemma in_hex_chars (c : ascii) : is_hex_char c = true -> In c hex_chars.
Proof. intro H. apply filter_In. split; [apply in_all_ascii | exact H]. Qed.

Lemma channel_endpoints_all :
  forallb (fun a => forallb (channel_endpoints a) hex_chars) hex_chars = true.
Proof. vm_compute. reflexivity. Qed.

Lemma channel_endpoints_hex (a b : ascii) :
  is_hex_char a = true -> is_hex_char b = true -> channel_endpoints a b = true.
Proof.
  intros Ha Hb. pose proof channel_endpoints_all as H.
  rewrite forallb_forall in H. specialize (H a (in_hex_chars a Ha)).
  rewrite forallb_forall in H. exact (H b (in_hex_chars b Hb)).
Qed.

Lemma channel_zero (a b : ascii) (f : pynum) :
  is_hex_char a = true -> is_hex_char b = true -> In f [NInt 0; NFloat 0%float] ->
  exists v v', int16 (two a b) = Ok v /\ lighten_channel v f = Ok v' /\
               format_02X v' = two (upper_char a) (upper_char b).
Proof.
  intros Ha Hb Hf. pose proof (channel_endpoints_hex a b Ha Hb) as H.
  unfold channel_endpoints in H. destruct (int16 (two a b)) as [v|] eqn:Ev; [|discriminate].
  apply andb_prop in H. destruct H as [H _].
  rewrite forallb_forall in H. specialize (H f Hf).
  destruct (lighten_channel v f) as [v'|] eqn:Ev'; [|discriminate].
  exists v, v'. split; [reflexivity|]. split; [exact Ev'|]. now apply String.eqb_eq.
Qed.

Lemma channel_one (a b : ascii) (f : pynum) :
  is_hex_char a = true -> is_hex_char b = true -> In f [NInt 1; NFloat 1%float] ->
  exists v v', int16 (two a b) = Ok v /\ lighten_channel v f = Ok v' /\
               format_02X v' = "FF".
Proof.
  intros Ha Hb Hf. pose proof (channel_endpoints_hex a b Ha Hb) as H.
  unfold channel_endpoints in H. destruct (int16 (two a b)) as [v|] eqn:Ev; [|discriminate].
  apply andb_prop in H. destruct H as [_ H].
  rewrite forallb_forall in H. specialize (H f Hf).
  destruct (lighten_channel v f) as [v'|] eqn:Ev'; [|discriminate].
  exists v, v'. split; [reflexivity|]. split; [exact Ev'|]. now apply String.eqb_eq.
Qed.

Lemma hex_char_not_hash (c : ascii) : is_hex_char c = true -> Ascii.eqb c "#"%char = false.
Proof. destruct c as [[] [] [] [] [] [] [] []]; intro H; try reflexivity; discriminate H. Qed.

Lemma valid_hex6_inv (c : string) :
  valid_hex6 c = true ->
  exists d1 d2 d3 d4 d5 d6,
    c = String "#"%char (six d1 d2 d3 d4 d5 d6) /\
    is_hex_char d1 = true /\ is_hex_char d2 = true /\ is_hex_char d3 = true /\
    is_hex_char d4 = true /\ is_hex_char d5 = true /\ is_hex_char d6 = true.
Proof.
  unfold valid_hex6. destruct c as [|h r]; [discriminate|].
  destruct (Ascii.eqb_spec h "#"%char) as [->|N].
  2:{ destruct h as [[] [] [] [] [] [] [] []]; try discriminate. now elim N. }
  intro H. apply andb_prop in H. destruct H as [L F].
  destruct r as [|d1 [|d2 [|d3 [|d4 [|d5 [|d6 [|x r]]]]]]]; try discriminate L.
  simpl in F. repeat (apply andb_prop in F; destruct F as [? F]).
  exists d1, d2, d3, d4, d5, d6. repeat split; assumption.
Qed.

(** The result on a six-digit colour whose channels parse and lighten. *)
Lemma lighten_color_six (d1 d2 d3 d4 d5 d6 : ascii) (f : pynum) (r g b r' g' b' : Z) :
  Ascii.eqb d1 "#"%char = false ->
  int16 (two d1 d2) = Ok r -> int16 (two d3 d4) = Ok g -> int16 (two d5 d6) = Ok b ->
  lighten_channel r f = Ok r' -> lighten_channel g f = Ok g' -> lighten_channel b f = Ok b' ->
  lighten_color (String "#"%char (six d1 d2 d3 d4 d5 d6)) f
  = String "#"%char (String.append (format_02X r') (String.append (format_02X g') (format_02X b'))).
Proof.
  intros N Hr Hg Hb Hr' Hg' Hb'.
  unfold lighten_color, lstrip_hash, six. simpl lstrip_by. rewrite N. simpl.
  unfold slice, two in *. simpl substring.
  rewrite Hr. simpl. rewrite Hg. simpl. rewrite Hb. simpl.
  rewrite Hr'. simpl. rewrite Hg'. simpl. rewrite Hb'. reflexivity.
Qed.

Lemma lighten_color_zero (c : string) (f : pynum) :
  valid_hex6 c = true -> In f [NInt 0; NFloat 0%float] -> lighten_color c f = upper c.
Proof.
  intros V Hf. destruct (valid_hex6_inv c V) as (d1 & d2 & d3 & d4 & d5 & d6 & -> & H1 & H2 & H3 & H4 & H5 & H6).
  destruct (channel_zero d1 d2 f H1 H2 Hf) as (r & r' & Er & Er' & Fr).
  destruct (channel_zero d3 d4 f H3 H4 Hf) as (g & g' & Eg & Eg' & Fg).
  destruct (channel_zero d5 d6 f H5 H6 Hf) as (b & b' & Eb & Eb' & Fb).
  rewrite (lighten_color_six d1 d2 d3 d4 d5 d6 f r g b r' g' b'
             (hex_char_not_hash d1 H1) Er Eg Eb Er' Eg' Eb').
  rewrite Fr, Fg, Fb. reflexivity.
Qed.

Lemma lighten_color_one (c : string) (f : pynum) :
  valid_hex6 c = true -> In f [NInt 1; NFloat 1%float] -> lighten_color c f = "#FFFFFF".
Proof.
  intros V Hf. destruct (valid_hex6_inv c V) as (d1 & d2 & d3 & d4 & d5 & d6 & -> & H1 & H2 & H3 & H4 & H5 & H6).
  destruct (channel_one d1 d2 f H1 H2 Hf) as (r & r' & Er & Er' & Fr).
  destruct (channel_one d3 d4 f H3 H4 Hf) as (g & g' & Eg & Eg' & Fg).
  destruct (channel_one d5 d6 f H5 H6 Hf) as (b & b' & Eb & Eb' & Fb).
  rewrite (lighten_color_six d1 d2 d3 d4 d5 d6 f r g b r' g' b'
             (hex_char_not_hash d1 H1) Er Eg Eb Er' Eg' Eb').
  rewrite Fr, Fg, Fb. reflexivity.
Qed.

(** C3, as the code has it. For every valid six-digit colour [c], factor 0
    (the integer or the float) gives [c] with its digits in upper case, hence
    [c] itself when [c] has no lower-case digit, and factor 1 gives
    [#FFFFFF]. *)
Theorem lighten_color_endpoints (c : string) :
  valid_hex6 c = true ->
  lighten_color c (NInt 0) = upper c /\
  lighten_color c (NFloat 0%float) = upper c /\
  (upper c = c -> lighten_color c (NInt 0) = c /\ lighten_color c (NFloat 0%float) = c) /\
  lighten_color c (NInt 1) = "#FFFFFF" /\
  lighten_color c (NFloat 1%float) = "#FFFFFF".
Proof.
  intro V.
  assert (Z0 : lighten_color c (NInt 0) = upper c) by (apply lighten_color_zero; simpl; auto).
  assert (F0 : lighten_color c (NFloat 0%float) = upper c) by (apply lighten_color_zero; simpl; auto).
  split; [exact Z0|]. split; [exact F0|]. split.
  - intro U. rewrite Z0, F0. now split.
  - split; apply lighten_color_one; simpl; auto.
Qed.

(** Witness of C3 on the first palette colour and on white. *)
Lemma lighten_color_endpoints_witness :
  valid_hex6 "#1f77b4" = true /\
  lighten_color "#1f77b4" (NInt 0) = "#1F77B4" /\
  lighten_color "#1f77b4" (NFloat 1%float) = "#FFFFFF".
Proof.
  split; [reflexivity|].
  destruct (lighten_color_endpoints "#1f77b4" eq_refl) as (H0 & _ & _ & _ & H1).
  split; [exact H0 | exact H1].
Defined.

(** C3 as stated fails: the first palette colour is a valid six-digit
    colour, and factor 0 does not give it back character for character. *)
Lemma lighten_color_zero_not_identity :
  valid_hex6 "#1f77b4" = true /\
  lighten_color "#1f77b4" (NInt 0) = "#1F77B4" /\
  String.eqb (lighten_color "#1f77b4" (NInt 0)) "#1f77b4" = false.
Proof. repeat split. Qed.

(** C2, on the code. A colour with non-hexadecimal characters does not make
    the deriver raise, whatever the factor, but the string returned is the
    one rebound by [lstrip] and by the shorthand expansion, not the input;
    and a five-digit colour is lightened, not refused. *)
Theorem lighten_color_malformed (f : pynum) :
  valid_hex6 "#GGGGGG" = false /\
  lighten_color "#GGGGGG" f = "GGGGGG" /\
  lighten_color "#xyz" f = "xxyyzz" /\
  lighten_color "GGGGGG" f = "GGGGGG" /\
  lighten_color "#12345" (NFloat 0.5%float) = "#889982".
Proof. repeat split. Qed.

(** ** Save note *)

Lemma dispatch_save_note (json_dumps : pyval -> option string)
    (json_loads : string -> option pyval) (i : inputs) (w : world)
    (prop_id : string) (rest : list string) :
  triggered i = prop_id :: rest ->
  before_dot prop_id = "save-note" ->
  py_truthy (save_note_clicks i) = true ->
  handle_interactions json_dumps json_loads i w
  = handle_save_note json_dumps i (default_outputs i) w.
Proof.
  intros T B C. unfold handle_interactions. rewrite T, B, C. reflexivity.
Qed.

(** C9. A Save Note dispatch with no tapped node (the state is absent or
    empty) returns the default outputs: the elements, zoom and pan are the
    current ones, no alert is raised, and the world is untouched, so the store
    was not called. *)
Theorem save_note_without_selection (json_dumps : pyval -> option string)
    (json_loads : string -> option pyval) (i : inputs) (w : world)
    (prop_id : string) (rest : list string) :
  triggered i = prop_id :: rest ->
  before_dot prop_id = "save-note" ->
  py_truthy (save_note_clicks i) = true ->
  py_truthy (tapped_node_state i) = false ->
  exists o,
    handle_interactions json_dumps json_loads i w = (Ok o, w) /\
    new_elements o = current_elements i /\
    new_zoom o = current_zoom i /\
    new_pan o = current_pan i /\
    note_save_alert o = false /\
    save_alert o = false.
Proof.
  intros T B C S. exists (default_outputs i).
  rewrite (dispatch_save_note _ _ _ _ _ _ T B C).
  unfold handle_save_note. rewrite S. repeat split.
Qed.

(** Witness of C9: the note "hello" saved on the Compute node's document
    with nothing tapped. *)
Lemma save_note_without_selection_witness :
  exists o,
    handle_interactions (table_dumps []) (table_loads [])
      (save_note_inputs (PInt 1) (PStr "hello") PNone (PList [compute_node])) fresh_world
    = (Ok o, fresh_world) /\
    new_elements o = PList [compute_node] /\ note_save_alert o = false.
Proof.
  destruct (save_note_without_selection (table_dumps []) (table_loads [])
              (save_note_inputs (PInt 1) (PStr "hello") PNone (PList [compute_node]))
              fresh_world "save-note.n_clicks" [] eq_refl eq_refl eq_refl eq_refl)
    as (o & H & E & _ & _ & N & _).
  exists o. split; [exact H|]. split; [exact E | exact N].
Defined.

Lemma note_loop_total (node_id note : pyval) (l : list pyval) :
  forallb has_data l = true ->
  exists l' found,
    note_loop node_id note l = Ok (l', found) /\
    (id_absent node_id l = true -> l' = l /\ found = false).
Proof.
  induction l as [|elem l IH]; intro H.
  - exists [], false. split; [reflexivity|]. intros _. now split.
  - simpl in H. apply andb_prop in H. destruct H as [D H].
    destruct elem as [| | | | | |d]; try discriminate D.
    simpl in D. destruct (assoc "data" d) as [[| | | | | |dd]|] eqn:Ed; try discriminate D.
    destruct (IH H) as (l' & found & E & A).
    cbn [note_loop py_getitem bind]. rewrite Ed. cbn [bind py_get].
    destruct (py_eq match assoc "id" dd with Some x => x | None => PNone end node_id) eqn:Q.
    + eexists _, true. split; [reflexivity|].
      intro Ab. simpl in Ab. rewrite Ed, Q in Ab. discriminate Ab.
    + rewrite E. cbn [bind fst snd]. exists (PDict d :: l'), found.
      split; [reflexivity|]. intro Ab. simpl in Ab. rewrite Ed, Q in Ab.
      destruct (A Ab) as [-> ->]. now split.
Qed.

(** C10, on the code. With a tapped node and an absent note the dispatch
    raises [AttributeError] on [note_value.strip()], after the loop and
    before the store is called: no alert is returned and nothing is saved,
    whether or not an element has the tapped id. The same dispatch with a
    text note returns with the alert raised and calls the store once. The
    defect is the one of C1: the branch has no handler of its own. *)
Theorem save_note_selection_raises (json_dumps : pyval -> option string)
    (json_loads : string -> option pyval) (w : world) :
  handle_interactions json_dumps json_loads
    (save_note_inputs (PInt 1) PNone (PDict [("id", PStr "Storage")]) (PList [compute_node])) w
  = (Raise AttributeError, w) /\
  exists o w',
    handle_interactions json_dumps json_loads
      (save_note_inputs (PInt 1) (PStr "hello") (PDict [("id", PStr "Storage")])
         (PList [compute_node])) w
    = (Ok o, w') /\
    note_save_alert o = true /\
    calls w' = SaveCall (state_to_save o) :: calls w.
Proof.
  split; [reflexivity|].
  unfold handle_interactions, handle_save_note, call_save.
  cbn -[save_graph_state].
  destruct (save_graph_state json_dumps _ (db w)) as [success d'].
  eexists _, _. split; [reflexivity|]. split; reflexivity.
Qed.

(** X30. A Save Note dispatch with a tapped node (a non-empty record), a
    text note and elements that are element records returns normally with the
    note-saved alert raised and the panel showing the note, and calls the
    store once with the resulting document, whatever the store answers; when
    no element has the tapped id the elements are returned as they were. *)
Theorem save_note_with_selection (json_dumps : pyval -> option string)
    (json_loads : string -> option pyval) (i : inputs) (w : world)
    (prop_id : string) (rest : list string)
    (sel : pydict) (note : string) (l : list pyval) :
  triggered i = prop_id :: rest ->
  before_dot prop_id = "save-note" ->
  py_truthy (save_note_clicks i) = true ->
  tapped_node_state i = PDict sel ->
  py_truthy (PDict sel) = true ->
  note_value i = PStr note ->
  current_elements i = PList l ->
  forallb has_data l = true ->
  exists o w',
    handle_interactions json_dumps json_loads i w = (Ok o, w') /\
    note_save_alert o = true /\
    rendered_notes o = PStr note /\
    node_notes_value o = PStr note /\
    calls w' = SaveCall (state_to_save o) :: calls w /\
    db w' = snd (save_graph_state json_dumps (state_to_save o) (db w)) /\
    (id_absent (match assoc "id" sel with Some v => v | None => PNone end) l = true ->
     new_elements o = PList l).
Proof.
  intros T B C S NE N E D.
  rewrite (dispatch_save_note _ _ _ _ _ _ T B C).
  unfold handle_save_note. rewrite S, NE, N.
  cbn [py_get bind default_outputs new_elements]. unfold deepcopy. rewrite E.
  cbn [update_note].
  destruct (note_loop_total (match assoc "id" sel with Some v => v | None => PNone end)
              (PStr note) l D) as (l' & found & L & A).
  rewrite L. cbn [bind fst py_strip].
  unfold call_save.
  destruct (save_graph_state json_dumps _ (db w)) as [success d'] eqn:Sv.
  eexists _, _. split; [reflexivity|]. cbn.
  repeat split.
  - cbn in Sv. cbn. now rewrite Sv.
  - intro Ab. destruct (A Ab) as [-> _]. reflexivity.
Qed.

(** A note for a node that is not in the document, on a backend that does
    not answer. *)
Lemma save_note_with_selection_witness :
  exists o w',
    handle_interactions (table_dumps []) (table_loads [])
      (save_note_inputs (PInt 1) (PStr "hello") (PDict [("id", PStr "Storage")])
         (PList [compute_node]))
      {| db := {| db_available := false; db_rows := []; db_sequence := 0 |}; calls := [] |}
    = (Ok o, w') /\
    note_save_alert o = true /\
    calls w' = [SaveCall (state_to_save o)] /\
    new_elements o = PList [compute_node].
Proof.
  destruct (save_note_with_selection (table_dumps []) (table_loads [])
              (save_note_inputs (PInt 1) (PStr "hello") (PDict [("id", PStr "Storage")])
                 (PList [compute_node]))
              {| db := {| db_available := false; db_rows := []; db_sequence := 0 |}; calls := [] |}
              "save-note.n_clicks" [] [("id", PStr "Storage")] "hello" [compute_node]
              eq_refl eq_refl eq_refl eq_refl eq_refl eq_refl eq_refl eq_refl)
    as (o & w' & H & A & _ & _ & Cs & _ & Ab).
  exists o, w'. split; [exact H|]. split; [exact A|]. split; [exact Cs|].
  apply Ab. reflexivity.
Defined.

(** C1, on the code. The Save Note branch has no handler of its own: with a
    tapped node and an absent note the call raises [AttributeError] (on
    [note_value.strip()]), and so it does when the tapped state is not a
    record (on [tapped_node_state.get]); the node-tap branch takes the same
    malformed payload and returns. *)
Theorem save_note_raises (json_dumps : pyval -> option string)
    (json_loads : string -> option pyval) (w : world) :
  handle_interactions json_dumps json_loads
    (save_note_inputs (PInt 1) PNone (PDict [("id", PStr "Compute")]) (PList [compute_node])) w
  = (Raise AttributeError, w) /\
  handle_interactions json_dumps json_loads
    (save_note_inputs (PInt 1) (PStr "hello") (PStr "Compute") (PList [compute_node])) w
  = (Raise AttributeError, w) /\
  returns (fst (handle_interactions json_dumps json_loads
                  (dispatch_inputs "cytoscape-graph.tapNodeData"
                     (save_note_inputs (PInt 1) PNone (PStr "Compute") (PList [compute_node]))
                     {| doc_elements := PList [compute_node];
                        doc_zoom := PFloat 1.0%float;
                        doc_pan := PDict [("x", PInt 0); ("y", PInt 0)] |}) w)).
Proof.
  split; [reflexivity|]. split; [reflexivity|]. eexists. reflexivity.
Qed.

(** ** Snapshot store *)

(** After a successful save the table holds the new row alone. *)
Lemma save_graph_state_rows (json_dumps : pyval -> option string) (state : pyval)
    (d : database) (s : string) :
  db_available d = true -> rowid_available d = true -> json_dumps state = Some s ->
  save_graph_state json_dumps state d
  = (true, {| db_available := true; db_rows := [(next_id d, s)]; db_sequence := next_id d |}).
Proof. intros A R J. unfold save_graph_state. now rewrite J, A, R. Qed.

(** The row just saved is the one a load reads. *)
Lemma load_saved_row (json_loads : string -> option pyval) (id : Z) (s : string) :
  load_graph_state json_loads
    {| db_available := true; db_rows := [(id, s)]; db_sequence := id |}
  = match json_loads s with Some state => state | None => PNone end.
Proof. reflexivity. Qed.




(** ** Zoom controls *)

(** *** Comparison of numbers *)

Lemma float_cmp_spec (x y : float) :
  float_cmp x y = SFcompare (Prim2SF x) (Prim2SF y).
Proof.
  unfold float_cmp. rewrite compare_spec.
  now destruct (SFcompare (Prim2SF x) (Prim2SF y)) as [[]|].
Qed.

Lemma SFcompare_antisym (x y : spec_float) :
  SFcompare y x = option_map CompOpp (SFcompare x y).
Proof.
  destruct x as [sx|sx| |sx mx ex], y as [sy|sy| |sy my ey]; simpl;
    try reflexivity; try (now destruct sx); try (now destruct sy);
    try (now destruct sx, sy).
  assert (P : Pos.compare_cont Eq my mx = CompOpp (Pos.compare_cont Eq mx my))
    by (now rewrite Pos.compare_cont_antisym).
  destruct sx, sy; try reflexivity; f_equal;
    rewrite (Z.compare_antisym ex ey), P;
    destruct (ex ?= ey)%Z; simpl; try reflexivity;
    now destruct (Pos.compare_cont Eq mx my).
Qed.

Lemma Z_cmp_float_none (z : Z) (f : float) :
  Z_cmp_float z f = None -> is_nan (NFloat f) = true.
Proof.
  unfold Z_cmp_float, is_nan.
  destruct (Prim2SF f) as [s|s| |s m e]; try discriminate; try reflexivity.
  now destruct (0 <=? e)%Z.
Qed.

Lemma SFcompare_none (x y : spec_float) :
  SFcompare x y = None -> x = S754_nan \/ y = S754_nan.
Proof.
  destruct x as [sx|sx| |sx mx ex], y as [sy|sy| |sy my ey]; simpl;
    intro H; try discriminate H; auto.
Qed.

Lemma num_cmp_none (a b : pynum) :
  num_cmp a b = None -> is_nan a = true \/ is_nan b = true.
Proof.
  destruct a as [x|x], b as [y|y]; simpl num_cmp.
  - discriminate.
  - intro H. right. now apply (Z_cmp_float_none x).
  - intro H. left. apply (Z_cmp_float_none y). now destruct (Z_cmp_float y x).
  - rewrite float_cmp_spec. intro H. apply SFcompare_none in H.
    unfold is_nan. destruct H as [-> | ->]; auto.
Qed.

Lemma is_nan_cmp_l (a b : pynum) : is_nan a = true -> num_cmp a b = None.
Proof.
  destruct a as [x|x]; [discriminate|]. unfold is_nan. intro H.
  destruct b as [y|y]; simpl num_cmp.
  - unfold Z_cmp_float. now destruct (Prim2SF x).
  - rewrite float_cmp_spec. now destruct (Prim2SF x).
Qed.

Lemma is_nan_cmp_r (a b : pynum) : is_nan b = true -> num_cmp a b = None.
Proof.
  destruct b as [y|y]; [discriminate|]. unfold is_nan. intro H.
  destruct a as [x|x]; simpl num_cmp.
  - unfold Z_cmp_float. now destruct (Prim2SF y).
  - rewrite float_cmp_spec. destruct (Prim2SF y); try discriminate.
    now destruct (Prim2SF x).
Qed.

Lemma num_cmp_antisym (a b : pynum) :
  num_cmp b a = option_map CompOpp (num_cmp a b).
Proof.
  destruct a as [x|x], b as [y|y]; simpl num_cmp.
  - simpl. now rewrite (Z.compare_antisym x y).
  - reflexivity.
  - destruct (Z_cmp_float y x) as [[]|]; reflexivity.
  - rewrite !float_cmp_spec. apply SFcompare_antisym.
Qed.

(** Against a number that is not NaN, "not above" is "at most". *)
Lemma num_le_of_not_lt (a n : pynum) :
  is_nan a = false -> is_nan n = false -> num_lt a n = false -> num_le n a = true.
Proof.
  intros Na Nn H. unfold num_lt, num_le in *.
  rewrite (num_cmp_antisym a n).
  destruct (num_cmp a n) as [[]|] eqn:E; try reflexivity; try discriminate.
  apply num_cmp_none in E. destruct E as [E|E]; congruence.
Qed.

Lemma num_lt_le (a n : pynum) : num_lt a n = true -> num_le a n = true.
Proof. unfold num_lt, num_le. now destruct (num_cmp a n) as [[]|]. Qed.

Lemma num_lt_not_nan (a n : pynum) : num_lt a n = true -> is_nan n = false.
Proof.
  unfold num_lt. intro H. destruct (is_nan n) eqn:E; [|reflexivity].
  now rewrite (is_nan_cmp_r a n E) in H.
Qed.

(** *** The clamp *)

(** [max(0.5, min(v, 2.0))] on a number [v]: it returns, the result is in
    range, and it is [v] itself unless [v] is outside. *)
Lemma clamp_in_range (v : pyval) (n : pynum) :
  as_num v = Some n ->
  exists z,
    (m <- py_min v (PFloat 2.0%float) ;; py_max (PFloat 0.5%float) m) = Ok z /\
    zoom_in_range z = true /\
    z = (if num_lt (NFloat 2.0%float) n then PFloat 2.0%float
         else if num_lt (NFloat 0.5%float) n then v
         else PFloat 0.5%float).
Proof.
  intro V. unfold py_min, py_max, py_lt. cbn [as_num]. rewrite V. cbn [bind].
  destruct (num_lt (NFloat 2.0%float) n) eqn:C1.
  - eexists. split; [reflexivity|]. split; reflexivity.
  - rewrite V. cbn [bind].
    destruct (num_lt (NFloat 0.5%float) n) eqn:C2.
    + eexists. split; [reflexivity|]. split; [|reflexivity].
      unfold zoom_in_range. rewrite V.
      rewrite (num_lt_le _ _ C2).
      rewrite (num_le_of_not_lt (NFloat 2.0%float) n eq_refl (num_lt_not_nan _ _ C2) C1).
      reflexivity.
    + eexists. split; [reflexivity|]. split; reflexivity.
Qed.

(** *** One dispatch *)

Lemma in_range_num (v : pyval) :
  zoom_in_range v = true -> exists n, as_num v = Some n.
Proof. unfold zoom_in_range. destruct (as_num v) as [n|]; [now exists n | discriminate]. Qed.

Lemma int_in_range (z : Z) :
  zoom_in_range (PInt z) = true -> z = 1%Z \/ z = 2%Z.
Proof.
  unfold zoom_in_range, num_le, num_cmp, Z_cmp_float. cbn [as_num].
  set (lo := Prim2SF 0.5%float). vm_compute in lo. subst lo.
  set (hi := Prim2SF 2.0%float). vm_compute in hi. subst hi.
  cbn -[Z.mul Z.compare Z.pow].
  change (0 <=? -53)%Z with false. change (0 <=? -51)%Z with false. cbv iota.
  destruct (Z.compare_spec (z * 2 ^ 53) 4503599627370496);
    destruct (Z.compare_spec (z * 2 ^ 51) 4503599627370496);
    cbn; try discriminate; intros _; lia.
Qed.

Lemma adjusted_zoom_returns (t : zoom_trigger) (i : inputs) (v : pyval) :
  zoom_in_range v = true ->
  exists z n, adjusted_zoom t i v = Ok z /\ as_num z = Some n.
Proof.
  intro R. unfold adjusted_zoom.
  destruct (py_truthy (clicks_of t i)).
  2:{ destruct (in_range_num v R) as [n N]. now exists v, n. }
  destruct t.
  3:{ eexists _, _. split; reflexivity. }
  all: destruct v as [|[]|z|f|s|l|dd]; try discriminate R;
    try (eexists _, _; split; reflexivity);
    destruct (int_in_range z R) as [-> | ->]; eexists _, _; split; reflexivity.
Qed.

(** A zoom dispatch is the adjustment followed by the clamp; the other
    outputs are the defaults, and the world is not touched. *)
Lemma zoom_dispatch (json_dumps : pyval -> option string)
    (json_loads : string -> option pyval)
    (t : zoom_trigger) (i : inputs) (d : document) (w : world) :
  handle_interactions json_dumps json_loads (dispatch_inputs (zoom_prop_id t) i d) w
  = (z <- adjusted_zoom t i (doc_zoom d) ;;
     m <- py_min z (PFloat 2.0%float) ;;
     z <- py_max (PFloat 0.5%float) m ;;
     Ok (set_zoom (default_outputs (dispatch_inputs (zoom_prop_id t) i d)) z), w).
Proof. destruct t; reflexivity. Qed.

Lemma zoom_step (json_dumps : pyval -> option string)
    (json_loads : string -> option pyval)
    (t : zoom_trigger) (i : inputs) (d : document) (w : world) :
  zoom_in_range (doc_zoom d) = true ->
  exists z,
    handle_interactions json_dumps json_loads (dispatch_inputs (zoom_prop_id t) i d) w
    = (Ok (set_zoom (default_outputs (dispatch_inputs (zoom_prop_id t) i d)) z), w) /\
    zoom_in_range z = true.
Proof.
  intro R. rewrite zoom_dispatch.
  destruct (adjusted_zoom_returns t i (doc_zoom d) R) as (z1 & n1 & A & N).
  rewrite A. cbn [bind].
  destruct (clamp_in_range z1 n1 N) as (z & C & Rz & _).
  exists z. split; [|exact Rz].
  unfold bind in C |- *.
  destruct (py_min z1 (PFloat 2.0%float)) as [m|]; [|discriminate C].
  now rewrite C.
Qed.

Lemma run_zoom_in_range (json_dumps : pyval -> option string)
    (json_loads : string -> option pyval)
    (ds : list (zoom_trigger * inputs)) (d : document) (w : world) :
  zoom_in_range (doc_zoom d) = true ->
  exists z,
    run_zoom json_dumps json_loads ds d w
    = (Ok {| doc_elements := doc_elements d; doc_zoom := z; doc_pan := doc_pan d |}, w) /\
    zoom_in_range z = true.
Proof.
  revert d. induction ds as [|[t i] ds IH]; intros d R.
  - exists (doc_zoom d). split; [now destruct d | exact R].
  - cbn [run_zoom]. destruct (zoom_step json_dumps json_loads t i d w R) as (z & H & Rz).
    rewrite H.
    destruct (IH (document_of (set_zoom (default_outputs (dispatch_inputs (zoom_prop_id t) i d)) z)) Rz)
      as (z' & H' & Rz').
    exists z'. split; [exact H' | exact Rz'].
Qed.

(** C4. From a zoom in [0.5, 2.0], any sequence of zoom dispatches returns
    with the zoom in [0.5, 2.0] and with the elements and the pan it started
    from; and a single ZoomIn (ZoomOut) whose button was clicked returns
    the clamp of the zoom plus (minus) 0.2, a ResetZoom returns 1.0, with
    elements and pan unchanged. *)
Theorem zoom_stays_in_range (json_dumps : pyval -> option string)
    (json_loads : string -> option pyval)
    (ds : list (zoom_trigger * inputs)) (d : document) (w : world) :
  zoom_in_range (doc_zoom d) = true ->
  (exists z,
     run_zoom json_dumps json_loads ds d w
     = (Ok {| doc_elements := doc_elements d; doc_zoom := z; doc_pan := doc_pan d |}, w) /\
     zoom_in_range z = true) /\
  (forall (t : zoom_trigger) (i : inputs) (n : pynum),
     as_num (doc_zoom d) = Some n ->
     py_truthy (clicks_of t i) = true ->
     exists o,
       handle_interactions json_dumps json_loads (dispatch_inputs (zoom_prop_id t) i d) w
       = (Ok o, w) /\
       new_elements o = doc_elements d /\
       new_pan o = doc_pan d /\
       match t with
       | ZoomIn => exists n', num_add n (NFloat 0.2%float) = Ok n' /\ new_zoom o = clamp_zoom n'
       | ZoomOut => exists n', num_sub n (NFloat 0.2%float) = Ok n' /\ new_zoom o = clamp_zoom n'
       | ResetZoom => new_zoom o = PFloat 1.0%float
       end).
Proof.
  intro R. split; [now apply run_zoom_in_range|].
  intros t i n N T.
  destruct (adjusted_zoom_returns t i (doc_zoom d) R) as (z1 & n1 & Az & N1).
  rewrite zoom_dispatch. rewrite Az. cbn [bind].
  destruct (clamp_in_range z1 n1 N1) as (z & C & _ & Cz).
  exists (set_zoom (default_outputs (dispatch_inputs (zoom_prop_id t) i d)) z).
  split.
  { unfold bind in C |- *.
    destruct (py_min z1 (PFloat 2.0%float)) as [m|]; [|discriminate C]. now rewrite C. }
  split; [reflexivity|]. split; [reflexivity|].
  unfold adjusted_zoom in Az. rewrite T in Az. cbn [set_zoom new_zoom].
  destruct t.
  - unfold py_arith, zoom_factor in Az. cbn [as_num] in Az. rewrite N in Az.
    destruct (num_add n (NFloat 0.2%float)) as [n'|] eqn:E; [|discriminate Az].
    cbn [bind] in Az. injection Az as <-. exists n'. split; [reflexivity|].
    assert (n1 = n') by (destruct n'; cbn in N1; congruence). subst n1.
    rewrite Cz. unfold clamp_zoom. reflexivity.
  - unfold py_arith, zoom_factor in Az. cbn [as_num] in Az. rewrite N in Az.
    destruct (num_sub n (NFloat 0.2%float)) as [n'|] eqn:E; [|discriminate Az].
    cbn [bind] in Az. injection Az as <-. exists n'. split; [reflexivity|].
    assert (n1 = n') by (destruct n'; cbn in N1; congruence). subst n1.
    rewrite Cz. unfold clamp_zoom. reflexivity.
  - injection Az as <-. rewrite Cz. cbn in N1. injection N1 as <-. reflexivity.
Qed.

(** Witness of C4: from 1.9, two ZoomIn, one ZoomOut, one ResetZoom. *)
Lemma zoom_stays_in_range_witness :
  exists z,
    run_zoom (table_dumps []) (table_loads [])
      [(ZoomIn, zoom_clicks 1); (ZoomIn, zoom_clicks 2); (ZoomOut, zoom_clicks 1);
       (ResetZoom, zoom_clicks 1)]
      near_max_document fresh_world
    = (Ok {| doc_elements := PList [compute_node]; doc_zoom := z;
             doc_pan := PDict [("x", PInt 10); ("y", PInt (-4))] |}, fresh_world) /\
    zoom_in_range z = true.
Proof.
  exact (proj1 (zoom_stays_in_range (table_dumps []) (table_loads [])
                  [(ZoomIn, zoom_clicks 1); (ZoomIn, zoom_clicks 2); (ZoomOut, zoom_clicks 1);
                   (ResetZoom, zoom_clicks 1)]
                  near_max_document fresh_world eq_refl)).
Defined.

(** The clamp at work: 1.9 + 0.2 is brought back to 2.0, and 0.6 - 0.2 to 0.5. *)
Example zoom_in_clamps :
  fst (handle_interactions (table_dumps []) (table_loads [])
         (dispatch_inputs "zoom-in.n_clicks" (zoom_clicks 1) near_max_document) fresh_world)
  = Ok (set_zoom (default_outputs
                    (dispatch_inputs "zoom-in.n_clicks" (zoom_clicks 1) near_max_document))
          (PFloat 2.0%float)).
Proof. reflexivity. Qed.

(** ** Graph document builder *)

Lemma str_in_list_In (x : string) (l : list string) : str_in_list x l = true <-> In x l.
Proof.
  unfold str_in_list. rewrite existsb_exists. split.
  - intros (y & I & E). apply String.eqb_eq in E. now subst.
  - intro I. exists x. split; [exact I | apply String.eqb_refl].
Qed.

Lemma distinct_NoDup (l : list string) : distinct l = true -> NoDup l.
Proof.
  induction l as [|x l IH]; intro H; [constructor|].
  simpl in H. apply andb_prop in H. destruct H as [N D].
  constructor; [|now apply IH].
  intro I. apply str_in_list_In in I. now rewrite I in N.
Qed.

Lemma node_ids_app (a b : list pyval) : node_ids (a ++ b) = node_ids a ++ node_ids b.
Proof. unfold node_ids. apply flat_map_app. Qed.

Lemma node_ids_nodes (ns : list node) : node_ids (map node_element ns) = map node_id ns.
Proof. induction ns as [|n ns IH]; [reflexivity|]. cbn. now f_equal. Qed.

Lemma node_ids_edges (es : list edge) : node_ids (map edge_element es) = [].
Proof. induction es as [|e es IH]; [reflexivity|]. exact IH. Qed.

(** The first loop makes one node per category, in order, and edges from
    the central node to them. *)
Lemma primary_loop_spec (c : central) (ps : primaries) (i : nat) :
  map node_id (fst (primary_loop c i ps)) = map fst ps /\
  Forall (fun e => edge_source e = central_id c /\ In (edge_target e) (map fst ps))
    (snd (primary_loop c i ps)).
Proof.
  revert i. induction ps as [|[primary_id primary_desc] ps IH]; intro i.
  - split; [reflexivity | constructor].
  - cbn [primary_loop]. specialize (IH (S i)).
    destruct (primary_loop c (S i) ps) as [ns es]. cbn [fst snd map] in *.
    destruct IH as [I F]. split; [now f_equal|].
    constructor; [split; [reflexivity | now left]|].
    eapply Forall_impl; [|exact F]. intros e [S T]. split; [exact S | now right].
Qed.

(** The second loop keeps what was built and adds one node per subcategory,
    in order, and edges from the group's key to them. *)
Lemma sub_loop_spec (subs : subcategories) (nodes : list node) (edges : list edge) :
  exists ns es,
    sub_loop subs nodes edges = (nodes ++ ns, edges ++ es) /\
    map node_id ns = flat_map (fun s => map fst (snd s)) subs /\
    Forall (fun e => In (edge_source e) (map fst subs) /\
                     In (edge_target e) (flat_map (fun s => map fst (snd s)) subs)) es.
Proof.
  revert nodes edges. induction subs as [|[parent_id children] subs IH]; intros nodes edges.
  - exists [], []. rewrite !app_nil_r. repeat split. constructor.
  - cbn [sub_loop child_loop].
    set (X := map _ children). set (Y := map _ children).
    destruct (IH (nodes ++ X) (edges ++ Y)) as (ns & es & E & I & F).
    exists (X ++ ns), (Y ++ es). split; [now rewrite E, <- !app_assoc|]. split.
    + subst X. rewrite map_app, map_map. cbn [flat_map snd node_id]. now rewrite I.
    + apply Forall_app. split.
      * apply Forall_forall. intros e He. subst Y. apply in_map_iff in He.
        destruct He as (kv & <- & Hk). cbn. split; [now left|].
        apply in_or_app. left. now apply in_map.
      * eapply Forall_impl; [|exact F]. intros e [S T]. cbn. split; [now right|].
        apply in_or_app. now right.
Qed.

(** C5, as the code has it. When the ids of the taxonomy are pairwise
    different and every group of subcategories is keyed by a category, the
    document built has unique node ids and every edge joins two of its
    nodes. *)
Theorem load_graph_elements_invariant (c : central) (ps : primaries) (subs : subcategories) :
  distinct (taxonomy_ids c ps subs) = true ->
  parents_known ps subs = true ->
  graph_invariant (load_graph_elements c ps subs).
Proof.
  intros D P. unfold load_graph_elements, build_graph.
  pose proof (primary_loop_spec c ps 0) as [PI PF].
  destruct (primary_loop c 0 ps) as [pn pe]. cbn [fst snd] in PI, PF.
  destruct (sub_loop_spec subs (central_element c :: pn) pe) as (ns & es & E & I & F).
  rewrite E.
  assert (Ids : node_ids (map node_element ((central_element c :: pn) ++ ns)
                          ++ map edge_element (pe ++ es))
                = taxonomy_ids c ps subs).
  { rewrite node_ids_app, node_ids_nodes, node_ids_edges, app_nil_r, map_app.
    unfold taxonomy_ids. cbn. now rewrite PI, I. }
  split.
  - rewrite Ids. now apply distinct_NoDup.
  - intros elem In_doc Is_edge. rewrite Ids.
    apply in_app_or in In_doc. destruct In_doc as [In_n | In_e].
    + apply in_map_iff in In_n. destruct In_n as (n & <- & _). discriminate Is_edge.
    + apply in_map_iff in In_e. destruct In_e as (e & <- & In_e).
      exists (edge_source e), (edge_target e). split; [reflexivity|]. split; [reflexivity|].
      unfold taxonomy_ids.
      apply in_app_or in In_e. destruct In_e as [In_p | In_s].
      * rewrite Forall_forall in PF. destruct (PF e In_p) as [S T]. split.
        -- rewrite S. now left.
        -- right. apply in_or_app. now left.
      * rewrite Forall_forall in F. destruct (F e In_s) as [S T]. split.
        -- right. apply in_or_app. left.
           unfold parents_known in P. rewrite forallb_forall in P.
           apply in_map_iff in S. destruct S as (s & <- & Hs).
           apply str_in_list_In. now apply P.
        -- right. apply in_or_app. now right.
Qed.

(** Witness of C5: the document of the shipped taxonomy. *)
Lemma load_graph_elements_invariant_witness :
  graph_invariant (load_graph_elements central_node primary_nodes subnodes).
Proof.
  exact (load_graph_elements_invariant central_node primary_nodes subnodes eq_refl eq_refl).
Defined.

(** C5 as stated fails: a category named like the central node gives two
    nodes with one id, and a group of subcategories under a key that is no
    category gives an edge whose source is no node. *)
Lemma load_graph_elements_breaks_invariant :
  node_ids (load_graph_elements clashing_central [("A", "")] []) = ["A"; "A"] /\
  ~ graph_invariant (load_graph_elements clashing_central [("A", "")] []) /\
  node_ids (load_graph_elements clashing_central [("B", "")] [("X", [("c", "")])])
  = ["A"; "B"; "c"] /\
  data_str "source"
    (nth 4 (load_graph_elements clashing_central [("B", "")] [("X", [("c", "")])]) PNone)
  = Some "X" /\
  ~ graph_invariant (load_graph_elements clashing_central [("B", "")] [("X", [("c", "")])]).
Proof.
  split; [reflexivity|]. split.
  { intros [N _]. inversion N as [|x l NI _]. apply NI. now left. }
  split; [reflexivity|]. split; [reflexivity|].
  intros [_ C].
  destruct (C (edge_element {| edge_source := "X"; edge_target := "c"; edge_id := "X_to_c" |}))
    as (s & t & S & _ & I & _).
  - cbv. tauto.
  - reflexivity.
  - cbv in S. injection S as <-. cbv in I.
    repeat (destruct I as [I|I]; [discriminate I|]). exact I.
Qed.

(** ** Search *)

(** *** Splitting and joining class strings *)

Lemma append_nil_r (s : string) : String.append s EmptyString = s.
Proof. induction s as [|c s IH]; simpl; [reflexivity | now rewrite IH]. Qed.

Lemma append_assoc (a b c : string) :
  String.append (String.append a b) c = String.append a (String.append b c).
Proof. induction a as [|x a IH]; simpl; [reflexivity | now rewrite IH]. Qed.

Lemma spaceless_append (a b : string) :
  spaceless (String.append a b) = spaceless a && spaceless b.
Proof.
  induction a as [|c a IH]; simpl; [reflexivity|].
  now rewrite IH, andb_assoc.
Qed.

Lemma split_aux_spaceless (t rest tok : string) :
  spaceless t = true ->
  split_aux (String.append t rest) (Some tok) = split_aux rest (Some (String.append tok t)).
Proof.
  revert tok. induction t as [|c t IH]; intros tok H.
  - simpl. now rewrite append_nil_r.
  - simpl in H. apply andb_prop in H. destruct H as [C H].
    apply negb_true_iff in C. simpl. rewrite C, (IH _ H), append_assoc. reflexivity.
Qed.

Lemma split_aux_token (t rest : string) :
  token t = true ->
  split_aux (String.append t rest) None = split_aux rest (Some t).
Proof.
  unfold token. destruct t as [|c t]; [discriminate|]. simpl. intro H.
  apply andb_prop in H. destruct H as [C H]. apply negb_true_iff in C.
  rewrite C. now rewrite (split_aux_spaceless t rest _ H).
Qed.

Lemma split_join (toks : list string) :
  forallb token toks = true -> split (join " " toks) = toks.
Proof.
  unfold split, join. induction toks as [|t toks IH]; intro H; [reflexivity|].
  simpl in H. apply andb_prop in H. destruct H as [T H].
  destruct toks as [|u toks].
  - simpl. rewrite <- (append_nil_r t) at 1. now rewrite (split_aux_token t _ T).
  - change (concat " " (t :: u :: toks))
      with (String.append t (String " "%char (concat " " (u :: toks)))).
    rewrite (split_aux_token t _ T). simpl split_aux at 1.
    change (is_space " "%char) with true. cbv iota. f_equal. now apply IH.
Qed.

Lemma split_aux_tokens (s : string) (tok : option string) :
  match tok with Some t => token t = true | None => True end ->
  forallb token (split_aux s tok) = true.
Proof.
  revert tok. induction s as [|c s IH]; intros tok H.
  - destruct tok as [t|]; simpl; [now rewrite H | reflexivity].
  - simpl. destruct (is_space c) eqn:C.
    + destruct tok as [t|]; simpl; [rewrite H; simpl|]; now apply IH.
    + apply IH. destruct tok as [t|].
      * unfold token in *. apply andb_prop in H. destruct H as [N S].
        rewrite spaceless_append, S. simpl. rewrite C. simpl.
        destruct t; [discriminate N | reflexivity].
      * unfold token. simpl. now rewrite C.
Qed.

Lemma split_tokens (s : string) : forallb token (split s) = true.
Proof. now apply split_aux_tokens. Qed.

(** *** The marker in a list of classes *)

Lemma count_str_absent (x : string) (l : list string) :
  count_str x l = 0 -> str_in_list x l = false.
Proof.
  induction l as [|y l IH]; [reflexivity|]. simpl.
  rewrite (String.eqb_sym x y). destruct (String.eqb y x); [discriminate|].
  intro H. now apply IH.
Qed.

Lemma remove_first_absent (x : string) (l : list string) :
  count_str x l <= 1 -> str_in_list x (remove_first x l) = false.
Proof.
  induction l as [|y l IH]; [reflexivity|]. simpl. intro H.
  destruct (String.eqb y x) eqn:E.
  - apply count_str_absent. lia.
  - simpl. rewrite (String.eqb_sym x y), E. now apply IH.
Qed.

Lemma without_highlight_absent (l : list string) :
  count_str "highlighted" l <= 1 -> str_in_list "highlighted" (without_highlight l) = false.
Proof.
  intro H. unfold without_highlight.
  destruct (str_in_list "highlighted" l) eqn:E; [now apply remove_first_absent | exact E].
Qed.

Lemma with_highlight_present (l : list string) :
  str_in_list "highlighted" (with_highlight l) = true.
Proof.
  unfold with_highlight. destruct (str_in_list "highlighted" l) eqn:E; [exact E|].
  unfold str_in_list. rewrite existsb_app. simpl. now rewrite orb_true_r.
Qed.

Lemma others_remove_first (l : list string) :
  others (remove_first "highlighted" l) = others l.
Proof.
  induction l as [|y l IH]; [reflexivity|]. simpl.
  destruct (String.eqb y "highlighted") eqn:E; simpl; [reflexivity|].
  now rewrite E, IH.
Qed.

Lemma others_without (l : list string) : others (without_highlight l) = others l.
Proof.
  unfold without_highlight. destruct (str_in_list "highlighted" l); [|reflexivity].
  apply others_remove_first.
Qed.

Lemma others_with (l : list string) : others (with_highlight l) = others l.
Proof.
  unfold with_highlight. destruct (str_in_list "highlighted" l); [reflexivity|].
  unfold others. rewrite filter_app. simpl. apply app_nil_r.
Qed.

Lemma tokens_remove_first (x : string) (l : list string) :
  forallb token l = true -> forallb token (remove_first x l) = true.
Proof.
  induction l as [|y l IH]; [reflexivity|]. simpl. intro H.
  apply andb_prop in H. destruct H as [T H].
  destruct (String.eqb y x); [exact H|]. simpl. now rewrite T, IH.
Qed.

Lemma tokens_without (l : list string) :
  forallb token l = true -> forallb token (without_highlight l) = true.
Proof.
  intro H. unfold without_highlight. destruct (str_in_list "highlighted" l); [|exact H].
  now apply tokens_remove_first.
Qed.

Lemma tokens_with (l : list string) :
  forallb token l = true -> forallb token (with_highlight l) = true.
Proof.
  intro H. unfold with_highlight. destruct (str_in_list "highlighted" l); [exact H|].
  rewrite forallb_app, H. reflexivity.
Qed.

(** *** The two loops on element records *)

Lemma assoc_dict_set (k k' : string) (x : pyval) (d : pydict) :
  assoc k (dict_set k' x d) = if String.eqb k' k then Some x else assoc k d.
Proof.
  induction d as [|[k0 v] d IH]; simpl.
  - reflexivity.
  - destruct (String.eqb k0 k') eqn:E0; simpl.
    + apply String.eqb_eq in E0. subst k0. now destruct (String.eqb k' k).
    + rewrite IH. destruct (String.eqb k' k) eqn:E; [|reflexivity].
      apply String.eqb_eq in E. subst k'. now rewrite E0.
Qed.

Lemma field_setitem (k : string) (x : pyval) (d : pydict) (k' : string) :
  field k' (PDict (dict_set k x d)) = if String.eqb k k' then Some x else field k' (PDict d).
Proof. apply assoc_dict_set. Qed.

Lemma for_each_Forall2 (body : pyval -> result pyval) (R : pyval -> pyval -> Prop)
    (l : list pyval) :
  Forall (fun e => exists e', body e = Ok e' /\ R e e') l ->
  exists l', for_each body l = (l', None) /\ Forall2 R l l'.
Proof.
  induction 1 as [|e l (e' & B & Re) _ (l' & E & F)].
  - exists []. split; [reflexivity | constructor].
  - exists (e' :: l'). simpl. rewrite B, E. split; [reflexivity | now constructor].
Qed.

Lemma clear_highlight_shape (elem : pyval) :
  element_shape elem = true ->
  exists elem', clear_highlight elem = Ok elem' /\ cleared elem elem'.
Proof.
  unfold element_shape. destruct elem as [| | | | | |d]; try discriminate.
  cbn [field]. destruct (assoc "data" d) as [[| | | | | |dd]|] eqn:Ed; try discriminate.
  intro H. apply andb_prop in H. destruct H as [C _].
  unfold clear_highlight. cbn [py_in bind py_getitem].
  destruct (assoc "classes" d) as [[| | | |c| |]|] eqn:Ec; try discriminate C.
  - cbn [bind py_split py_setitem]. eexists. split; [reflexivity|].
    unfold cleared, classes_of. rewrite !field_setitem. cbn [field]. rewrite Ec.
    change (String.eqb "classes" "classes") with true. cbv iota.
    split; [|split; [|reflexivity]].
    + intros k N. rewrite assoc_dict_set.
      destruct (String.eqb_spec "classes" k) as [E|_]; [now elim N|reflexivity].
    + apply split_join, tokens_without, split_tokens.
  - exists (PDict d). split; [reflexivity|].
    unfold cleared, classes_of. cbn [field]. rewrite Ec. repeat split.
Qed.

Lemma existsb_py_eq_strings (s : string) (R : list string) :
  existsb (py_eq (PStr s)) (map PStr R) = str_in_list s R.
Proof.
  unfold str_in_list. induction R as [|r R IH]; [reflexivity|].
  simpl. f_equal. exact IH.
Qed.

Lemma mark_highlight_shape (R : list string) (elem : pyval) :
  (is_edge elem ||
   (is_node elem && match data_field "label" elem with Some (PStr _) => true | _ => false end))
  = true ->
  match field "data" elem with Some (PDict _) => true | _ => false end = true ->
  match field "classes" elem with Some (PStr _) | None => true | Some _ => false end = true ->
  exists elem', mark_highlight (map PStr R) elem = Ok elem' /\ marked R elem elem'.
Proof.
  intros K D C. destruct elem as [| | | | | |d]; try discriminate D.
  unfold is_edge, is_node, label_of, data_field in *. cbn [field] in *.
  destruct (assoc "data" d) as [[| | | | | |dd]|] eqn:Ed; try discriminate D.
  unfold mark_highlight, marked, is_node, label_of, data_field, classes_of.
  cbn [py_getitem bind py_in field]. rewrite Ed. cbn [bind py_in].
  destruct (assoc "source" dd) as [sv|], (assoc "target" dd) as [tv|];
    cbn [bind andb negb] in *; try discriminate K.
  - exists (PDict d). split; [reflexivity|]. split; reflexivity.
  - destruct (assoc "label" dd) as [[| | | |lbl| |]|] eqn:El; try discriminate K.
    cbn [py_get bind]. rewrite El.
    assert (S : exists c, match assoc "classes" d with Some x => x | None => PStr "" end = PStr c
                          /\ split c = match assoc "classes" d with
                                       | Some (PStr c) => split c
                                       | _ => []
                                       end).
    { destruct (assoc "classes" d) as [[| | | |c| |]|]; try discriminate C;
        eexists; split; reflexivity. }
    destruct S as (c & -> & Sc). cbn [py_split bind]. rewrite Sc.
    rewrite existsb_py_eq_strings.
    destruct (str_in_list lbl R); cbn [py_setitem]; eexists; (split; [reflexivity|]);
      rewrite !field_setitem; change (String.eqb "classes" "classes") with true; cbv iota.
    + split.
      * intros k N. rewrite field_setitem.
        destruct (String.eqb_spec "classes" k) as [E|_]; [now elim N|reflexivity].
      * apply split_join, tokens_with.
        destruct (assoc "classes" d) as [[| | | |c'| |]|]; try reflexivity. apply split_tokens.
    + split.
      * intros k N. rewrite field_setitem.
        destruct (String.eqb_spec "classes" k) as [E|_]; [now elim N|reflexivity].
      * apply split_join, tokens_without.
        destruct (assoc "classes" d) as [[| | | |c'| |]|]; try reflexivity. apply split_tokens.
Qed.

(** The labels the search reads are those of the nodes, in order. *)
Lemma node_labels_shape (l : list pyval) :
  forallb element_shape l = true ->
  node_labels l = Ok (map PStr (map label_of (filter is_node l))).
Proof.
  induction l as [|elem l IH]; intro H; [reflexivity|].
  simpl in H. apply andb_prop in H. destruct H as [Sh H]. specialize (IH H).
  destruct elem as [| | | | | |d]; try discriminate Sh.
  unfold element_shape, is_edge, is_node, data_field in Sh. cbn [field] in Sh.
  destruct (assoc "data" d) as [[| | | | | |dd]|] eqn:Ed; try discriminate Sh.
  apply andb_prop in Sh. destruct Sh as [_ K].
  cbn [node_labels py_getitem]. rewrite Ed. cbn [bind py_in filter].
  destruct (assoc "source" dd) as [sv|] eqn:Es, (assoc "target" dd) as [tv|] eqn:Et;
    cbn [bind andb negb orb] in *; try discriminate K.
  - replace (is_node (PDict d)) with false
      by (unfold is_node, data_field; cbn [field]; now rewrite Ed, Es).
    exact IH.
  - destruct (assoc "label" dd) as [[| | | |lbl| |]|] eqn:El; try discriminate K.
    replace (is_node (PDict d)) with true
      by (unfold is_node, data_field; cbn [field]; now rewrite Ed, Es, Et).
    cbn [py_getitem bind map]. rewrite El, IH. cbn [bind].
    replace (label_of (PDict d)) with lbl
      by (unfold label_of, data_field; cbn [field]; now rewrite Ed, El).
    reflexivity.
Qed.

(** *** The search dispatch *)

Lemma dispatch_search (json_dumps : pyval -> option string)
    (json_loads : string -> option pyval) (i : inputs) (w : world)
    (prop_id : string) (rest : list string) :
  triggered i = prop_id :: rest ->
  before_dot prop_id = "node-search" ->
  handle_interactions json_dumps json_loads i w
  = (Ok (handle_search i (default_outputs i)), w).
Proof. intros T B. unfold handle_interactions. rewrite T, B. reflexivity. Qed.

Lemma Forall2_right {A : Type} (R : A -> A -> Prop) (Q : A -> Prop) (l l' : list A) :
  (forall a b, R a b -> Q b) -> Forall2 R l l' -> Forall Q l'.
Proof. intros H F. induction F; constructor; eauto. Qed.

Lemma Forall2_compose {A : Type} (R1 R2 R3 : A -> A -> Prop) (l l1 l2 : list A) :
  (forall a b c, R1 a b -> R2 b c -> R3 a c) ->
  Forall2 R1 l l1 -> Forall2 R2 l1 l2 -> Forall2 R3 l l2.
Proof.
  intros H F. revert l2. induction F as [|a b l l1 Rab F IH]; intros l2 G.
  - inversion G. constructor.
  - inversion G as [|b' c l1' l2' Rbc G']. subst. constructor; eauto.
Qed.

(** A node's label is among the matching labels exactly when it matches. *)
Lemma matching_membership (q : string) (l : list pyval) (elem : pyval) :
  In elem l -> is_node elem = true ->
  str_in_list (label_of elem) (filter (ci_match q) (map label_of (filter is_node l)))
  = ci_match q (label_of elem).
Proof.
  intros I N. destruct (ci_match q (label_of elem)) eqn:M.
  - apply str_in_list_In, filter_In. split; [|exact M].
    apply in_map, filter_In. now split.
  - destruct (str_in_list _ _) eqn:S; [|reflexivity].
    apply str_in_list_In, filter_In in S. destruct S as [_ S]. congruence.
Qed.

Lemma cleared_data (elem elem' : pyval) :
  cleared elem elem' ->
  is_node elem' = is_node elem /\ is_edge elem' = is_edge elem /\
  label_of elem' = label_of elem /\ field "data" elem' = field "data" elem /\
  data_field "label" elem' = data_field "label" elem.
Proof.
  intros (F & _ & _).
  assert (D : field "data" elem' = field "data" elem) by (apply F; discriminate).
  unfold is_node, is_edge, label_of, data_field. rewrite D. repeat split.
Qed.

(** Clearing an element whose marker is not repeated. *)
Lemma cleared_post (elem elem' : pyval) :
  marked_once elem = true -> cleared elem elem' ->
  highlighted elem' = false /\
  (forall k, k <> "classes" -> field k elem' = field k elem) /\
  other_classes elem' = other_classes elem.
Proof.
  intros O (F & C & _). unfold highlighted, other_classes. rewrite C.
  split; [|split; [exact F | apply others_without]].
  apply without_highlight_absent. unfold marked_once in O. now apply Nat.leb_le in O.
Qed.

(** Clearing then marking an element record, for the matching labels [R]. *)
Lemma marked_post (q : string) (R : list string) (elem elem1 elem2 : pyval) :
  marked_once elem = true ->
  (is_node elem = true -> str_in_list (label_of elem) R = ci_match q (label_of elem)) ->
  q <> EmptyString ->
  cleared elem elem1 -> marked R elem1 elem2 ->
  search_post q elem elem2.
Proof.
  intros O M Q Cl (F2 & C2).
  destruct (cleared_post elem elem1 O Cl) as (H1 & F1 & O1).
  destruct (cleared_data elem elem1 Cl) as (N & _ & L & _).
  rewrite N, L in C2.
  assert (W : without_highlight (classes_of elem1) = classes_of elem1).
  { unfold without_highlight. unfold highlighted in H1. now rewrite H1. }
  unfold search_post, highlighted, other_classes. rewrite C2.
  apply String.eqb_neq in Q. rewrite Q. cbn [negb]. rewrite andb_true_r.
  split; [|split].
  - destruct (is_node elem) eqn:En; [|exact H1].
    rewrite (M eq_refl). cbn [andb].
    destruct (ci_match q (label_of elem)).
    + apply with_highlight_present.
    + now rewrite W.
  - intros k K. now rewrite (F2 k K), (F1 k K).
  - destruct (is_node elem); [|exact O1].
    destruct (str_in_list (label_of elem) R).
    + now rewrite others_with.
    + now rewrite others_without.
Qed.

(** C7, as the code has it. On element records whose classes do not repeat
    the marker, a search returns with the marker on exactly the nodes whose
    label matches a non-empty query, on no edge, and on nothing when the
    query is empty; zoom, pan, every other field and every other class are
    unchanged. *)
Theorem search_highlights_matches : search_claim search_element.
Proof.
  intros json_dumps json_loads i w prop_id rest q l T B Sv Ce Ok_l.
  rewrite (dispatch_search _ _ _ _ _ _ T B).
  unfold handle_search. cbn [default_outputs new_elements]. unfold deepcopy.
  rewrite Ce, Sv. cbn [for_elements].
  set (R := filter (ci_match q) (map label_of (filter is_node l))).
  pose (P := fun e : pyval =>
               search_element e = true /\
               (is_node e = true -> str_in_list (label_of e) R = ci_match q (label_of e))).
  assert (Pl : Forall P l).
  { apply Forall_forall. intros e I. split.
    - rewrite forallb_forall in Ok_l. now apply Ok_l.
    - intro N. now apply matching_membership. }
  assert (Sh : forallb element_shape l = true).
  { rewrite forallb_forall in *. intros e I. specialize (Ok_l e I).
    unfold search_element in Ok_l. now apply andb_prop in Ok_l. }
  destruct (for_each_Forall2 clear_highlight (fun e e' => P e /\ cleared e e') l)
    as (l1 & E1 & F1).
  { eapply Forall_impl; [|exact Pl]. intros e [Se Me].
    unfold search_element in Se. apply andb_prop in Se. destruct Se as [Se Oe].
    destruct (clear_highlight_shape e Se) as (e' & H & C).
    exists e'. split; [exact H|]. split; [|exact C]. split; [|exact Me].
    unfold search_element. now rewrite Se, Oe. }
  rewrite E1. cbn [py_truthy].
  assert (Cleared : Forall2 (fun e e' =>
              highlighted e' = false /\
              (forall k, k <> "classes" -> field k e' = field k e) /\
              other_classes e' = other_classes e) l l1).
  { eapply Forall2_impl; [|exact F1]. intros e e' [[Se _] C].
    unfold search_element in Se. apply andb_prop in Se. destruct Se as [_ Oe].
    exact (cleared_post e e' Oe C). }
  destruct (String.eqb_spec q EmptyString) as [Eq|Nq]; cbn [negb].
  - eexists _, l1. split; [reflexivity|]. split; [reflexivity|].
    split; [|split; reflexivity].
    eapply Forall2_impl; [|exact Cleared]. intros e e' (H & F & O).
    unfold search_post. subst q. cbn [String.eqb negb]. rewrite andb_false_r.
    now split.
  - cbn [py_iter bind]. rewrite (node_labels_shape l Sh).
    rewrite perform_fuzzy_search_strings.
    apply String.eqb_neq in Nq. rewrite Nq. fold R.
    destruct R as [|r R'] eqn:ER; cbn [map].
    + eexists _, l1. split; [reflexivity|]. split; [reflexivity|].
      split; [|split; reflexivity].
      eapply Forall2_impl; [|exact F1]. intros e e' [[Se Me] C].
      unfold search_element in Se. apply andb_prop in Se. destruct Se as [_ Oe].
      destruct (cleared_post e e' Oe C) as (H & F & O).
      unfold search_post. rewrite H, Nq. cbn [negb]. rewrite andb_true_r.
      split; [|now split].
      destruct (is_node e) eqn:N; [|reflexivity].
      now rewrite <- (Me eq_refl).
    + change (PStr r :: map PStr R') with (map PStr (r :: R')).
      destruct (for_each_Forall2 (mark_highlight (map PStr (r :: R'))) (marked (r :: R')) l1)
        as (l2 & E2 & F2).
      { eapply Forall2_right; [|exact F1]. cbv beta.
        intros e e' [[Se _] C].
        unfold search_element in Se. apply andb_prop in Se. destruct Se as [Se _].
        destruct (cleared_data e e' C) as (N & Ed & _ & D & Lb).
        destruct C as (_ & _ & Cf).
        unfold element_shape in Se.
        destruct (field "data" e) as [[| | | | | |dd]|] eqn:Fd; try discriminate Se.
        apply andb_prop in Se. destruct Se as [_ K].
        apply mark_highlight_shape.
        - now rewrite N, Ed, Lb.
        - now rewrite D.
        - exact Cf. }
      cbn [for_elements]. rewrite E2.
      eexists _, l2. split; [reflexivity|]. split; [reflexivity|].
      split; [|split; reflexivity].
      eapply Forall2_compose; [|exact F1|exact F2]. cbv beta.
      intros e e1 e2 [[Se Me] C] Mk.
      unfold search_element in Se. apply andb_prop in Se. destruct Se as [_ Oe].
      apply String.eqb_neq in Nq.
      exact (marked_post q (r :: R') e e1 e2 Oe Me Nq C Mk).
Qed.

(** Witness of C7: a search for "machine" on two nodes and an edge, one
    node carrying the marker of an earlier search. *)
Lemma search_highlights_matches_witness :
  exists o l',
    handle_interactions (table_dumps []) (table_loads [])
      (search_inputs "machine" (PList small_document)) fresh_world
    = (Ok o, fresh_world) /\
    new_elements o = PList l' /\
    Forall2 (search_post "machine") small_document l' /\
    new_zoom o = PFloat 1.0%float /\
    new_pan o = PDict [("x", PInt 0); ("y", PInt 0)].
Proof.
  exact (search_highlights_matches (table_dumps []) (table_loads [])
           (search_inputs "machine" (PList small_document)) fresh_world
           "node-search.value" [] "machine" small_document
           eq_refl eq_refl eq_refl eq_refl eq_refl).
Defined.

(** The run of the witness: the first node is marked, the second loses its
    marker, the edge has none. *)
Example search_machine :
  match fst (handle_interactions (table_dumps []) (table_loads [])
               (search_inputs "machine" (PList small_document)) fresh_world) with
  | Ok o =>
      match new_elements o with
      | PList l' => map highlighted l'
      | _ => []
      end
  | Raise _ => []
  end = [true; false; false].
Proof. reflexivity. Qed.

(** "vm" is no substring of "virtual machines": the search marks nothing. *)
Example search_vm_matches_nothing :
  perform_fuzzy_search (PStr "vm") [PStr "Virtual Machines"; PStr "App Services"] = [].
Proof. reflexivity. Qed.

(** C7 as stated fails, by the handler of the branch: a node whose classes
    are not a text makes the first loop raise, the handler returns the error
    message, and the node before it, whose label matches the query, is
    returned without the marker. *)
Lemma search_malformed_element :
  is_node (labelled_node "Virtual_Machines" "Virtual Machines" "subnode") = true /\
  ci_match "virtual"
    (label_of (labelled_node "Virtual_Machines" "Virtual Machines" "subnode")) = true /\
  (exists o e1 e2,
     handle_interactions (table_dumps []) (table_loads [])
       (search_inputs "virtual" (PList malformed_document)) fresh_world
     = (Ok o, fresh_world) /\
     new_elements o = PList [e1; e2] /\
     node_info o = InfoText "An error occurred during the search." /\
     highlighted e1 = false) /\
  ~ search_claim (fun _ => true).
Proof.
  split; [reflexivity|]. split; [reflexivity|]. split.
  - eexists _, _, _. split; [reflexivity|]. split; [reflexivity|]. split; reflexivity.
  - intro H.
    destruct (H (table_dumps []) (table_loads [])
                (search_inputs "virtual" (PList malformed_document))
                fresh_world "node-search.value" [] "virtual" malformed_document
                eq_refl eq_refl eq_refl eq_refl eq_refl)
      as (o & l' & Run & El & Post & _).
    vm_compute in Run. injection Run as <-. cbn in El. injection El as <-.
    inversion Post as [|e e' t t' Pe _]. subst.
    destruct Pe as (Hl & _). vm_compute in Hl. discriminate Hl.
Qed.

(** The case the statement above leaves out: an element record whose
    classes repeat the marker keeps one after a search with the empty query,
    since [remove] drops a single occurrence. *)
Lemma search_keeps_repeated_marker :
  element_shape twice_marked = true /\
  (exists o e',
     handle_interactions (table_dumps []) (table_loads [])
       (search_inputs "" (PList [twice_marked])) fresh_world
     = (Ok o, fresh_world) /\
     new_elements o = PList [e'] /\
     highlighted e' = true) /\
  ~ search_claim element_shape.
Proof.
  split; [reflexivity|]. split.
  - eexists _, _. split; [reflexivity|]. split; reflexivity.
  - intro H.
    destruct (H (table_dumps []) (table_loads []) (search_inputs "" (PList [twice_marked]))
                fresh_world "node-search.value" [] "" [twice_marked]
                eq_refl eq_refl eq_refl eq_refl eq_refl)
      as (o & l' & Run & El & Post & _).
    vm_compute in Run. injection Run as <-. cbn in El. injection El as <-.
    inversion Post as [|e e' t t' Pe _]. subst.
    destruct Pe as (Hl & _). vm_compute in Hl. discriminate Hl.
Qed.

(** * Further properties of the reducer *)

(** ** Zoom on any value *)

(** X1. A ResetZoom whose button was clicked returns zoom 1.0 whatever the
    zoom was, a number or not, with elements and pan unchanged. *)
Theorem reset_zoom_any (json_dumps : pyval -> option string)
    (json_loads : string -> option pyval) (i : inputs) (d : document) (w : world) :
  py_truthy (reset_zoom i) = true ->
  exists o,
    handle_interactions json_dumps json_loads
      (dispatch_inputs "reset-zoom.n_clicks" i d) w = (Ok o, w) /\
    new_zoom o = PFloat 1.0%float /\
    new_elements o = doc_elements d /\
    new_pan o = doc_pan d.
Proof.
  intro T. change "reset-zoom.n_clicks" with (zoom_prop_id ResetZoom).
  rewrite zoom_dispatch. unfold adjusted_zoom. cbn [clicks_of]. rewrite T.
  eexists. split; [reflexivity|]. repeat split.
Qed.

Lemma reset_zoom_any_witness :
  exists o,
    handle_interactions (table_dumps []) (table_loads [])
      (dispatch_inputs "reset-zoom.n_clicks" (zoom_clicks 3)
         {| doc_elements := PList []; doc_zoom := PNone; doc_pan := origin |}) fresh_world
    = (Ok o, fresh_world) /\
    new_zoom o = PFloat 1.0%float.
Proof.
  destruct (reset_zoom_any (table_dumps []) (table_loads []) (zoom_clicks 3)
              {| doc_elements := PList []; doc_zoom := PNone; doc_pan := origin |}
              fresh_world eq_refl) as (o & H & Z & _).
  exists o. split; [exact H | exact Z].
Defined.

(** X2. From any float, in range or not, NaN and the infinities included,
    every zoom dispatch returns with the zoom in [0.5, 2.0] and with elements
    and pan unchanged. *)
Theorem zoom_any_float (json_dumps : pyval -> option string)
    (json_loads : string -> option pyval)
    (t : zoom_trigger) (i : inputs) (elements pan : pyval) (f : float) (w : world) :
  exists o,
    handle_interactions json_dumps json_loads
      (dispatch_inputs (zoom_prop_id t) i
         {| doc_elements := elements; doc_zoom := PFloat f; doc_pan := pan |}) w
    = (Ok o, w) /\
    zoom_in_range (new_zoom o) = true /\
    new_elements o = elements /\
    new_pan o = pan.
Proof.
  rewrite zoom_dispatch. cbn [doc_zoom].
  assert (A : exists z n, adjusted_zoom t i (PFloat f) = Ok z /\ as_num z = Some n).
  { unfold adjusted_zoom. destruct (py_truthy (clicks_of t i)); [|now eexists _, _].
    destruct t; eexists _, _; split; reflexivity. }
  destruct A as (z1 & n1 & A & N). rewrite A. cbn [bind].
  destruct (clamp_in_range z1 n1 N) as (z & C & R & _).
  unfold bind in C |- *.
  destruct (py_min z1 (PFloat 2.0%float)) as [m|]; [|discriminate C]. rewrite C.
  eexists. split; [reflexivity|]. split; [exact R|]. split; reflexivity.
Qed.

(** X3. On a zoom that is no number (absent, a string, a list, a dict) a
    ZoomIn or a ZoomOut raises [TypeError], clicked or not, and so does a
    ResetZoom that was not clicked; the world is untouched. *)
Theorem zoom_not_a_number (json_dumps : pyval -> option string)
    (json_loads : string -> option pyval)
    (t : zoom_trigger) (i : inputs) (d : document) (w : world) :
  as_num (doc_zoom d) = None ->
  (t = ResetZoom -> py_truthy (reset_zoom i) = false) ->
  handle_interactions json_dumps json_loads (dispatch_inputs (zoom_prop_id t) i d) w
  = (Raise TypeError, w).
Proof.
  intros N R. rewrite zoom_dispatch. unfold adjusted_zoom.
  assert (M : (m <- py_min (doc_zoom d) (PFloat 2.0%float) ;;
               z <- py_max (PFloat 0.5%float) m ;;
               Ok (set_zoom (default_outputs (dispatch_inputs (zoom_prop_id t) i d)) z))
              = Raise TypeError).
  { unfold py_min, py_lt. cbn [as_num]. now rewrite N. }
  destruct t; cbn [clicks_of].
  - destruct (py_truthy (zoom_in i)); cbn [bind].
    + unfold py_arith. now rewrite N.
    + now rewrite M.
  - destruct (py_truthy (zoom_out i)); cbn [bind].
    + unfold py_arith. now rewrite N.
    + now rewrite M.
  - rewrite (R eq_refl). cbn [bind]. now rewrite M.
Qed.

Lemma zoom_not_a_number_witness :
  handle_interactions (table_dumps []) (table_loads [])
    (dispatch_inputs "zoom-in.n_clicks" (zoom_clicks 1)
       {| doc_elements := PList []; doc_zoom := PNone; doc_pan := origin |}) fresh_world
  = (Raise TypeError, fresh_world).
Proof.
  apply (zoom_not_a_number (table_dumps []) (table_loads []) ZoomIn (zoom_clicks 1)
           {| doc_elements := PList []; doc_zoom := PNone; doc_pan := origin |}
           fresh_world eq_refl).
  discriminate.
Defined.

(** ** Dispatches that are not taken *)

(** X4. Without a trigger, with a trigger whose id is not one of the eight
    known ids, or with a Load, Save or Save Note whose click count is absent
    or zero, the callback raises [PreventUpdate] and leaves the world as it
    was: no output is produced and the store is not called. *)
Theorem dispatch_not_taken (json_dumps : pyval -> option string)
    (json_loads : string -> option pyval) (i : inputs) (w : world) :
  (triggered i = [] ->
   handle_interactions json_dumps json_loads i w = (Raise PreventUpdate, w)) /\
  (forall prop_id rest,
     triggered i = prop_id :: rest ->
     str_in_list (before_dot prop_id) known_ids = false ->
     handle_interactions json_dumps json_loads i w = (Raise PreventUpdate, w)) /\
  (forall prop_id rest,
     triggered i = prop_id :: rest ->
     (before_dot prop_id = "load-state" /\ py_truthy (load_clicks i) = false) \/
     (before_dot prop_id = "save-state" /\ py_truthy (save_clicks i) = false) \/
     (before_dot prop_id = "save-note" /\ py_truthy (save_note_clicks i) = false) ->
     handle_interactions json_dumps json_loads i w = (Raise PreventUpdate, w)).
Proof.
  split; [|split].
  - intro T. unfold handle_interactions. now rewrite T.
  - intros prop_id rest T U. unfold handle_interactions. rewrite T.
    unfold known_ids, str_in_list in *. cbn [existsb] in *.
    repeat (apply orb_false_elim in U; destruct U as [? U]).
    repeat match goal with E : String.eqb _ _ = false |- _ => rewrite E; clear E end.
    reflexivity.
  - intros prop_id rest T [[B C] | [[B C] | [B C]]];
      unfold handle_interactions; rewrite T, B, C; reflexivity.
Qed.

(** ** Load and Save *)

Lemma dispatch_load (json_dumps : pyval -> option string)
    (json_loads : string -> option pyval) (i : inputs) (w : world)
    (prop_id : string) (rest : list string) :
  triggered i = prop_id :: rest ->
  before_dot prop_id = "load-state" ->
  py_truthy (load_clicks i) = true ->
  handle_interactions json_dumps json_loads i w
  = handle_load json_loads i (default_outputs i) w.
Proof. intros T B C. unfold handle_interactions. rewrite T, B, C. reflexivity. Qed.

Lemma dispatch_save (json_dumps : pyval -> option string)
    (json_loads : string -> option pyval) (i : inputs) (w : world)
    (prop_id : string) (rest : list string) :
  triggered i = prop_id :: rest ->
  before_dot prop_id = "save-state" ->
  py_truthy (save_clicks i) = true ->
  handle_interactions json_dumps json_loads i w
  = handle_save json_dumps (default_outputs i) w.
Proof. intros T B C. unfold handle_interactions. rewrite T, B, C. reflexivity. Qed.

Lemma log_positions_loggable (l : list pyval) :
  forallb loggable l = true -> log_positions l = Ok tt.
Proof.
  induction l as [|elem l IH]; intro H; [reflexivity|].
  simpl in H. apply andb_prop in H. destruct H as [L H].
  unfold loggable in L. destruct elem as [| | | | | |d]; try discriminate L.
  cbn [field] in L. cbn [log_positions py_getitem].
  destruct (assoc "data" d) as [[| | | | | |dd]|]; try discriminate L.
  cbn [bind py_in].
  destruct (assoc "source" dd), (assoc "target" dd); cbn [bind negb andb py_get py_getitem];
    try (now apply IH).
  destruct (assoc "id" dd); [|discriminate L]. cbn [bind]. now apply IH.
Qed.

(** X5. A Load when the store gives nothing back (no row, a backend that
    does not answer, a text that does not parse, or an empty payload)
    returns the current elements, zoom and pan with the loaded alert down;
    the database is not changed. *)
Theorem load_nothing (json_dumps : pyval -> option string)
    (json_loads : string -> option pyval) (i : inputs) (w : world)
    (prop_id : string) (rest : list string) :
  triggered i = prop_id :: rest ->
  before_dot prop_id = "load-state" ->
  py_truthy (load_clicks i) = true ->
  py_truthy (load_graph_state json_loads (db w)) = false ->
  exists o w',
    handle_interactions json_dumps json_loads i w = (Ok o, w') /\
    new_elements o = current_elements i /\
    new_zoom o = current_zoom i /\
    new_pan o = current_pan i /\
    load_alert o = false /\
    db w' = db w /\
    calls w' = LoadCall :: calls w.
Proof.
  intros T B C N. rewrite (dispatch_load _ _ _ _ _ _ T B C).
  unfold handle_load. rewrite N. eexists _, _. split; [reflexivity|]. repeat split.
Qed.

Lemma load_nothing_witness :
  exists o w',
    handle_interactions (table_dumps []) (table_loads [])
      (clicked_inputs "load-state.n_clicks" near_max_document) fresh_world = (Ok o, w') /\
    document_of o = near_max_document /\
    load_alert o = false.
Proof.
  destruct (load_nothing (table_dumps []) (table_loads [])
              (clicked_inputs "load-state.n_clicks" near_max_document) fresh_world
              "load-state.n_clicks" [] eq_refl eq_refl eq_refl eq_refl)
    as (o & w' & H & E & Z & P & A & _).
  exists o, w'. split; [exact H|]. split; [|exact A].
  unfold document_of. now rewrite E, Z, P.
Defined.

(** X6. A Load when the store gives a record back whose elements pass the
    debug loop replaces elements, zoom and pan by those of the record, taking
    the current elements, 1.0 and the origin for a key the record lacks, and
    raises the loaded alert; the database is not changed. *)
Theorem load_record (json_dumps : pyval -> option string)
    (json_loads : string -> option pyval) (i : inputs) (w : world)
    (prop_id : string) (rest : list string) (st : pydict) (l : list pyval) :
  triggered i = prop_id :: rest ->
  before_dot prop_id = "load-state" ->
  py_truthy (load_clicks i) = true ->
  load_graph_state json_loads (db w) = PDict st ->
  py_truthy (PDict st) = true ->
  match assoc "elements" st with Some e => e | None => current_elements i end = PList l ->
  forallb loggable l = true ->
  exists o w',
    handle_interactions json_dumps json_loads i w = (Ok o, w') /\
    new_elements o = PList l /\
    new_zoom o = match assoc "zoom" st with Some z => z | None => PFloat 1.0%float end /\
    new_pan o = match assoc "pan" st with Some p => p | None => origin end /\
    load_alert o = true /\
    save_alert o = false /\
    note_save_alert o = false /\
    db w' = db w.
Proof.
  intros T B C S N E L. rewrite (dispatch_load _ _ _ _ _ _ T B C).
  unfold handle_load. rewrite S, N. cbn [py_get bind]. rewrite E.
  cbn [py_iter bind]. rewrite (log_positions_loggable l L). cbn [bind].
  eexists _, _. split; [reflexivity|]. repeat split.
Qed.

Lemma load_record_witness :
  exists o w',
    handle_interactions (table_dumps compute_table) (table_loads compute_table)
      (clicked_inputs "load-state.n_clicks" near_max_document) stored_world = (Ok o, w') /\
    document_of o = compute_document /\
    load_alert o = true.
Proof.
  destruct (load_record (table_dumps compute_table) (table_loads compute_table)
              (clicked_inputs "load-state.n_clicks" near_max_document) stored_world
              "load-state.n_clicks" []
              [("elements", PList [compute_node]); ("zoom", PFloat 1.5%float);
               ("pan", PDict [("x", PInt 10); ("y", PInt (-4))])]
              [compute_node]
              eq_refl eq_refl eq_refl eq_refl eq_refl eq_refl eq_refl)
    as (o & w' & H & E & Z & P & A & _).
  exists o, w'. split; [exact H|]. split; [|exact A].
  unfold document_of. now rewrite E, Z, P.
Defined.

(** ** The store *)

Lemma latest_row_spec (rows : list (Z * string)) :
  match latest_row rows with
  | None => rows = []
  | Some r => In r rows /\ forall r', In r' rows -> (fst r' <= fst r)%Z
  end.
Proof.
  induction rows as [|r rows IH]; [reflexivity|].
  cbn [latest_row]. destruct (latest_row rows) as [m|].
  - destruct IH as [I M]. destruct (Z.ltb_spec (fst r) (fst m)).
    + split; [now right|]. intros r' [<- | I']; [lia | now apply M].
    + split; [now left|]. intros r' [<- | I']; [lia | specialize (M r' I'); lia].
  - subst rows. split; [now left|]. intros r' [<- | []]. lia.
Qed.

(** X7. [load_graph_state] gives nothing when the backend does not answer
    or the table is empty; otherwise it gives the decoded text of a row whose
    id is the largest of the table, or nothing when that text does not
    parse. *)
Theorem load_graph_state_spec (json_loads : string -> option pyval) (d : database) :
  (db_available d = false -> load_graph_state json_loads d = PNone) /\
  (db_rows d = [] -> load_graph_state json_loads d = PNone) /\
  (db_available d = true -> db_rows d <> [] ->
   exists r,
     In r (db_rows d) /\
     (forall r', In r' (db_rows d) -> (fst r' <= fst r)%Z) /\
     load_graph_state json_loads d
     = match json_loads (snd r) with Some state => state | None => PNone end).
Proof.
  unfold load_graph_state. split; [|split].
  - now intros ->.
  - intros ->. now destruct (db_available d).
  - intros -> N. pose proof (latest_row_spec (db_rows d)) as L.
    destruct (latest_row (db_rows d)) as [[id state_json]|]; [|contradiction].
    destruct L as [I M]. exists (id, state_json). split; [exact I|]. split; [exact M|].
    reflexivity.
Qed.

Lemma next_id_above (d : database) :
  (db_sequence d < next_id d)%Z /\
  forall r, In r (db_rows d) -> (fst r < next_id d)%Z.
Proof.
  unfold next_id. induction (db_rows d) as [|r rows [S M]]; cbn [map fold_right].
  - split; [lia | intros r []].
  - split; [lia|]. intros r' [<- | I]; [lia | specialize (M r' I); lia].
Qed.

Lemma save_graph_state_failure (json_dumps : pyval -> option string)
    (state : pyval) (d : database) :
  fst (save_graph_state json_dumps state d) = false ->
  snd (save_graph_state json_dumps state d) = d.
Proof.
  unfold save_graph_state.
  destruct (json_dumps state) as [s|], (db_available d), (rowid_available d);
    cbn [fst snd]; try reflexivity; discriminate.
Qed.

(** The table after a save has the next id as its counter. *)
Lemma next_id_saved (d : database) (s : string) :
  next_id {| db_available := true; db_rows := [(next_id d, s)]; db_sequence := next_id d |}
  = (next_id d + 1)%Z.
Proof. unfold next_id at 1. cbn. now rewrite Z.max_id. Qed.

(** X8. [save_graph_state] succeeds exactly when the state serializes, the
    backend answers and the id counter is not exhausted. When it fails the
    database is as before; when it succeeds the table holds one row, the
    text of the state, under a rowid above every id used before. *)
Theorem save_graph_state_spec (json_dumps : pyval -> option string)
    (state : pyval) (d : database) :
  (fst (save_graph_state json_dumps state d) = true <->
   json_dumps state <> None /\ db_available d = true /\ rowid_available d = true) /\
  (fst (save_graph_state json_dumps state d) = false ->
   snd (save_graph_state json_dumps state d) = d) /\
  (fst (save_graph_state json_dumps state d) = true ->
   exists id s,
     json_dumps state = Some s /\
     db_rows (snd (save_graph_state json_dumps state d)) = [(id, s)] /\
     db_sequence (snd (save_graph_state json_dumps state d)) = id /\
     db_available (snd (save_graph_state json_dumps state d)) = true /\
     (db_sequence d < id <= max_rowid)%Z /\
     forall r, In r (db_rows d) -> (fst r < id)%Z).
Proof.
  split; [|split; [apply save_graph_state_failure|]]; unfold save_graph_state;
    destruct (json_dumps state) as [s|], (db_available d), (rowid_available d) eqn:R;
    cbn [fst snd]; try discriminate.
  - split; [intros _; repeat split; discriminate | reflexivity].
  - split; [discriminate | intros (_ & _ & H); discriminate H].
  - split; [discriminate | intros (_ & H & _); discriminate H].
  - split; [discriminate | intros (_ & H & _); discriminate H].
  - split; [discriminate | intros (H & _); now elim H].
  - split; [discriminate | intros (H & _); now elim H].
  - split; [discriminate | intros (H & _); now elim H].
  - split; [discriminate | intros (H & _); now elim H].
  - intros _. exists (next_id d), s. destruct (next_id_above d) as [S M].
    unfold rowid_available in R. apply Z.leb_le in R. repeat split; assumption.
Qed.

(** X9. The latest write wins: on a backend that answers, with room for two
    more ids, two saves of states that serialize both succeed, the table
    then holds the second state alone, and a load decodes its text: it gives
    the second state back when [json.loads] reads that text back as it. *)
Theorem save_twice (json_dumps : pyval -> option string)
    (json_loads : string -> option pyval)
    (first second : pyval) (d : database) (s1 s2 : string) :
  db_available d = true ->
  (next_id d < max_rowid)%Z ->
  json_dumps first = Some s1 ->
  json_dumps second = Some s2 ->
  fst (save_graph_state json_dumps first d) = true /\
  fst (save_graph_state json_dumps second (snd (save_graph_state json_dumps first d))) = true /\
  db_rows (snd (save_graph_state json_dumps second (snd (save_graph_state json_dumps first d))))
  = [(next_id d + 1, s2)%Z] /\
  load_graph_state json_loads
    (snd (save_graph_state json_dumps second (snd (save_graph_state json_dumps first d))))
  = (match json_loads s2 with Some state => state | None => PNone end) /\
  (json_loads s2 = Some second ->
   load_graph_state json_loads
     (snd (save_graph_state json_dumps second (snd (save_graph_state json_dumps first d))))
   = second).
Proof.
  intros A B J1 J2.
  assert (R1 : rowid_available d = true) by (apply Z.leb_le; lia).
  rewrite (save_graph_state_rows _ _ _ _ A R1 J1). cbn [fst snd].
  assert (R2 : rowid_available
                 {| db_available := true; db_rows := [(next_id d, s1)];
                    db_sequence := next_id d |} = true).
  { unfold rowid_available. rewrite next_id_saved. apply Z.leb_le. lia. }
  rewrite (save_graph_state_rows json_dumps second
             {| db_available := true; db_rows := [(next_id d, s1)]; db_sequence := next_id d |}
             s2 eq_refl R2 J2). cbn [fst snd db_rows].
  rewrite next_id_saved, load_saved_row.
  split; [reflexivity|]. split; [reflexivity|]. split; [reflexivity|].
  split; [reflexivity|]. intro L. now rewrite L.
Qed.

Lemma save_twice_witness :
  load_graph_state (table_loads compute_table)
    (snd (save_graph_state (table_dumps compute_table) compute_snapshot
            (snd (save_graph_state (table_dumps compute_table) empty_snapshot empty_database))))
  = compute_snapshot.
Proof.
  refine (proj2 (proj2 (proj2 (proj2
            (save_twice (table_dumps compute_table) (table_loads compute_table)
               empty_snapshot compute_snapshot empty_database
               empty_snapshot_json "compute" eq_refl _ eq_refl eq_refl)))) eq_refl).
  reflexivity.
Defined.

(** ** Save, and Save then Load *)

(** X10. A Save returns for every document, with elements, zoom and pan
    unchanged; the saved alert is the answer of the store, which was called
    once with the current document; when the alert is down the database is as
    before. *)
Theorem save_dispatch_spec (json_dumps : pyval -> option string)
    (json_loads : string -> option pyval) (i : inputs) (w : world)
    (prop_id : string) (rest : list string) :
  triggered i = prop_id :: rest ->
  before_dot prop_id = "save-state" ->
  py_truthy (save_clicks i) = true ->
  exists o w',
    handle_interactions json_dumps json_loads i w = (Ok o, w') /\
    new_elements o = current_elements i /\
    new_zoom o = current_zoom i /\
    new_pan o = current_pan i /\
    save_alert o
    = fst (save_graph_state json_dumps
             (snapshot (current_elements i) (current_zoom i) (current_pan i)) (db w)) /\
    db w'
    = snd (save_graph_state json_dumps
             (snapshot (current_elements i) (current_zoom i) (current_pan i)) (db w)) /\
    calls w'
    = SaveCall (snapshot (current_elements i) (current_zoom i) (current_pan i)) :: calls w /\
    load_alert o = false /\
    (save_alert o = false -> db w' = db w).
Proof.
  intros T B C. rewrite (dispatch_save _ _ _ _ _ _ T B C).
  unfold handle_save, call_save, state_to_save, default_outputs, deepcopy.
  cbn [new_elements new_zoom new_pan].
  fold (snapshot (current_elements i) (current_zoom i) (current_pan i)).
  pose proof (save_graph_state_failure json_dumps
                (snapshot (current_elements i) (current_zoom i) (current_pan i)) (db w))
    as F.
  destruct (save_graph_state json_dumps _ (db w)) as [success d'].
  eexists _, _. split; [reflexivity|]. cbn in *. repeat split. exact F.
Qed.

Lemma save_dispatch_spec_witness :
  exists o w',
    handle_interactions (table_dumps []) (table_loads [])
      (clicked_inputs "save-state.n_clicks" compute_document) stored_world = (Ok o, w') /\
    save_alert o = false /\
    db w' = db stored_world.
Proof.
  destruct (save_dispatch_spec (table_dumps []) (table_loads [])
              (clicked_inputs "save-state.n_clicks" compute_document) stored_world
              "save-state.n_clicks" [] eq_refl eq_refl eq_refl)
    as (o & w' & H & _ & _ & _ & A & _ & _ & _ & F).
  exists o, w'. split; [exact H|].
  assert (A' : save_alert o = false) by (rewrite A; reflexivity).
  split; [exact A' | exact (F A')].
Defined.

(** X11. A Save on a backend that answers and whose id counter is not
    exhausted, followed by a Load from any other document, gives the saved
    elements, zoom and pan back and raises both alerts, provided the text of
    the snapshot parses back to it and its elements pass the debug loop of
    the Load. *)
Theorem save_then_load_dispatch (json_dumps : pyval -> option string)
    (json_loads : string -> option pyval) (i1 i2 : inputs) (w : world)
    (p1 p2 : string) (r1 r2 : list string) (l : list pyval) (s : string) :
  triggered i1 = p1 :: r1 -> before_dot p1 = "save-state" ->
  py_truthy (save_clicks i1) = true ->
  triggered i2 = p2 :: r2 -> before_dot p2 = "load-state" ->
  py_truthy (load_clicks i2) = true ->
  current_elements i1 = PList l ->
  forallb loggable l = true ->
  db_available (db w) = true ->
  rowid_available (db w) = true ->
  json_dumps (snapshot (PList l) (current_zoom i1) (current_pan i1)) = Some s ->
  json_loads s = Some (snapshot (PList l) (current_zoom i1) (current_pan i1)) ->
  exists o1 w1 o2 w2,
    handle_interactions json_dumps json_loads i1 w = (Ok o1, w1) /\
    save_alert o1 = true /\
    handle_interactions json_dumps json_loads i2 w1 = (Ok o2, w2) /\
    new_elements o2 = current_elements i1 /\
    new_zoom o2 = current_zoom i1 /\
    new_pan o2 = current_pan i1 /\
    load_alert o2 = true.
Proof.
  intros T1 B1 C1 T2 B2 C2 E L A R J P.
  rewrite (dispatch_save _ _ _ _ _ _ T1 B1 C1).
  unfold handle_save, call_save, state_to_save, default_outputs, deepcopy.
  cbn [new_elements new_zoom new_pan]. rewrite E.
  fold (snapshot (PList l) (current_zoom i1) (current_pan i1)).
  rewrite (save_graph_state_rows _ _ _ _ A R J).
  eexists _, _, _, _. split; [reflexivity|]. split; [reflexivity|].
  rewrite (dispatch_load _ _ _ _ _ _ T2 B2 C2). unfold handle_load. cbn [db].
  assert (S : load_graph_state json_loads
                {| db_available := true; db_rows := [(next_id (db w), s)];
                   db_sequence := next_id (db w) |}
              = snapshot (PList l) (current_zoom i1) (current_pan i1)).
  { unfold load_graph_state. cbn. now rewrite P. }
  rewrite S.
  cbn [snapshot py_truthy py_get assoc String.eqb Ascii.eqb Bool.eqb bind py_iter].
  rewrite (log_positions_loggable l L). cbn [bind].
  split; [reflexivity|]. cbn [new_elements new_zoom new_pan load_alert]. repeat split.
Qed.

Lemma save_then_load_dispatch_witness :
  exists o1 w1 o2 w2,
    handle_interactions (table_dumps compute_table) (table_loads compute_table)
      (clicked_inputs "save-state.n_clicks" compute_document) fresh_world = (Ok o1, w1) /\
    save_alert o1 = true /\
    handle_interactions (table_dumps compute_table) (table_loads compute_table)
      (clicked_inputs "load-state.n_clicks" near_max_document) w1 = (Ok o2, w2) /\
    document_of o2 = compute_document /\
    load_alert o2 = true.
Proof.
  destruct (save_then_load_dispatch (table_dumps compute_table) (table_loads compute_table)
              (clicked_inputs "save-state.n_clicks" compute_document)
              (clicked_inputs "load-state.n_clicks" near_max_document)
              fresh_world "save-state.n_clicks" "load-state.n_clicks" [] []
              [compute_node] "compute"
              eq_refl eq_refl eq_refl eq_refl eq_refl eq_refl eq_refl eq_refl eq_refl
              eq_refl eq_refl eq_refl)
    as (o1 & w1 & o2 & w2 & H1 & A1 & H2 & E & Z & P & A2).
  exists o1, w1, o2, w2. split; [exact H1|]. split; [exact A1|]. split; [exact H2|].
  split; [|exact A2]. unfold document_of. now rewrite E, Z, P.
Defined.

(** ** Node tap *)

Lemma dispatch_tap (json_dumps : pyval -> option string)
    (json_loads : string -> option pyval) (i : inputs) (w : world)
    (prop_id : string) (rest : list string) :
  triggered i = prop_id :: rest ->
  before_dot prop_id = "cytoscape-graph" ->
  handle_interactions json_dumps json_loads i w
  = (Ok (handle_tap i (default_outputs i)), w).
Proof. intros T B. unfold handle_interactions. rewrite T, B. reflexivity. Qed.

Lemma lstrip_by_empty (p : ascii -> bool) (s : string) :
  String.eqb (lstrip_by p s) EmptyString = forallb p (list_ascii_of_string s).
Proof.
  induction s as [|c s IH]; [reflexivity|]. simpl. now destruct (p c).
Qed.

Lemma forallb_lstrip_by (p : ascii -> bool) (s : string) :
  forallb p (list_ascii_of_string (lstrip_by p s)) = forallb p (list_ascii_of_string s).
Proof.
  induction s as [|c s IH]; [reflexivity|]. simpl. destruct (p c) eqn:E; [exact IH|].
  simpl. now rewrite E.
Qed.

Lemma forallb_rev {A : Type} (p : A -> bool) (l : list A) :
  forallb p (rev l) = forallb p l.
Proof.
  induction l as [|x l IH]; [reflexivity|]. simpl.
  rewrite forallb_app, IH. simpl. rewrite andb_true_r. apply andb_comm.
Qed.

Lemma str_rev_empty (s : string) :
  String.eqb (str_rev s) EmptyString = String.eqb s EmptyString.
Proof.
  unfold str_rev. destruct s as [|c s]; [reflexivity|]. simpl.
  destruct (rev (list_ascii_of_string s)); reflexivity.
Qed.

Lemma rstrip_by_empty (p : ascii -> bool) (s : string) :
  String.eqb (rstrip_by p s) EmptyString = forallb p (list_ascii_of_string s).
Proof.
  unfold rstrip_by. rewrite str_rev_empty, lstrip_by_empty. unfold str_rev.
  rewrite list_ascii_of_string_of_list_ascii. apply forallb_rev.
Qed.

(** [s.strip()] is empty exactly when [s] is blank. *)
Lemma strip_blank (s : string) : String.eqb (strip s) EmptyString = blank s.
Proof. unfold strip, blank. rewrite rstrip_by_empty. apply forallb_lstrip_by. Qed.

(** X12. A tap on a record whose notes are a text (or absent) shows the
    label and the description of the record as an f-string formats them (a
    string as it is, [None] as "None", an integer in decimal), or "No Label"
    and "No description available." for a missing one, puts the notes in
    the panel and in the editor, shows the panel unless the notes are blank,
    and opens the editor section; elements, zoom, pan and the alerts are
    untouched. *)
Theorem node_tap_shows (json_dumps : pyval -> option string)
    (json_loads : string -> option pyval) (i : inputs) (w : world)
    (prop_id : string) (rest : list string) (st : pydict) (notes : string) :
  triggered i = prop_id :: rest ->
  before_dot prop_id = "cytoscape-graph" ->
  tapped_node_data i = PDict st ->
  py_truthy (PDict st) = true ->
  match assoc "notes" st with Some n => n | None => PStr "" end = PStr notes ->
  exists o,
    handle_interactions json_dumps json_loads i w = (Ok o, w) /\
    node_info o
    = InfoDiv
        (match assoc "label" st with
         | Some v => py_format v
         | None => Text "No Label"
         end)
        (match assoc "description" st with
         | Some v => py_format v
         | None => Text "No description available."
         end) /\
    rendered_notes o = PStr notes /\
    node_notes_value o = PStr notes /\
    rendered_notes_style o = (if blank notes then DisplayNone else DisplayBlock) /\
    notes_section_style o = DisplayBlock /\
    new_elements o = current_elements i /\
    new_zoom o = current_zoom i /\
    new_pan o = current_pan i /\
    save_alert o = false /\ load_alert o = false /\ note_save_alert o = false.
Proof.
  intros T B D N S. rewrite (dispatch_tap _ _ _ _ _ _ T B).
  unfold handle_tap. rewrite D, N. cbn [py_get bind]. rewrite S. cbn [py_strip bind try_except].
  eexists. split; [reflexivity|]. cbn.
  unfold display_of. rewrite strip_blank.
  destruct (assoc "label" st), (assoc "description" st); repeat split.
Qed.

Lemma node_tap_shows_witness :
  exists o,
    handle_interactions (table_dumps []) (table_loads [])
      (tap_inputs (PDict [("id", PStr "Compute"); ("label", PInt 5); ("notes", PStr "  ")])
         compute_document)
      fresh_world = (Ok o, fresh_world) /\
    node_info o = InfoDiv (Text "5") (Text "No description available.") /\
    rendered_notes_style o = DisplayNone /\
    notes_section_style o = DisplayBlock.
Proof.
  destruct (node_tap_shows (table_dumps []) (table_loads [])
              (tap_inputs (PDict [("id", PStr "Compute"); ("label", PInt 5);
                                  ("notes", PStr "  ")]) compute_document)
              fresh_world "cytoscape-graph.tapNodeData" []
              [("id", PStr "Compute"); ("label", PInt 5); ("notes", PStr "  ")] "  "
              eq_refl eq_refl eq_refl eq_refl eq_refl)
    as (o & H & I & _ & _ & R & S & _).
  exists o. split; [exact H|]. split; [exact I|]. split; [exact R | exact S].
Defined.

(** X13. A tap with no payload returns the default panel text; a tap whose
    payload is not a record, or whose notes are not a text, returns the error
    text with both note panels hidden. In both cases nothing is raised and
    elements, zoom and pan are untouched. *)
Theorem node_tap_degrades (json_dumps : pyval -> option string)
    (json_loads : string -> option pyval) (i : inputs) (w : world)
    (prop_id : string) (rest : list string) :
  triggered i = prop_id :: rest ->
  before_dot prop_id = "cytoscape-graph" ->
  py_truthy (tapped_node_data i) = false \/ unshowable (tapped_node_data i) = true ->
  exists o,
    handle_interactions json_dumps json_loads i w = (Ok o, w) /\
    node_info o
    = InfoText (if py_truthy (tapped_node_data i)
                then "An error occurred while processing the node tap."
                else "Click on a node to see details.") /\
    rendered_notes o = PStr "" /\
    node_notes_value o = PStr "" /\
    rendered_notes_style o = DisplayNone /\
    notes_section_style o = DisplayNone /\
    new_elements o = current_elements i /\
    new_zoom o = current_zoom i /\
    new_pan o = current_pan i.
Proof.
  intros T B H. rewrite (dispatch_tap _ _ _ _ _ _ T B). unfold handle_tap.
  destruct (py_truthy (tapped_node_data i)) eqn:Tr.
  - destruct H as [H|H]; [discriminate H|].
    eexists. split; [reflexivity|].
    destruct (tapped_node_data i) as [| | | | | |st]; try (cbn; repeat split; fail).
    cbn [unshowable] in H. cbn [py_get bind].
    destruct (assoc "notes" st) as [[| | | | | |]|]; try discriminate H; cbn; repeat split.
  - eexists. split; [reflexivity|]. cbn. repeat split.
Qed.

Lemma node_tap_degrades_witness :
  exists o,
    handle_interactions (table_dumps []) (table_loads [])
      (tap_inputs (PDict [("label", PStr "Compute"); ("notes", PNone)]) compute_document)
      fresh_world = (Ok o, fresh_world) /\
    node_info o = InfoText "An error occurred while processing the node tap." /\
    new_elements o = PList [compute_node].
Proof.
  destruct (node_tap_degrades (table_dumps []) (table_loads [])
              (tap_inputs (PDict [("label", PStr "Compute"); ("notes", PNone)]) compute_document)
              fresh_world "cytoscape-graph.tapNodeData" [] eq_refl eq_refl
              (or_intror eq_refl))
    as (o & H & I & _ & _ & _ & _ & E & _).
  exists o. split; [exact H|]. split; [exact I | exact E].
Defined.

(** ** Save note on a node of the document *)




(** ** What a search returns, exactly *)

Lemma dict_set_twice (k : string) (x y : pyval) (d : pydict) :
  dict_set k y (dict_set k x d) = dict_set k y d.
Proof.
  induction d as [|[k0 v] d IH]; simpl.
  - now rewrite String.eqb_refl.
  - destruct (String.eqb k0 k) eqn:E; simpl; rewrite E; [reflexivity | now rewrite IH].
Qed.

Lemma set_classes_twice (elem : pyval) (X Y : list string) :
  set_classes (set_classes elem X) Y = set_classes elem Y.
Proof. destruct elem; try reflexivity. simpl. now rewrite dict_set_twice. Qed.

Lemma field_set_classes (d : pydict) (X : list string) (k : string) :
  field k (set_classes (PDict d) X)
  = if String.eqb "classes" k then Some (PStr (join " " X)) else field k (PDict d).
Proof. apply assoc_dict_set. Qed.

Lemma classes_of_set_classes (d : pydict) (X : list string) :
  forallb token X = true -> classes_of (set_classes (PDict d) X) = X.
Proof.
  intro T. unfold classes_of. rewrite field_set_classes.
  change (String.eqb "classes" "classes") with true. cbv iota. now apply split_join.
Qed.

Lemma same_data (elem elem' : pyval) :
  field "data" elem' = field "data" elem ->
  is_node elem' = is_node elem /\ is_edge elem' = is_edge elem /\
  label_of elem' = label_of elem /\
  (forall k, data_field k elem' = data_field k elem).
Proof.
  intro D. unfold is_node, is_edge, label_of, data_field. rewrite D. repeat split.
Qed.

Lemma set_classes_data (d : pydict) (X : list string) :
  field "data" (set_classes (PDict d) X) = field "data" (PDict d).
Proof. rewrite field_set_classes. reflexivity. Qed.

Lemma element_shape_dict (elem : pyval) :
  element_shape elem = true -> exists d, elem = PDict d.
Proof.
  unfold element_shape. destruct elem as [| | | | | |d]; try discriminate. now exists d.
Qed.

Lemma element_shape_set_classes (d : pydict) (X : list string) :
  element_shape (PDict d) = true -> element_shape (set_classes (PDict d) X) = true.
Proof.
  unfold element_shape.
  destruct (same_data (PDict d) (set_classes (PDict d) X) (set_classes_data d X))
    as (N & E & _ & F).
  rewrite N, E, (F "label"), set_classes_data.
  destruct (field "data" (PDict d)) as [[| | | | | |dd]|]; try discriminate.
  intro H. apply andb_prop in H. destruct H as [_ K].
  rewrite field_set_classes. change (String.eqb "classes" "classes") with true.
  cbv iota. exact K.
Qed.

Lemma classes_of_tokens (elem : pyval) : forallb token (classes_of elem) = true.
Proof.
  unfold classes_of. destruct (field "classes" elem) as [[| | | |c| |]|]; try reflexivity.
  apply split_tokens.
Qed.

Lemma clear_highlight_exact (elem : pyval) :
  element_shape elem = true -> clear_highlight elem = Ok (cleared_element elem).
Proof.
  intro S. destruct (element_shape_dict elem S) as [d ->].
  unfold element_shape in S. cbn [field] in S.
  destruct (assoc "data" d) as [[| | | | | |dd]|]; try discriminate S.
  apply andb_prop in S. destruct S as [C _].
  unfold clear_highlight, cleared_element, classes_of. cbn [py_in bind py_getitem field].
  destruct (assoc "classes" d) as [[| | | |c| |]|]; try discriminate C; reflexivity.
Qed.

Lemma mark_highlight_exact (R : list string) (elem : pyval) :
  element_shape elem = true ->
  mark_highlight (map PStr R) elem = Ok (marked_element R elem).
Proof.
  intro S. destruct (element_shape_dict elem S) as [d ->].
  unfold element_shape, is_edge, is_node, data_field in S. cbn [field] in S.
  unfold mark_highlight, marked_element, is_node, label_of, data_field, classes_of.
  cbn [py_getitem field].
  destruct (assoc "data" d) as [[| | | | | |dd]|]; try discriminate S.
  apply andb_prop in S. destruct S as [C K]. cbn [bind py_in].
  destruct (assoc "source" dd), (assoc "target" dd); cbn [bind andb orb negb] in *;
    try discriminate K; try reflexivity.
  destruct (assoc "label" dd) as [[| | | |lbl| |]|] eqn:El; try discriminate K.
  cbn [py_get bind]. rewrite El, existsb_py_eq_strings.
  destruct (assoc "classes" d) as [[| | | |c| |]|]; try discriminate C;
    cbn [py_split bind]; now destruct (str_in_list lbl R).
Qed.

Lemma for_each_map (body : pyval -> result pyval) (f : pyval -> pyval) (l : list pyval) :
  Forall (fun e => body e = Ok (f e)) l -> for_each body l = (map f l, None).
Proof.
  induction 1 as [|e l B _ IH]; [reflexivity|]. simpl. now rewrite B, IH.
Qed.

Lemma cleared_element_shape (elem : pyval) :
  element_shape elem = true ->
  element_shape (cleared_element elem) = true /\
  field "data" (cleared_element elem) = field "data" elem.
Proof.
  intro S. destruct (element_shape_dict elem S) as [d ->]. unfold cleared_element.
  destruct (field "classes" (PDict d)); [|now split].
  split; [now apply element_shape_set_classes | apply set_classes_data].
Qed.

Lemma matches_of_empty (q : string) (l : list pyval) :
  matches_of q l = [] <->
  String.eqb q EmptyString = true \/
  existsb (fun e => is_node e && ci_match q (label_of e)) l = false.
Proof.
  unfold matches_of. destruct (String.eqb q EmptyString); [split; auto|].
  split.
  - intro H. right. induction l as [|e l IH]; [reflexivity|]. simpl in *.
    destruct (is_node e); simpl in *; [|now apply IH].
    destruct (ci_match q (label_of e)); [discriminate H | now apply IH].
  - intros [H|H]; [discriminate H|]. induction l as [|e l IH]; [reflexivity|]. simpl in *.
    apply orb_false_elim in H. destruct H as [He H].
    destruct (is_node e); simpl in *; [|now apply IH]. rewrite He. now apply IH.
Qed.

(** The elements and the message of a search on element records. *)
Lemma handle_search_exact (i : inputs) (q : string) (l : list pyval) :
  search_value i = PStr q ->
  current_elements i = PList l ->
  forallb element_shape l = true ->
  handle_search i (default_outputs i)
  = set_node_info
      (set_elements (default_outputs i)
         (PList (map (searched_element (matches_of q l)) l)))
      (search_message q l).
Proof.
  intros Sv Ce Sh. unfold handle_search. cbn [default_outputs new_elements].
  unfold deepcopy. rewrite Ce, Sv. cbn [for_elements].
  rewrite (for_each_map clear_highlight cleared_element l).
  2:{ apply Forall_forall. intros e I. apply clear_highlight_exact.
      rewrite forallb_forall in Sh. now apply Sh. }
  cbn [py_truthy]. unfold search_message, matches_of.
  destruct (String.eqb q EmptyString) eqn:Eq; cbn [negb]; [reflexivity|].
  cbn [py_iter bind]. rewrite (node_labels_shape l Sh).
  rewrite perform_fuzzy_search_strings, Eq.
  destruct (filter (ci_match q) (map label_of (filter is_node l))) as [|r R]; [reflexivity|].
  change (map PStr (r :: R)) with (PStr r :: map PStr R) at 1.
  cbv iota. cbn [for_elements].
  rewrite (for_each_map (mark_highlight (map PStr (r :: R))) (marked_element (r :: R))).
  2:{ apply Forall_forall. intros e I. apply in_map_iff in I. destruct I as (e0 & <- & I).
      apply mark_highlight_exact. apply cleared_element_shape.
      rewrite forallb_forall in Sh. now apply Sh. }
  now rewrite map_map.
Qed.

(** X15. After a search on element records the info panel says "Search
    cleared. All nodes are visible." when the query is empty, "Matching
    nodes highlighted." when some node's label matches it, and "No matching
    nodes found." otherwise; no alert is raised. *)
Theorem search_message_spec (json_dumps : pyval -> option string)
    (json_loads : string -> option pyval) (i : inputs) (w : world)
    (prop_id : string) (rest : list string) (q : string) (l : list pyval) :
  triggered i = prop_id :: rest ->
  before_dot prop_id = "node-search" ->
  search_value i = PStr q ->
  current_elements i = PList l ->
  forallb element_shape l = true ->
  exists o,
    handle_interactions json_dumps json_loads i w = (Ok o, w) /\
    node_info o
    = InfoText
        (if String.eqb q EmptyString then "Search cleared. All nodes are visible."
         else if existsb (fun e => is_node e && ci_match q (label_of e)) l
              then "Matching nodes highlighted."
              else "No matching nodes found.") /\
    save_alert o = false /\ load_alert o = false /\ note_save_alert o = false.
Proof.
  intros T B Sv Ce Sh. rewrite (dispatch_search _ _ _ _ _ _ T B).
  rewrite (handle_search_exact i q l Sv Ce Sh).
  eexists. split; [reflexivity|]. cbn. split; [|repeat split].
  f_equal. unfold search_message.
  destruct (String.eqb q EmptyString) eqn:Eq; [reflexivity|].
  pose proof (matches_of_empty q l) as M. rewrite Eq in M.
  destruct (matches_of q l) as [|r R].
  - destruct (proj1 M eq_refl) as [H|H]; [discriminate H | now rewrite H].
  - destruct (existsb _ l); [reflexivity|].
    discriminate (proj2 M (or_intror eq_refl)).
Qed.

Lemma search_message_spec_witness :
  exists o,
    handle_interactions (table_dumps []) (table_loads [])
      (search_inputs "vm" (PList small_document)) fresh_world = (Ok o, fresh_world) /\
    node_info o = InfoText "No matching nodes found.".
Proof.
  destruct (search_message_spec (table_dumps []) (table_loads [])
              (search_inputs "vm" (PList small_document)) fresh_world
              "node-search.value" [] "vm" small_document
              eq_refl eq_refl eq_refl eq_refl eq_refl) as (o & H & I & _).
  exists o. split; [exact H | exact I].
Defined.

(** ** Searching twice *)

Lemma without_highlight_fixed (X : list string) :
  str_in_list "highlighted" X = false -> without_highlight X = X.
Proof. intro H. unfold without_highlight. now rewrite H. Qed.

Lemma remove_first_last (x : string) (X : list string) :
  str_in_list x X = false -> remove_first x (X ++ [x]) = X.
Proof.
  induction X as [|y X IH]; simpl.
  - now rewrite String.eqb_refl.
  - rewrite (String.eqb_sym x y). destruct (String.eqb y x); [discriminate|].
    simpl. intro H. now rewrite IH.
Qed.

Lemma without_with (X : list string) :
  str_in_list "highlighted" X = false -> without_highlight (with_highlight X) = X.
Proof.
  intro H. unfold without_highlight. rewrite with_highlight_present.
  unfold with_highlight. rewrite H. now apply remove_first_last.
Qed.

Lemma searched_element_shape (R : list string) (elem : pyval) :
  element_shape elem = true ->
  element_shape (searched_element R elem) = true /\
  field "data" (searched_element R elem) = field "data" elem.
Proof.
  intro S. destruct (cleared_element_shape elem S) as [S1 D1].
  unfold searched_element. destruct R as [|r R]; [now split|].
  unfold marked_element. destruct (is_node (cleared_element elem)); [|now split].
  destruct (element_shape_dict _ S1) as [d1 E1]. rewrite E1 in *.
  split; [now apply element_shape_set_classes | now rewrite set_classes_data].
Qed.

Lemma searched_element_idem (R : list string) (elem : pyval) :
  search_element elem = true ->
  searched_element R (searched_element R elem) = searched_element R elem.
Proof.
  unfold search_element, marked_once. intro H. apply andb_prop in H. destruct H as [S O].
  apply Nat.leb_le in O.
  destruct (element_shape_dict elem S) as [d ->].
  set (T1 := without_highlight (classes_of (PDict d))).
  assert (A1 : str_in_list "highlighted" T1 = false) by now apply without_highlight_absent.
  assert (K1 : forallb token T1 = true) by apply tokens_without, classes_of_tokens.
  assert (C1 : classes_of (cleared_element (PDict d)) = T1).
  { unfold cleared_element. destruct (field "classes" (PDict d)) eqn:F.
    - now apply classes_of_set_classes.
    - unfold T1, classes_of. now rewrite F. }
  assert (Cs : forall X, forallb token X = true ->
                 cleared_element (set_classes (PDict d) X)
                 = set_classes (PDict d) (without_highlight X)).
  { intros X KX. unfold cleared_element. rewrite field_set_classes.
    change (String.eqb "classes" "classes") with true. cbv iota.
    now rewrite set_classes_twice, classes_of_set_classes. }
  assert (Cc : cleared_element (cleared_element (PDict d)) = cleared_element (PDict d)).
  { unfold cleared_element at 2 3. destruct (field "classes" (PDict d)) eqn:F.
    - fold T1. rewrite (Cs T1 K1). now rewrite (without_highlight_fixed T1 A1).
    - unfold cleared_element. now rewrite F. }
  unfold searched_element. destruct R as [|r R]; [exact Cc|].
  destruct (cleared_element_shape (PDict d) S) as [S1 D1].
  destruct (same_data _ _ D1) as (N1 & _ & L1 & _).
  unfold marked_element at 2 3. rewrite N1, L1, C1.
  destruct (is_node (PDict d)) eqn:N.
  2:{ rewrite Cc. unfold marked_element. now rewrite N1. }
  set (X := if str_in_list (label_of (PDict d)) (r :: R) then with_highlight T1
            else without_highlight T1).
  assert (KX : forallb token X = true).
  { unfold X. destruct (str_in_list (label_of (PDict d)) (r :: R));
      [now apply tokens_with | now apply tokens_without]. }
  assert (WX : without_highlight X = T1).
  { unfold X. destruct (str_in_list (label_of (PDict d)) (r :: R));
      [now apply without_with|].
    now rewrite !(without_highlight_fixed T1 A1). }
  assert (E : set_classes (cleared_element (PDict d)) X = set_classes (PDict d) X).
  { unfold cleared_element. destruct (field "classes" (PDict d)); [|reflexivity].
    apply set_classes_twice. }
  rewrite E, (Cs X KX), WX.
  unfold marked_element.
  destruct (same_data _ _ (set_classes_data d T1)) as (N2 & _ & L2 & _).
  rewrite N2, L2, N, (classes_of_set_classes d T1 K1), set_classes_twice. reflexivity.
Qed.

Lemma node_labels_searched (R : list string) (l : list pyval) :
  forallb element_shape l = true ->
  map label_of (filter is_node (map (searched_element R) l))
  = map label_of (filter is_node l).
Proof.
  induction l as [|e l IH]; intro H; [reflexivity|].
  simpl in H. apply andb_prop in H. destruct H as [S H].
  destruct (searched_element_shape R e S) as [_ D].
  destruct (same_data _ _ D) as (N & _ & L & _).
  cbn [map filter]. rewrite N. destruct (is_node e); cbn [map]; rewrite ?L, (IH H); reflexivity.
Qed.

(** X16. Searching is idempotent: on element records whose classes do not
    repeat the marker, a second search with the same query on the elements
    the first one returned gives the same elements and the same message. *)
Theorem search_twice (json_dumps : pyval -> option string)
    (json_loads : string -> option pyval) (i : inputs) (w : world)
    (prop_id : string) (rest : list string) (q : string) (l : list pyval) :
  triggered i = prop_id :: rest ->
  before_dot prop_id = "node-search" ->
  search_value i = PStr q ->
  current_elements i = PList l ->
  forallb search_element l = true ->
  exists o,
    handle_interactions json_dumps json_loads i w = (Ok o, w) /\
    exists o',
      handle_interactions json_dumps json_loads
        (dispatch_inputs prop_id i (document_of o)) w = (Ok o', w) /\
      new_elements o' = new_elements o /\
      node_info o' = node_info o.
Proof.
  intros T B Sv Ce Se.
  assert (Sh : forallb element_shape l = true).
  { rewrite forallb_forall in *. intros e I. specialize (Se e I).
    unfold search_element in Se. now apply andb_prop in Se. }
  rewrite (dispatch_search _ _ _ _ _ _ T B).
  rewrite (handle_search_exact i q l Sv Ce Sh).
  eexists. split; [reflexivity|].
  set (l1 := map (searched_element (matches_of q l)) l).
  assert (Sh1 : forallb element_shape l1 = true).
  { apply forallb_forall. intros e I. apply in_map_iff in I. destruct I as (e0 & <- & I).
    apply searched_element_shape. rewrite forallb_forall in Sh. now apply Sh. }
  assert (M : matches_of q l1 = matches_of q l).
  { unfold matches_of. destruct (String.eqb q EmptyString); [reflexivity|].
    unfold l1. now rewrite node_labels_searched. }
  pose (d1 := {| doc_elements := PList l1; doc_zoom := current_zoom i;
                 doc_pan := current_pan i |}).
  change (document_of (set_node_info (set_elements (default_outputs i) (PList l1))
                         (search_message q l))) with d1.
  rewrite (dispatch_search json_dumps json_loads (dispatch_inputs prop_id i d1) w
             prop_id [] eq_refl B).
  rewrite (handle_search_exact (dispatch_inputs prop_id i d1) q l1 Sv eq_refl Sh1).
  eexists. split; [reflexivity|]. cbn. rewrite M. split.
  - f_equal. unfold l1. rewrite map_map. apply map_ext_in. intros e I.
    apply searched_element_idem. rewrite forallb_forall in Se. now apply Se.
  - f_equal. unfold search_message. now rewrite M.
Qed.

Lemma search_twice_witness :
  exists o,
    handle_interactions (table_dumps []) (table_loads [])
      (search_inputs "machine" (PList small_document)) fresh_world = (Ok o, fresh_world) /\
    exists o',
      handle_interactions (table_dumps []) (table_loads [])
        (dispatch_inputs "node-search.value" (search_inputs "machine" (PList small_document))
           (document_of o)) fresh_world = (Ok o', fresh_world) /\
      new_elements o' = new_elements o /\
      node_info o' = node_info o.
Proof.
  exact (search_twice (table_dumps []) (table_loads [])
           (search_inputs "machine" (PList small_document)) fresh_world
           "node-search.value" [] "machine" small_document
           eq_refl eq_refl eq_refl eq_refl eq_refl).
Defined.

(** * Further properties of the graph component and of the layout *)

Lemma count_where_has_data (p : bool -> bool) (l : list pyval) :
  forallb has_data l = true ->
  count_where p l = Ok (List.length (filter (fun e => p (has_source e)) l)).
Proof.
  induction l as [|elem l IH]; intro H; [reflexivity|].
  simpl in H. apply andb_prop in H. destruct H as [D H].
  destruct elem as [| | | | | |d]; try discriminate D. simpl in D.
  cbn [count_where py_getitem filter]. unfold has_source, data_field. cbn [field].
  destruct (assoc "data" d) as [[| | | | | |dd]|]; try discriminate D.
  cbn [bind py_in]. rewrite (IH H). cbn [bind].
  destruct (assoc "source" dd); destruct (p _); reflexivity.
Qed.

Lemma GraphComponent_has_data (l : list pyval) (zoom pan : pyval) :
  forallb has_data l = true ->
  GraphComponent (PList l) zoom pan
  = Ok {| cy_elements := PList l; cy_zoom := zoom; cy_pan := pan;
          cy_minZoom := 0.5%float; cy_maxZoom := 2.0%float;
          cy_node_count := List.length (filter (fun e => negb (has_source e)) l);
          cy_edge_count := List.length (filter (fun e => has_source e) l) |}.
Proof.
  intro H. unfold GraphComponent. cbn [py_iter bind].
  now rewrite !(count_where_has_data _ l H).
Qed.

(** X17. On elements that all have a data dict, [GraphComponent] returns a
    component with these elements, zoom and pan and the zoom bounds 0.5 and
    2.0; it counts as edges the elements with a source and as nodes the
    others, so the two counts add up to the number of elements. *)
Theorem GraphComponent_counts (l : list pyval) (zoom pan : pyval) :
  forallb has_data l = true ->
  exists g,
    GraphComponent (PList l) zoom pan = Ok g /\
    cy_elements g = PList l /\ cy_zoom g = zoom /\ cy_pan g = pan /\
    cy_minZoom g = 0.5%float /\ cy_maxZoom g = 2.0%float /\
    cy_edge_count g = List.length (filter has_source l) /\
    cy_node_count g = List.length (filter (fun e => negb (has_source e)) l) /\
    cy_node_count g + cy_edge_count g = List.length l.
Proof.
  intro H. unfold GraphComponent. cbn [py_iter bind].
  rewrite !(count_where_has_data _ l H). cbn [bind].
  eexists. split; [reflexivity|]. cbn. repeat split.
  clear H. induction l as [|e l IH]; [reflexivity|]. simpl.
  destruct (has_source e); simpl; lia.
Qed.

Lemma GraphComponent_counts_witness :
  exists g,
    GraphComponent (PList small_document) (PFloat 1.0%float) origin = Ok g /\
    cy_node_count g = 2 /\ cy_edge_count g = 1.
Proof.
  destruct (GraphComponent_counts small_document (PFloat 1.0%float) origin eq_refl)
    as (g & H & _ & _ & _ & _ & _ & E & N & _).
  exists g. split; [exact H|]. split; [exact N | exact E].
Defined.

(** X18. An element without [data], or one that is no record, makes
    [GraphComponent] raise: [KeyError] for a record without the key,
    [TypeError] for a value that is no record. *)
Theorem GraphComponent_raises (pre post : list pyval) (elem : pyval) (zoom pan : pyval) :
  forallb has_data pre = true ->
  field "data" elem = None ->
  GraphComponent (PList (pre ++ elem :: post)) zoom pan
  = Raise (match elem with PDict _ => KeyError | _ => TypeError end).
Proof.
  intros H F. unfold GraphComponent. cbn [py_iter bind].
  assert (C : count_where negb (pre ++ elem :: post)
              = Raise (match elem with PDict _ => KeyError | _ => TypeError end)).
  { induction pre as [|e pre IH].
    - cbn [app count_where]. destruct elem as [| | | | | |d]; try reflexivity.
      cbn [field] in F. cbn [py_getitem]. now rewrite F.
    - simpl in H. apply andb_prop in H. destruct H as [D H].
      destruct e as [| | | | | |d]; try discriminate D. simpl in D.
      cbn [app count_where py_getitem].
      destruct (assoc "data" d) as [[| | | | | |dd]|]; try discriminate D.
      cbn [bind py_in]. now rewrite (IH H). }
  now rewrite C.
Qed.

Lemma GraphComponent_raises_witness :
  GraphComponent (PList [compute_node; PDict [("classes", PStr "subnode")]])
    (PFloat 1.0%float) origin = Raise KeyError.
Proof.
  exact (GraphComponent_raises [compute_node] [] (PDict [("classes", PStr "subnode")])
           (PFloat 1.0%float) origin eq_refl eq_refl).
Defined.

Lemma loggable_has_data (l : list pyval) :
  forallb loggable l = true -> forallb has_data l = true.
Proof.
  intro H. rewrite forallb_forall in *. intros e I. specialize (H e I).
  unfold loggable in H. destruct e as [| | | | | |d]; try discriminate H.
  cbn [field] in H. simpl. now destruct (assoc "data" d) as [[| | | | | |dd]|].
Qed.

Lemma log_loaded_nodes_loggable (l : list pyval) :
  forallb loggable l = true -> log_loaded_nodes l = Ok tt.
Proof.
  induction l as [|elem l IH]; intro H; [reflexivity|].
  simpl in H. apply andb_prop in H. destruct H as [L H].
  unfold loggable in L. destruct elem as [| | | | | |d]; try discriminate L.
  cbn [field] in L. cbn [log_loaded_nodes py_getitem].
  destruct (assoc "data" d) as [[| | | | | |dd]|]; try discriminate L.
  cbn [bind py_in].
  destruct (assoc "source" dd), (assoc "target" dd); cbn [bind negb andb py_get py_getitem];
    try (now apply IH).
  destruct (assoc "id" dd); [|discriminate L]. cbn [bind]. now apply IH.
Qed.

(** X19. When the store gives nothing back, the page starts from the
    document built from the taxonomy of [data.py], 36 nodes and 35 edges,
    at zoom 1.0 and pan (0, 0). *)
Theorem get_layout_default (json_loads : string -> option pyval) (d : database) :
  py_truthy (load_graph_state json_loads d) = false ->
  exists lay,
    get_layout json_loads d = Ok lay /\
    original_elements lay = PList (load_graph_elements central_node primary_nodes subnodes) /\
    store_graph_state lay
    = snapshot (PList (load_graph_elements central_node primary_nodes subnodes))
        (PFloat 1.0%float) origin /\
    cy_elements (graph lay)
    = PList (load_graph_elements central_node primary_nodes subnodes) /\
    cy_zoom (graph lay) = PFloat 1.0%float /\
    cy_pan (graph lay) = origin /\
    cy_node_count (graph lay) = 36 /\
    cy_edge_count (graph lay) = 35.
Proof.
  intro N. unfold get_layout, initial_document. rewrite N. cbn [bind doc_elements py_iter].
  assert (L : forallb loggable (load_graph_elements central_node primary_nodes subnodes) = true)
    by (vm_compute; reflexivity).
  rewrite (log_loaded_nodes_loggable _ L). cbn [bind doc_zoom doc_pan].
  rewrite (GraphComponent_has_data _ (PFloat 1.0%float) origin (loggable_has_data _ L)).
  cbn [bind]. eexists. split; [reflexivity|].
  cbn [original_elements store_graph_state graph cy_elements cy_zoom cy_pan
       cy_node_count cy_edge_count].
  repeat split.
Qed.

Lemma get_layout_default_witness :
  exists lay,
    get_layout (table_loads []) empty_database = Ok lay /\
    cy_node_count (graph lay) = 36 /\
    cy_edge_count (graph lay) = 35.
Proof.
  destruct (get_layout_default (table_loads []) empty_database eq_refl)
    as (lay & H & _ & _ & _ & _ & _ & N & E).
  exists lay. split; [exact H|]. split; [exact N | exact E].
Defined.

(** X20. The document survives a restart: after a save on a backend that
    answers and whose id counter is not exhausted, the page starts from the
    saved elements, zoom and pan, provided the text of the snapshot parses
    back to it and its elements pass the debug loop of the layout. *)
Theorem get_layout_after_save (json_dumps : pyval -> option string)
    (json_loads : string -> option pyval)
    (l : list pyval) (zoom pan : pyval) (d : database) (s : string) :
  db_available d = true ->
  rowid_available d = true ->
  json_dumps (snapshot (PList l) zoom pan) = Some s ->
  json_loads s = Some (snapshot (PList l) zoom pan) ->
  forallb loggable l = true ->
  exists lay,
    get_layout json_loads (snd (save_graph_state json_dumps (snapshot (PList l) zoom pan) d))
    = Ok lay /\
    original_elements lay = PList l /\
    store_graph_state lay = snapshot (PList l) zoom pan /\
    cy_elements (graph lay) = PList l /\
    cy_zoom (graph lay) = zoom /\
    cy_pan (graph lay) = pan.
Proof.
  intros A R J P L. rewrite (save_graph_state_rows _ _ _ _ A R J). cbn [snd].
  assert (E : load_graph_state json_loads
                {| db_available := true; db_rows := [(next_id d, s)];
                   db_sequence := next_id d |}
              = snapshot (PList l) zoom pan).
  { unfold load_graph_state. cbn. now rewrite P. }
  unfold get_layout, initial_document. rewrite E.
  cbn [snapshot py_truthy py_get assoc String.eqb Ascii.eqb Bool.eqb bind doc_elements
       doc_zoom doc_pan py_iter].
  rewrite (log_loaded_nodes_loggable _ L). cbn [bind].
  rewrite (GraphComponent_has_data l zoom pan (loggable_has_data _ L)).
  cbn [bind]. eexists. split; [reflexivity|]. repeat split.
Qed.

Lemma get_layout_after_save_witness :
  exists lay,
    get_layout (table_loads compute_table) (db world_after_save) = Ok lay /\
    original_elements lay = PList [compute_node] /\
    cy_zoom (graph lay) = PFloat 1.5%float.
Proof.
  destruct (get_layout_after_save (table_dumps compute_table) (table_loads compute_table)
              [compute_node] (PFloat 1.5%float) (PDict [("x", PInt 10); ("y", PInt (-4))])
              empty_database "compute" eq_refl eq_refl eq_refl eq_refl eq_refl)
    as (lay & H & E & _ & _ & Z & _).
  exists lay. split; [exact H|]. split; [exact E | exact Z].
Defined.

(** * Further properties of the builder *)

Lemma primary_loop_exact (c : central) (ps : primaries) (k : nat) :
  primary_loop c k ps
  = (map (fun ikv => primary_node (fst ikv) (snd ikv)) (combine (seq k (List.length ps)) ps),
     map (primary_edge c) ps).
Proof.
  revert k. induction ps as [|[primary_id primary_desc] ps IH]; intro k; [reflexivity|].
  cbn [primary_loop]. rewrite (IH (S k)). reflexivity.
Qed.

Lemma nth_error_primary (ps : primaries) (k i : nat) (kv : string * string) :
  nth_error ps i = Some kv ->
  nth_error (map (fun ikv => primary_node (fst ikv) (snd ikv))
               (combine (seq k (List.length ps)) ps)) i
  = Some (primary_node (k + i) kv).
Proof.
  revert k i. induction ps as [|x ps IH]; intros k i H; [now destruct i|].
  destruct i as [|i]; cbn in *.
  - injection H as ->. now rewrite Nat.add_0_r.
  - rewrite (IH (S k) i H). now rewrite Nat.add_succ_r.
Qed.

Lemma parent_color_of_app (p : string) (base acc : list node) :
  In p (map node_id base) ->
  parent_color_of p (base ++ acc) = parent_color_of p base.
Proof.
  induction base as [|n base IH]; intro I; [destruct I|]. cbn.
  destruct (String.eqb_spec (node_id n) p) as [E|N]; [reflexivity|].
  destruct I as [I|I]; [now elim N | now apply IH].
Qed.

(** The second loop, exactly: the edges in any case, the colours when every
    key is the id of a node of [base], the nodes built before the loop. *)
Lemma sub_loop_exact (subs : subcategories) (base acc : list node) (edges : list edge) :
  exists ns,
    sub_loop subs (base ++ acc) edges
    = ((base ++ acc) ++ ns,
       edges ++ flat_map (fun s => map (child_edge (fst s)) (snd s)) subs) /\
    Forall (fun n => exists color kv, n = child_node color kv) ns /\
    List.length ns = List.length (flat_map (fun s => snd s) subs) /\
    (forallb (fun s => str_in_list (fst s) (map node_id base)) subs = true ->
     ns = flat_map (fun s => map (child_node (lighten_color (parent_color_of (fst s) base)
                                                (NFloat 0.6%float))) (snd s)) subs).
Proof.
  revert acc edges. induction subs as [|[parent_id children] subs IH]; intros acc edges.
  - exists []. rewrite !app_nil_r. repeat split. constructor.
  - cbn [sub_loop child_loop flat_map fst snd forallb].
    fold (child_node (lighten_color (parent_color_of parent_id (base ++ acc))
                        (NFloat 0.6%float))).
    fold (child_edge parent_id).
    set (color := lighten_color (parent_color_of parent_id (base ++ acc))
                    (NFloat 0.6%float)).
    set (cn := map (child_node color) children).
    set (ce := map (child_edge parent_id) children).
    set (rest := flat_map (fun s => map (child_edge (fst s)) (snd s)) subs).
    destruct (IH (acc ++ cn) (edges ++ ce)) as (ns & E & F & L & X).
    fold rest in E.
    exists (cn ++ ns). split; [|split; [|split]].
    + rewrite <- (app_assoc base acc cn), E.
      now rewrite (app_assoc base acc cn), <- (app_assoc (base ++ acc) cn ns),
        <- (app_assoc edges ce rest).
    + apply Forall_app. split; [|exact F]. apply Forall_forall. intros n I.
      apply in_map_iff in I. destruct I as (kv & <- & _). now exists color, kv.
    + unfold cn. rewrite !length_app, length_map, L. reflexivity.
    + intro K. apply andb_prop in K. destruct K as [Kp K].
      rewrite (X K). unfold cn, color.
      rewrite (parent_color_of_app parent_id base acc); [reflexivity|].
      now apply str_in_list_In.
Qed.

(** The document, exactly, for some list of subcategory nodes. *)
Lemma load_graph_elements_exact (c : central) (ps : primaries) (subs : subcategories) :
  exists ns,
    load_graph_elements c ps subs
    = map node_element
        (central_element c
         :: map (fun ikv => primary_node (fst ikv) (snd ikv))
              (combine (seq 0 (List.length ps)) ps) ++ ns)
      ++ map edge_element
           (map (primary_edge c) ps
            ++ flat_map (fun s => map (child_edge (fst s)) (snd s)) subs) /\
    Forall (fun n => exists color kv, n = child_node color kv) ns /\
    List.length ns = subcategory_count subs /\
    (parents_known ps subs = true ->
     ns = flat_map (fun s => map (child_node
                                    (lighten_color
                                       (parent_color_of (fst s)
                                          (central_element c
                                           :: map (fun ikv => primary_node (fst ikv) (snd ikv))
                                                (combine (seq 0 (List.length ps)) ps)))
                                       (NFloat 0.6%float))) (snd s)) subs).
Proof.
  unfold load_graph_elements, build_graph. rewrite primary_loop_exact.
  set (base := central_element c :: _).
  destruct (sub_loop_exact subs base [] (map (primary_edge c) ps)) as (ns & E & F & L & X).
  rewrite app_nil_r in E. rewrite E. exists ns.
  split; [reflexivity|]. split; [exact F|]. split; [exact L|].
  intro K. apply X. unfold parents_known in K.
  rewrite forallb_forall in *. intros s I. specialize (K s I).
  apply str_in_list_In. apply str_in_list_In in K. right. unfold base.
  rewrite map_map.
  assert (M : forall k, map (fun ikv => node_id (primary_node (fst ikv) (snd ikv)))
                          (combine (seq k (List.length ps)) ps) = map fst ps).
  { clear. induction ps as [|x ps IH]; intro k; [reflexivity|]. cbn. now rewrite IH. }
  now rewrite M.
Qed.

(** X21. The document built is the central node, then one node per
    category in order, then the subcategory nodes, then the edges. The
    category at position [i] has its id as id, the id with underscores
    turned into spaces as label, the colour [i mod 10] of the palette, and an
    edge from the central node. *)
Theorem primary_nodes_by_position (c : central) (ps : primaries) (subs : subcategories)
    (i : nat) (kv : string * string) :
  nth_error ps i = Some kv ->
  nth_error (load_graph_elements c ps subs) 0 = Some (node_element (central_element c)) /\
  nth_error (load_graph_elements c ps subs) (S i)
  = Some (node_element (primary_node i kv)) /\
  nth_error (load_graph_elements c ps subs)
    (1 + List.length ps + subcategory_count subs + i)
  = Some (edge_element (primary_edge c kv)).
Proof.
  intro H. destruct (load_graph_elements_exact c ps subs) as (ns & -> & _ & L & _).
  set (pn := map (fun ikv => primary_node (fst ikv) (snd ikv))
               (combine (seq 0 (List.length ps)) ps)).
  assert (Lp : List.length pn = List.length ps).
  { unfold pn. rewrite length_map, length_combine, length_seq. apply Nat.min_id. }
  assert (Hi : i < List.length ps) by (apply nth_error_Some; congruence).
  split; [reflexivity|]. split.
  - cbn [map app nth_error]. rewrite nth_error_app1 by (rewrite length_map, length_app; lia).
    rewrite map_app, nth_error_app1 by (rewrite length_map; lia).
    rewrite nth_error_map. unfold pn. now rewrite (nth_error_primary ps 0 i kv H).
  - rewrite nth_error_app2 by (cbn; rewrite length_map, length_app; lia).
    rewrite length_map. cbn [List.length]. rewrite length_app, Lp, L.
    replace (1 + List.length ps + subcategory_count subs + i
             - S (List.length ps + subcategory_count subs)) with i by lia.
    rewrite map_app, nth_error_app1 by (rewrite !length_map; lia).
    rewrite !nth_error_map, H. reflexivity.
Qed.

Lemma primary_nodes_by_position_witness :
  nth_error (load_graph_elements central_node primary_nodes subnodes) 3
  = Some (node_element (primary_node 2 ("Storage", "Storage services in Azure"))).
Proof.
  exact (proj1 (proj2 (primary_nodes_by_position central_node primary_nodes subnodes 2
                         ("Storage", "Storage services in Azure") eq_refl))).
Defined.

Lemma parent_color_primary_from (ps : primaries) (k i : nat) (kv : string * string) :
  NoDup (map fst ps) ->
  nth_error ps i = Some kv ->
  parent_color_of (fst kv)
    (map (fun ikv => primary_node (fst ikv) (snd ikv)) (combine (seq k (List.length ps)) ps))
  = nth ((k + i) mod 10) PRIMARY_NODE_COLORS "".
Proof.
  revert k i. induction ps as [|x ps IH]; intros k i D H; [now destruct i|].
  inversion D as [|? ? Nx D']; subst.
  destruct i as [|i]; cbn [List.length seq combine map parent_color_of primary_node
                             node_id node_color fst snd nth_error] in *.
  - injection H as ->. now rewrite String.eqb_refl, Nat.add_0_r.
  - destruct (String.eqb_spec (fst x) (fst kv)) as [E|_].
    + elim Nx. rewrite E. apply in_map. now apply nth_error_In with i.
    + rewrite (IH (S k) i D' H). now rewrite Nat.add_succ_r.
Qed.

Lemma in_built_node (c : central) (ps : primaries) (subs : subcategories) (n : node) :
  parents_known ps subs = true ->
  (exists s kv, In s subs /\ In kv (snd s) /\
     n = child_node
           (lighten_color
              (parent_color_of (fst s)
                 (central_element c
                  :: map (fun ikv => primary_node (fst ikv) (snd ikv))
                       (combine (seq 0 (List.length ps)) ps)))
              (NFloat 0.6%float)) kv) ->
  In (node_element n) (load_graph_elements c ps subs).
Proof.
  intros K (s & kv & Is & Ik & ->).
  destruct (load_graph_elements_exact c ps subs) as (ns & -> & _ & _ & X).
  rewrite (X K). apply in_or_app. left. apply in_map. right.
  apply in_or_app. right. apply in_flat_map. exists s. split; [exact Is|].
  now apply in_map.
Qed.

(** X22. When the category ids and the central id are pairwise distinct and
    every group of subcategories hangs under a category, each subcategory
    of the category at position [i] gets a node of class [subnode] whose
    colour is the category's palette colour lightened by 0.6, and an edge
    from the category. *)
Theorem subcategory_nodes_of_parent (c : central) (ps : primaries) (subs : subcategories)
    (i : nat) (pkv : string * string) (children : list (string * string))
    (ckv : string * string) :
  distinct (central_id c :: map fst ps) = true ->
  parents_known ps subs = true ->
  nth_error ps i = Some pkv ->
  In (fst pkv, children) subs ->
  In ckv children ->
  In (node_element
        (child_node (lighten_color (nth (i mod 10) PRIMARY_NODE_COLORS "") (NFloat 0.6%float))
           ckv))
     (load_graph_elements c ps subs) /\
  In (edge_element (child_edge (fst pkv) ckv)) (load_graph_elements c ps subs).
Proof.
  intros D K H Is Ic. split.
  - apply in_built_node; [exact K|]. exists (fst pkv, children), ckv.
    split; [exact Is|]. split; [exact Ic|]. cbn [fst]. f_equal. f_equal.
    cbn [distinct] in D. apply andb_prop in D. destruct D as [Nc D].
    cbn [parent_color_of central_element node_id].
    destruct (String.eqb_spec (central_id c) (fst pkv)) as [E|_].
    + apply negb_true_iff in Nc.
      assert (I : str_in_list (central_id c) (map fst ps) = true).
      { apply str_in_list_In. rewrite E. apply in_map. now apply nth_error_In with i. }
      congruence.
    + symmetry. exact (parent_color_primary_from ps 0 i pkv (distinct_NoDup _ D) H).
  - destruct (load_graph_elements_exact c ps subs) as (ns & -> & _ & _ & _).
    apply in_or_app. right. apply in_map. apply in_or_app. right.
    apply in_flat_map. exists (fst pkv, children). split; [exact Is|].
    cbn [fst snd]. now apply in_map.
Qed.

Lemma subcategory_nodes_of_parent_witness :
  In (node_element
        (child_node "#A5C8E1" ("Virtual_Machines",
            "Virtual Machines (VMs) provide scalable computing resources in Azure.")))
     (load_graph_elements central_node primary_nodes subnodes) /\
  In (edge_element (child_edge "Compute" ("Virtual_Machines",
            "Virtual Machines (VMs) provide scalable computing resources in Azure.")))
     (load_graph_elements central_node primary_nodes subnodes).
Proof.
  refine (subcategory_nodes_of_parent central_node primary_nodes subnodes 0
            ("Compute", "Compute services in Azure") _
            ("Virtual_Machines",
            "Virtual Machines (VMs) provide scalable computing resources in Azure.") eq_refl eq_refl eq_refl _ _).
  - left. reflexivity.
  - left. reflexivity.
Defined.

Lemma filter_all {A : Type} (p : A -> bool) (l : list A) :
  (forall x, In x l -> p x = true) -> filter p l = l.
Proof.
  induction l as [|x l IH]; intro H; [reflexivity|]. cbn.
  rewrite (H x (or_introl eq_refl)). f_equal. apply IH. intros y I. apply H. now right.
Qed.

Lemma filter_none {A : Type} (p : A -> bool) (l : list A) :
  (forall x, In x l -> p x = false) -> filter p l = [].
Proof.
  induction l as [|x l IH]; intro H; [reflexivity|]. cbn.
  rewrite (H x (or_introl eq_refl)). apply IH. intros y I. apply H. now right.
Qed.

Lemma length_child_edges (subs : subcategories) :
  List.length (flat_map (fun s => map (child_edge (fst s)) (snd s)) subs)
  = subcategory_count subs.
Proof.
  unfold subcategory_count. induction subs as [|s subs IH]; [reflexivity|].
  cbn [flat_map]. now rewrite !length_app, length_map, IH.
Qed.

(** X23. The graph component accepts every document the builder makes, for
    any taxonomy, and counts one node for the centre, one per category and
    one per subcategory, and one edge per category and per subcategory. *)
Theorem built_document_counts (c : central) (ps : primaries) (subs : subcategories)
    (zoom pan : pyval) :
  exists g,
    GraphComponent (PList (load_graph_elements c ps subs)) zoom pan = Ok g /\
    cy_elements g = PList (load_graph_elements c ps subs) /\
    cy_node_count g = 1 + List.length ps + subcategory_count subs /\
    cy_edge_count g = List.length ps + subcategory_count subs /\
    List.length (load_graph_elements c ps subs)
    = 1 + 2 * (List.length ps + subcategory_count subs).
Proof.
  destruct (load_graph_elements_exact c ps subs) as (ns & E & _ & L & _).
  set (N := central_element c :: _) in E. set (Es := map (primary_edge c) ps ++ _) in E.
  assert (LN : List.length N = 1 + List.length ps + subcategory_count subs).
  { unfold N. cbn [List.length].
    rewrite length_app, length_map, length_combine, length_seq, Nat.min_id, L. lia. }
  assert (LE : List.length Es = List.length ps + subcategory_count subs).
  { unfold Es. now rewrite length_app, length_map, length_child_edges. }
  assert (D : forallb has_data (load_graph_elements c ps subs) = true).
  { rewrite E. apply forallb_forall. intros e I. apply in_app_or in I.
    destruct I as [I|I]; apply in_map_iff in I; destruct I as (x & <- & _); reflexivity. }
  unfold GraphComponent. cbn [py_iter bind].
  rewrite !(count_where_has_data _ _ D). cbn [bind].
  eexists. split; [reflexivity|]. cbn [cy_elements cy_node_count cy_edge_count].
  split; [reflexivity|]. rewrite E, !filter_app, !length_app, !length_map.
  rewrite (filter_all (fun e => negb (has_source e)) (map node_element N)),
    (filter_none (fun e => negb (has_source e)) (map edge_element Es)),
    (filter_none (fun e => has_source e) (map node_element N)),
    (filter_all (fun e => has_source e) (map edge_element Es)).
  - rewrite !length_map. cbn [List.length]. lia.
  - intros e I. apply in_map_iff in I. now destruct I as (x & <- & _).
  - intros e I. apply in_map_iff in I. now destruct I as (x & <- & _).
  - intros e I. apply in_map_iff in I. now destruct I as (x & <- & _).
  - intros e I. apply in_map_iff in I. now destruct I as (x & <- & _).
Qed.

(** The elements of a built document: nodes of one of the three classes,
    and edges. *)
Lemma built_element_kinds (c : central) (ps : primaries) (subs : subcategories) (e : pyval) :
  In e (load_graph_elements c ps subs) ->
  (exists n, e = node_element n /\
             In (node_classes n) ["central-node"; "primary-node"; "subnode"]) \/
  (exists x, e = edge_element x).
Proof.
  destruct (load_graph_elements_exact c ps subs) as (ns & -> & F & _ & _).
  intro I. apply in_app_or in I. destruct I as [I|I].
  - left. apply in_map_iff in I. destruct I as (n & <- & I). exists n. split; [reflexivity|].
    destruct I as [<-|I]; [now left|]. apply in_app_or in I. destruct I as [I|I].
    + apply in_map_iff in I. destruct I as (ikv & <- & _). right. now left.
    + rewrite Forall_forall in F. destruct (F n I) as (color & kv & ->). right. right. now left.
  - right. apply in_map_iff in I. destruct I as (x & <- & _). now exists x.
Qed.

Lemma built_elements_ready (c : central) (ps : primaries) (subs : subcategories) (e : pyval) :
  In e (load_graph_elements c ps subs) -> ready_element e = true.
Proof.
  intro I. destruct (built_element_kinds c ps subs e I) as [(n & -> & K)|(x & ->)];
    [|reflexivity].
  destruct n as [id label description notes color classes]. cbn [node_classes] in K.
  destruct K as [<-|[<-|[<-|[]]]]; reflexivity.
Qed.

(** X24. Every element of a built document, for any taxonomy, is an element
    record ready for the reducer: it has a [data] record, the loops over
    loaded elements accept it, its classes are a string or absent, a node has
    a string label, and it does not carry the marker. *)
Theorem built_document_ready (c : central) (ps : primaries) (subs : subcategories) :
  forallb ready_element (load_graph_elements c ps subs) = true /\
  forallb loggable (load_graph_elements c ps subs) = true /\
  forallb search_element (load_graph_elements c ps subs) = true /\
  existsb highlighted (load_graph_elements c ps subs) = false.
Proof.
  pose proof (built_elements_ready c ps subs) as R.
  split; [now apply forallb_forall|].
  split; [|split].
  - apply forallb_forall. intros e I. specialize (R e I). unfold ready_element in R.
    now destruct (search_element e), (loggable e).
  - apply forallb_forall. intros e I. specialize (R e I). unfold ready_element in R.
    now destruct (search_element e).
  - apply not_true_is_false. intro X. apply existsb_exists in X.
    destruct X as (e & I & H). specialize (R e I). unfold ready_element in R.
    apply andb_prop in R. destruct R as [_ R]. now rewrite H in R.
Qed.

(** * Further properties of the colour deriver *)

Lemma channel_factors_all :
  forallb (fun a => forallb (channel_factors a) hex_chars) hex_chars = true.
Proof. vm_compute. reflexivity. Qed.

Lemma byte_round_trip_all : forallb byte_round_trip (seq 0 256) = true.
Proof. vm_compute. reflexivity. Qed.

Lemma channel_factors_hex (a b : ascii) :
  is_hex_char a = true -> is_hex_char b = true ->
  exists v,
    int16 (two a b) = Ok v /\ is_channel v /\
    lighten_channel v (NFloat 0.5%float) = Ok (half_way v) /\
    lighten_channel v (NFloat 0.6%float) = Ok (three_fifths v).
Proof.
  intros Ha Hb. pose proof channel_factors_all as H.
  rewrite forallb_forall in H. specialize (H a (in_hex_chars a Ha)).
  rewrite forallb_forall in H. specialize (H b (in_hex_chars b Hb)).
  unfold channel_factors in H. destruct (int16 (two a b)) as [v|]; [|discriminate].
  apply andb_prop in H. destruct H as [R H]. apply andb_prop in R. destruct R as [R0 R1].
  destruct (lighten_channel v (NFloat 0.5%float)) as [h|] eqn:Lh; [|discriminate].
  destruct (lighten_channel v (NFloat 0.6%float)) as [t|] eqn:Lt; [|discriminate].
  apply andb_prop in H. destruct H as [Eh Et].
  apply Z.eqb_eq in Eh, Et. apply Z.leb_le in R0, R1. subst.
  exists v. unfold is_channel. repeat split; try reflexivity; try assumption.
Qed.

Lemma byte_format (v : Z) :
  is_channel v ->
  exists x y,
    format_02X v = two x y /\ is_hex_char x = true /\ is_hex_char y = true /\
    upper_char x = x /\ upper_char y = y /\ Ascii.eqb x "#"%char = false /\
    int16 (two x y) = Ok v.
Proof.
  intro R. unfold is_channel in R. pose proof byte_round_trip_all as H.
  rewrite forallb_forall in H. specialize (H (Z.to_nat v)).
  assert (I : In (Z.to_nat v) (seq 0 256)) by (apply in_seq; lia).
  specialize (H I). unfold byte_round_trip in H. rewrite Z2Nat.id in H by lia.
  destruct (format_02X v) as [|x [|y [|z s]]]; try discriminate H.
  repeat (apply andb_prop in H; destruct H as [H ?]).
  destruct (int16 (two x y)) as [w|] eqn:Ew; [|discriminate].
  exists x, y. repeat split; try assumption.
  - now apply Ascii.eqb_eq.
  - now apply Ascii.eqb_eq.
  - now apply negb_true_iff.
  - rewrite Ew. f_equal. now apply Z.eqb_eq.
Qed.

Lemma half_way_range (v : Z) : is_channel v -> (v <= half_way v <= 255)%Z.
Proof.
  unfold is_channel, half_way. intro R.
  pose proof (Z.div_mod (v + 255) 2 ltac:(lia)).
  pose proof (Z.mod_pos_bound (v + 255) 2 ltac:(lia)). lia.
Qed.

Lemma three_fifths_range (v : Z) : is_channel v -> (v <= three_fifths v <= 255)%Z.
Proof.
  unfold is_channel, three_fifths. intro R.
  pose proof (Z.div_mod (2 * v + 765) 5 ltac:(lia)).
  pose proof (Z.mod_pos_bound (2 * v + 765) 5 ltac:(lia)). lia.
Qed.

(** Formatting three channels and reading the colour back. *)
Lemma channels_rgb (r g b : Z) :
  is_channel r -> is_channel g -> is_channel b ->
  valid_hex6 (rgb r g b) = true /\
  upper (rgb r g b) = rgb r g b /\
  channels (rgb r g b) = Some (r, g, b).
Proof.
  intros Rr Rg Rb.
  destruct (byte_format r Rr) as (x1 & y1 & F1 & A1 & B1 & U1 & V1 & _ & I1).
  destruct (byte_format g Rg) as (x2 & y2 & F2 & A2 & B2 & U2 & V2 & _ & I2).
  destruct (byte_format b Rb) as (x3 & y3 & F3 & A3 & B3 & U3 & V3 & _ & I3).
  unfold rgb. rewrite F1, F2, F3. unfold two. cbn [String.append]. split; [|split].
  - cbn. now rewrite A1, B1, A2, B2, A3, B3.
  - unfold upper. cbn [str_map]. rewrite U1, V1, U2, V2, U3, V3. reflexivity.
  - cbn [channels]. unfold channel_of. now rewrite I1, I2, I3.
Qed.

(** X25. On a valid six-digit colour the default factor 0.5 and the
    builder's factor 0.6 give exactly the channels moved half the way, and
    three fifths of the way, to 255, rounded down: the floating-point
    computation loses nothing. The result is again a valid colour, in upper
    case, with no channel darker than before, so it can be lightened
    again. *)
Theorem lighten_color_factors (c : string) :
  valid_hex6 c = true ->
  exists r g b,
    channels c = Some (r, g, b) /\
    is_channel r /\ is_channel g /\ is_channel b /\
    lighten_color c (NFloat 0.5%float) = rgb (half_way r) (half_way g) (half_way b) /\
    lighten_color c (NFloat 0.6%float)
    = rgb (three_fifths r) (three_fifths g) (three_fifths b) /\
    (forall f, In f [NFloat 0.5%float; NFloat 0.6%float] ->
       valid_hex6 (lighten_color c f) = true /\
       upper (lighten_color c f) = lighten_color c f /\
       exists r' g' b',
         channels (lighten_color c f) = Some (r', g', b') /\
         (r <= r' <= 255)%Z /\ (g <= g' <= 255)%Z /\ (b <= b' <= 255)%Z).
Proof.
  intro V.
  destruct (valid_hex6_inv c V)
    as (d1 & d2 & d3 & d4 & d5 & d6 & -> & H1 & H2 & H3 & H4 & H5 & H6).
  destruct (channel_factors_hex d1 d2 H1 H2) as (r & Er & Rr & Hr & Tr).
  destruct (channel_factors_hex d3 d4 H3 H4) as (g & Eg & Rg & Hg & Tg).
  destruct (channel_factors_hex d5 d6 H5 H6) as (b & Eb & Rb & Hb & Tb).
  pose proof (lighten_color_six d1 d2 d3 d4 d5 d6 (NFloat 0.5%float) r g b _ _ _
                (hex_char_not_hash d1 H1) Er Eg Eb Hr Hg Hb) as L5.
  pose proof (lighten_color_six d1 d2 d3 d4 d5 d6 (NFloat 0.6%float) r g b _ _ _
                (hex_char_not_hash d1 H1) Er Eg Eb Tr Tg Tb) as L6.
  fold (rgb (half_way r) (half_way g) (half_way b)) in L5.
  fold (rgb (three_fifths r) (three_fifths g) (three_fifths b)) in L6.
  pose proof (half_way_range r Rr) as Ar. pose proof (half_way_range g Rg) as Ag.
  pose proof (half_way_range b Rb) as Ab.
  pose proof (three_fifths_range r Rr) as Br. pose proof (three_fifths_range g Rg) as Bg.
  pose proof (three_fifths_range b Rb) as Bb.
  exists r, g, b. split.
  { unfold channels, six, channel_of. now rewrite Er, Eg, Eb. }
  split; [exact Rr|]. split; [exact Rg|]. split; [exact Rb|].
  split; [exact L5|]. split; [exact L6|].
  intros f [<-|[<-|[]]].
  - rewrite L5.
    destruct (channels_rgb (half_way r) (half_way g) (half_way b)) as (X & Y & Z);
      try (unfold is_channel in *; lia).
    split; [exact X|]. split; [exact Y|]. now exists (half_way r), (half_way g), (half_way b).
  - rewrite L6.
    destruct (channels_rgb (three_fifths r) (three_fifths g) (three_fifths b)) as (X & Y & Z);
      try (unfold is_channel in *; lia).
    split; [exact X|]. split; [exact Y|].
    now exists (three_fifths r), (three_fifths g), (three_fifths b).
Qed.

Lemma lighten_color_factors_witness :
  valid_hex6 "#1f77b4" = true /\
  exists r g b,
    channels "#1f77b4" = Some (r, g, b) /\
    lighten_color "#1f77b4" (NFloat 0.6%float)
    = rgb (three_fifths r) (three_fifths g) (three_fifths b).
Proof.
  split; [reflexivity|].
  destruct (lighten_color_factors "#1f77b4" eq_refl) as (r & g & b & C & _ & _ & _ & _ & L & _).
  exists r, g, b. split; [exact C | exact L].
Defined.

(** X26. The leading [#] is optional, and a three-character colour (its
    first character not being [#]) stands for the colour with each character
    doubled, whatever the factor and whether or not the characters are
    hexadecimal digits: both spellings give the same result, also when the
    result is the error fallback. *)
Theorem lighten_color_shorthand (a b c : ascii) (f : pynum) :
  Ascii.eqb a "#"%char = false ->
  lighten_color (String "#"%char (String a (String b (String c EmptyString)))) f
  = lighten_color (String "#"%char (six a a b b c c)) f /\
  lighten_color (String a (String b (String c EmptyString))) f
  = lighten_color (String "#"%char (six a a b b c c)) f /\
  lighten_color (six a a b b c c) f = lighten_color (String "#"%char (six a a b b c c)) f.
Proof.
  intro N. unfold lighten_color, lstrip_hash, six. cbn [lstrip_by]. rewrite N.
  cbn [Ascii.eqb Bool.eqb]. repeat split.
Qed.

Lemma lighten_color_shorthand_witness :
  lighten_color "#abc" (NFloat 0.5%float) = lighten_color "#aabbcc" (NFloat 0.5%float) /\
  lighten_color "#aabbcc" (NFloat 0.5%float) = "#D4DDE5".
Proof.
  split; [|reflexivity].
  exact (proj1 (lighten_color_shorthand "a" "b" "c" (NFloat 0.5%float) eq_refl)).
Defined.

(** * Further properties of the text matcher *)

Lemma prefix_app (a b : string) :
  prefix a b = true <-> exists s, b = String.append a s.
Proof.
  revert a. induction b as [|y b IH]; intros [|x a]; cbn.
  - split; [intros _; now exists EmptyString | intros _; reflexivity].
  - split; [discriminate | intros (s & H); discriminate H].
  - split; [intros _; now exists (String y b) | intros _; reflexivity].
  - destruct (ascii_dec x y) as [->|N].
    + rewrite IH. split; intros (s & H); exists s; [now rewrite H | now injection H].
    + split; [discriminate|]. intros (s & H). injection H as H1 H2. now elim N.
Qed.

Lemma str_contains_app (a b : string) :
  str_contains a b = true <-> exists p s, b = String.append p (String.append a s).
Proof.
  induction b as [|y b IH].
  - cbn [str_contains]. rewrite orb_false_r, prefix_app. split.
    + intros (s & H). now exists EmptyString, s.
    + intros ([|z p] & s & H); [now exists s | discriminate H].
  - cbn [str_contains]. rewrite orb_true_iff, prefix_app, IH. split.
    + intros [(s & H)|(p & s & H)].
      * now exists EmptyString, s.
      * exists (String y p), s. cbn. now rewrite H.
    + intros ([|z p] & s & H).
      * left. now exists s.
      * right. injection H as _ H. now exists p, s.
Qed.

Lemma string_app_assoc (a b c : string) :
  String.append (String.append a b) c = String.append a (String.append b c).
Proof. induction a as [|x a IH]; cbn; [reflexivity | now rewrite IH]. Qed.

Lemma str_contains_trans (a b c : string) :
  str_contains a b = true -> str_contains b c = true -> str_contains a c = true.
Proof.
  rewrite !str_contains_app. intros (p & s & ->) (p' & s' & ->).
  exists (String.append p' p), (String.append s s'). now rewrite !string_app_assoc.
Qed.

Lemma filter_filter_implied {A : Type} (p p' : A -> bool) (l : list A) :
  (forall x, p' x = true -> p x = true) -> filter p' (filter p l) = filter p' l.
Proof.
  intro H. induction l as [|x l IH]; [reflexivity|]. cbn.
  destruct (p x) eqn:P; cbn.
  - now rewrite IH.
  - destruct (p' x) eqn:P'; [|exact IH]. rewrite (H x P') in P. discriminate P.
Qed.

(** X27. Typing more only narrows the result. When a non-empty query [q]
    occurs in the query [q'], case ignored, searching for [q'] among the
    labels found for [q] gives what searching all labels for [q'] gives,
    and the labels found for [q'] are an order-preserving sublist of those
    found for [q]. *)
Theorem search_narrows (q q' : string) (L : list string) :
  q <> "" ->
  ci_match q q' = true ->
  perform_fuzzy_search (PStr q') (perform_fuzzy_search (PStr q) (map PStr L))
  = perform_fuzzy_search (PStr q') (map PStr L) /\
  exists R R',
    perform_fuzzy_search (PStr q) (map PStr L) = map PStr R /\
    perform_fuzzy_search (PStr q') (map PStr L) = map PStr R' /\
    sublist R' R.
Proof.
  intros N M.
  assert (I : forall l, ci_match q' l = true -> ci_match q l = true).
  { intros l H. unfold ci_match in *. now apply str_contains_trans with (lower q'). }
  assert (F : filter (ci_match q') (filter (ci_match q) L) = filter (ci_match q') L)
    by now apply filter_filter_implied.
  rewrite !perform_fuzzy_search_strings.
  destruct (String.eqb_spec q "") as [E|_]; [now elim N|].
  rewrite F. split; [reflexivity|].
  exists (filter (ci_match q) L).
  exists (if String.eqb q' "" then [] else filter (ci_match q') L).
  split; [reflexivity|]. split; [reflexivity|].
  destruct (String.eqb q' ""); [apply sublist_nil_l|].
  rewrite <- F. apply filter_sublist.
Qed.

Lemma search_narrows_witness :
  perform_fuzzy_search (PStr "Net")
    (perform_fuzzy_search (PStr "ne") (map PStr ["VNets"; "Functions"; "Kubernetes"]))
  = perform_fuzzy_search (PStr "Net") (map PStr ["VNets"; "Functions"; "Kubernetes"]) /\
  perform_fuzzy_search (PStr "ne") (map PStr ["VNets"; "Functions"; "Kubernetes"])
  = [PStr "VNets"; PStr "Kubernetes"] /\
  perform_fuzzy_search (PStr "Net") (map PStr ["VNets"; "Functions"; "Kubernetes"])
  = [PStr "VNets"; PStr "Kubernetes"].
Proof.
  split; [|split; reflexivity].
  refine (proj1 (search_narrows "ne" "Net" ["VNets"; "Functions"; "Kubernetes"] _ eq_refl)).
  discriminate.
Defined.

Lemma matching_labels_of_raises (q : string) (L : list pyval) :
  existsb (fun l => negb (is_str l)) L = true ->
  exists e, matching_labels_of q L = Raise e.
Proof.
  induction L as [|l L IH]; [discriminate|]. cbn [existsb matching_labels_of].
  destruct l as [| | | |s| |]; cbn [is_str negb orb py_lower bind];
    try (intros _; now eexists).
  intro H. destruct (IH H) as (e & ->). now exists e.
Qed.

(** X28. The matcher swallows its errors: a query that is not a string, or
    one label that is not a string, makes it return the empty list, whatever
    the other labels are, matching ones included. *)
Theorem perform_fuzzy_search_swallows (q : pyval) (L : list pyval) :
  is_str q = false \/ existsb (fun l => negb (is_str l)) L = true ->
  perform_fuzzy_search q L = [].
Proof.
  intro H. unfold perform_fuzzy_search.
  destruct (py_truthy q); [|reflexivity]. cbn [negb].
  destruct q as [| | | |s| |]; try reflexivity.
  destruct H as [H|H]; [discriminate H|].
  cbn [py_lower bind]. now destruct (matching_labels_of_raises (lower s) L H) as (e & ->).
Qed.

Lemma perform_fuzzy_search_swallows_witness :
  perform_fuzzy_search (PStr "vn") [PStr "VNets"; PNone] = [] /\
  perform_fuzzy_search (PStr "vn") [PStr "VNets"] = [PStr "VNets"] /\
  perform_fuzzy_search (PInt 7) [PStr "VNets"] = [].
Proof.
  split; [|split; [reflexivity|]].
  - exact (perform_fuzzy_search_swallows (PStr "vn") [PStr "VNets"; PNone]
             (or_intror eq_refl)).
  - reflexivity.
Defined.

(** * The builder and the reducer together *)

Lemma built_element_search_clear (c : central) (ps : primaries) (subs : subcategories)
    (R : list string) (e : pyval) :
  In e (load_graph_elements c ps subs) ->
  cleared_element (searched_element R e) = e.
Proof.
  intro I. destruct (built_element_kinds c ps subs e I) as [(n & -> & K)|(x & ->)].
  - destruct n as [id label description notes color classes]. cbn [node_classes] in K.
    unfold searched_element, marked_element.
    destruct K as [<-|[<-|[<-|[]]]]; destruct R as [|r R]; try reflexivity.
    + change (cleared_element (node_element _)) with
        (node_element {| node_id := id; node_label := label; node_description := description;
                         node_notes := notes; node_color := color;
                         node_classes := "central-node" |}).
      change (is_node (node_element _)) with true. cbv iota.
      now destruct (str_in_list _ (r :: R)).
    + change (cleared_element (node_element _)) with
        (node_element {| node_id := id; node_label := label; node_description := description;
                         node_notes := notes; node_color := color;
                         node_classes := "primary-node" |}).
      change (is_node (node_element _)) with true. cbv iota.
      now destruct (str_in_list _ (r :: R)).
    + change (cleared_element (node_element _)) with
        (node_element {| node_id := id; node_label := label; node_description := description;
                         node_notes := notes; node_color := color;
                         node_classes := "subnode" |}).
      change (is_node (node_element _)) with true. cbv iota.
      now destruct (str_in_list _ (r :: R)).
  - unfold searched_element. now destruct R.
Qed.

(** X29. Clearing the search restores a built document exactly: after a
    search for any text on the document built from any taxonomy, a search
    with the empty text on the elements returned gives back the built
    elements, marker gone and every class as it was, with the message "Search
    cleared. All nodes are visible.". *)
Theorem search_then_clear_built (json_dumps : pyval -> option string)
    (json_loads : string -> option pyval) (i : inputs) (w : world)
    (prop_id : string) (rest : list string) (q : string)
    (c : central) (ps : primaries) (subs : subcategories) :
  triggered i = prop_id :: rest ->
  before_dot prop_id = "node-search" ->
  search_value i = PStr q ->
  current_elements i = PList (load_graph_elements c ps subs) ->
  exists o,
    handle_interactions json_dumps json_loads i w = (Ok o, w) /\
    forall (i' : inputs) (prop_id' : string) (rest' : list string),
      triggered i' = prop_id' :: rest' ->
      before_dot prop_id' = "node-search" ->
      search_value i' = PStr "" ->
      current_elements i' = new_elements o ->
      exists o',
        handle_interactions json_dumps json_loads i' w = (Ok o', w) /\
        new_elements o' = PList (load_graph_elements c ps subs) /\
        node_info o' = InfoText "Search cleared. All nodes are visible.".
Proof.
  intros T B Sv Ce.
  set (l := load_graph_elements c ps subs) in *.
  assert (Sh : forallb element_shape l = true).
  { apply forallb_forall. intros e I.
    pose proof (built_elements_ready c ps subs e I) as R. unfold ready_element in R.
    destruct (search_element e) eqn:S; [|discriminate R].
    unfold search_element in S. now apply andb_prop in S. }
  rewrite (dispatch_search _ _ _ _ _ _ T B), (handle_search_exact i q l Sv Ce Sh).
  eexists. split; [reflexivity|].
  cbn [new_elements set_node_info set_elements].
  set (l1 := map (searched_element (matches_of q l)) l).
  assert (Sh1 : forallb element_shape l1 = true).
  { apply forallb_forall. intros e I. apply in_map_iff in I. destruct I as (e0 & <- & I).
    apply searched_element_shape. rewrite forallb_forall in Sh. now apply Sh. }
  intros i' prop_id' rest' T' B' Sv' Ce'.
  rewrite (dispatch_search _ _ _ _ _ _ T' B'), (handle_search_exact i' "" l1 Sv' Ce' Sh1).
  eexists. split; [reflexivity|]. cbn [new_elements node_info set_node_info set_elements].
  split; [|reflexivity]. f_equal. unfold l1. rewrite map_map.
  rewrite <- (map_id l) at 2. apply map_ext_in. intros e I.
  change (matches_of "" (map (searched_element (matches_of q l)) l)) with (@nil string).
  cbn [searched_element]. now apply built_element_search_clear with c ps subs.
Qed.

Lemma search_then_clear_built_witness :
  exists o o',
    handle_interactions (table_dumps []) (table_loads [])
      (search_inputs "net" (PList (load_graph_elements central_node primary_nodes subnodes)))
      fresh_world = (Ok o, fresh_world) /\
    handle_interactions (table_dumps []) (table_loads [])
      (search_inputs "" (new_elements o)) fresh_world = (Ok o', fresh_world) /\
    new_elements o' = PList (load_graph_elements central_node primary_nodes subnodes).
Proof.
  destruct (search_then_clear_built (table_dumps []) (table_loads [])
              (search_inputs "net"
                 (PList (load_graph_elements central_node primary_nodes subnodes)))
              fresh_world "node-search.value" [] "net" central_node primary_nodes subnodes
              eq_refl eq_refl eq_refl eq_refl)
    as (o & H & K).
  destruct (K (search_inputs "" (new_elements o)) "node-search.value" []
              eq_refl eq_refl eq_refl eq_refl) as (o' & H' & E & _).
  exists o, o'. split; [exact H|]. split; [exact H' | exact E].
Defined.
